(** * Pants goal and rule bodies: a shallow embedding

    This development embeds three source files of the Pants build tool:

    - [core/goals/test.py]: the [test] goal ([run_tests]) and the result
      types it sorts and summarises, with their messages, levels and
      artifacts, and the coverage reports it materializes;
    - [backend/go/util_rules/sdk.py]: [GoSdkProcess], the rule
      [setup_go_sdk_process] that turns it into a [Process], and the rule
      [compute_go_tool_id];
    - [backend/awslambda/python/target_types.py]: the handler field, the
      handler resolution rule [resolve_python_aws_handler], the inference
      of the dependency on the handler, and the [runtime] field.

    Rule bodies are Python coroutines that suspend on [await Get(...)]:
    they are embedded as resumptions (a free monad over the requests a body
    can issue), and run against a handler that plays the engine, the
    console, the workspace and the interactive runner.  Python [int] is
    [Z], [Optional[T]] is [option T], [str] is [string] (the UTF-8 bytes;
    byte-wise lexicographic order is code-point order), dictionaries are
    [gmap]s. *)

From Stdlib Require Import ZArith String Ascii List Bool Lia Permutation Sorted.
From Stdlib Require OrderedTypeEx.
From Stdlib Require DecimalString.
From stdpp Require Import base option list strings gmap fin_maps.

Local Open Scope string_scope.
Local Open Scope Z_scope.

(* ===================================================================== *)
(** ** Rule bodies as resumptions *)
(* ===================================================================== *)

Module Engine.

(** What running a rule body ends in: a value, or a raised exception. *)
Inductive outcome (Exn A : Type) : Type :=
| Ok (a : A)
| Err (e : Exn).
Arguments Ok {Exn A} a.
Arguments Err {Exn A} e.

Section Rule.
Context {E : Type -> Type} {Exn : Type}.

(** A rule body: it returns, raises, or issues a request [e : E X] and
    resumes with the answer.  [await Get(T, req)] is [Vis (GetT req) k];
    a call on an injected object with side effects (console, workspace,
    interactive runner) is a request too. *)
Inductive rule (A : Type) : Type :=
| Ret (a : A)
| Raise (e : Exn)
| Vis {X : Type} (e : E X) (k : X -> rule A).

Arguments Ret {A} a.
Arguments Raise {A} e.
Arguments Vis {A X} e k.

Fixpoint bind {A B : Type} (m : rule A) (f : A -> rule B) : rule B :=
  match m with
  | Ret a => f a
  | Raise e => Raise e
  | Vis e k => Vis e (fun x => bind (k x) f)
  end.

(** A single request, awaited. *)
Definition trigger {X : Type} (e : E X) : rule X := Vis e Ret.

(** [await MultiGet(Get(T, x) for x in xs)]: one request per element,
    answers delivered in request order. *)
Fixpoint multi_get {A X : Type} (get : A -> E X) (xs : list A) : rule (list X) :=
  match xs with
  | [] => Ret []
  | x :: xs' =>
      Vis (get x) (fun r => bind (multi_get get xs') (fun rs => Ret (r :: rs)))
  end.

(** [for x in xs: body(x)] *)
Fixpoint for_each {A : Type} (xs : list A) (body : A -> rule unit) : rule unit :=
  match xs with
  | [] => Ret tt
  | x :: xs' => bind (body x) (fun _ => for_each xs' body)
  end.

(** A step of a run: the request issued and the answer it got. *)
Inductive event : Type :=
| Ev {X : Type} (e : E X) (x : X).

(** The environment of a run: it answers every request, threading a
    state of its own (so that the same request may be answered
    differently at different times). *)
Definition handler (S : Type) : Type := forall X : Type, E X -> S -> X * S.

(** Running a body against a handler gives its outcome, the final state
    of the environment, and the trace of requests and answers. *)
Fixpoint run {S A : Type} (h : handler S) (m : rule A) (s : S)
  : outcome Exn A * S * list event :=
  match m with
  | Ret a => (Ok a, s, [])
  | Raise e => (Err e, s, [])
  | Vis e k =>
      let '(x, s1) := h _ e s in
      let '(o, s2, tr) := run h (k x) s1 in
      (o, s2, Ev e x :: tr)
  end.

End Rule.

Arguments rule : clear implicits.
Arguments event : clear implicits.
Arguments handler : clear implicits.
Arguments Ret {E Exn A} a.
Arguments Raise {E Exn A} e.
Arguments Vis {E Exn A X} e k.
Arguments Ev {E X} e x.

Module Notations.
Notation "'let*' x ':=' m 'in' k" := (bind m (fun x => k))
  (at level 10, x name, m at level 100, k at level 200).
End Notations.

End Engine.

(* ===================================================================== *)
(** ** Properties of rule bodies *)
(* ===================================================================== *)

Module RuleSpec.
Import Engine.

(** The body only issues requests that satisfy [P]. *)
Inductive issues_only {E : Type -> Type} {Exn A : Type}
    (P : forall X, E X -> Prop) : rule E Exn A -> Prop :=
| issues_ret a : issues_only P (Ret a)
| issues_raise e : issues_only P (Raise e)
| issues_vis X (e : E X) k :
    P X e -> (forall x, issues_only P (k x)) -> issues_only P (Vis e k).

(** The body raises nothing, whatever the answers. *)
Inductive never_raises {E : Type -> Type} {Exn A : Type}
  : rule E Exn A -> Prop :=
| never_ret a : never_raises (Ret a)
| never_vis X (e : E X) k :
    (forall x, never_raises (k x)) -> never_raises (Vis e k).

(** The request of an event satisfies [P]. *)
Definition event_satisfies {E : Type -> Type} (P : forall X, E X -> Prop)
    (ev : event E) : Prop :=
  match ev with Ev e _ => P _ e end.

End RuleSpec.

(* ===================================================================== *)
(** ** Values shared by the three source files *)
(* ===================================================================== *)

(** [pants.engine.addresses.Address], as far as the sources read it: the
    directory of the target ([spec_path]) and its printed form ([spec],
    which is also what [str(address)] gives). *)
Record Address : Type := {
  spec_path : string;
  spec : string;
}.

(** [pants.engine.fs.Digest]: the fingerprint of a file-tree snapshot and
    its serialized length.  A digest object is always truthy. *)
Record Digest : Type := {
  fingerprint : string;
  serialized_bytes_length : Z;
}.

(** The line feed of Python's ["\n"]. *)
Definition LF : string := String (ascii_of_nat 10) EmptyString.

(* ===================================================================== *)
(** ** core/goals/test.py *)
(* ===================================================================== *)

Module TestGoal.
Import Engine Engine.Notations.

Inductive CoverageReportType : Type := CONSOLE | XML | HTML | RAW | JSON.

(** [CoverageReportType.value] *)
Definition value (t : CoverageReportType) : string :=
  match t with
  | CONSOLE => "console" | XML => "xml" | HTML => "html"
  | RAW => "raw" | JSON => "json"
  end.

(** [CoverageReportType.report_name]: the second member of the tuple
    when there is one, the value otherwise. *)
Definition report_name (t : CoverageReportType) : string :=
  match t with
  | CONSOLE => "report"
  | _ => value t
  end.

(** An instance of a subclass of [CoverageData]: the class it is an
    instance of ([type(data)]) and its contents. *)
Record CoverageData : Type := {
  data_cls : string;
  data : string;
}.

Inductive ShowOutput : Type := ALL | FAILED | NONE.

Module TestResult.
Record t : Type := {
  exit_code : option Z;
  stdout : string;
  stderr : string;
  address : Address;
  coverage_data : option CoverageData;
  xml_results : option Digest;
}.

Definition skip (addr : Address) : t :=
  {| exit_code := None; stdout := ""; stderr := ""; address := addr;
     coverage_data := None; xml_results := None |}.
End TestResult.

Module EnrichedTestResult.
Record t : Type := {
  exit_code : option Z;
  stdout : string;
  stderr : string;
  address : Address;
  output_setting : ShowOutput;
  coverage_data : option CoverageData;
  xml_results : option Digest;
}.

(** Truthiness of a [str]: non-empty. *)
Definition truthy_str (s : string) : bool :=
  match s with EmptyString => false | String _ _ => true end.

(** Truthiness of an [Optional] object whose class defines neither
    [__bool__] nor [__len__]: it is not [None]. *)
Definition truthy_opt {A : Type} (o : option A) : bool :=
  match o with None => false | Some _ => true end.

Definition skipped (r : t) : bool :=
  match exit_code r with None => true | Some _ => false end
  && negb (truthy_str (stdout r))
  && negb (truthy_str (stderr r))
  && negb (truthy_opt (coverage_data r))
  && negb (truthy_opt (xml_results r)).

Definition artifacts (r : t) : option (list (string * Digest)) :=
  match xml_results r with
  | None => None
  | Some d => Some [("xml_results_digest", d)]
  end.

(** [==] on [Optional[int]]. *)
Definition exit_code_eqb (a b : option Z) : bool :=
  match a, b with
  | None, None => true
  | Some x, Some y => x =? y
  | _, _ => false
  end.

(** [__lt__], for another [EnrichedTestResult] (the only values
    [run_tests] sorts). *)
Definition lt (self other : t) : bool :=
  if exit_code_eqb (exit_code self) (exit_code other) then
    String.ltb (spec (address self)) (spec (address other))
  else
    match exit_code self, exit_code other with
    | None, _ => true
    | _, None => false
    | Some x, Some y => x <? y
    end.
End EnrichedTestResult.

(** [sorted(...)] on a sequence of results.  Python's sort is stable and
    compares with [__lt__] only; so does this insertion sort, which puts
    an element after the elements of the sorted tail that are smaller
    than it, and before the first that is not.  [__lt__] being a strict
    weak order, the outcome of a stable sort does not depend on how it
    proceeds (see [stable_sort_unique] below). *)
Fixpoint insert (x : EnrichedTestResult.t) (l : list EnrichedTestResult.t)
  : list EnrichedTestResult.t :=
  match l with
  | [] => [x]
  | y :: l' =>
      if EnrichedTestResult.lt y x then y :: insert x l' else x :: y :: l'
  end.

Fixpoint sorted (l : list EnrichedTestResult.t) : list EnrichedTestResult.t :=
  match l with
  | [] => []
  | x :: l' => insert x (sorted l')
  end.

(** Two results that [__lt__] does not tell apart: neither is smaller
    than the other. *)
Definition equivalent (a b : EnrichedTestResult.t) : bool :=
  negb (EnrichedTestResult.lt a b) && negb (EnrichedTestResult.lt b a).

Record InteractiveProcess : Type := {
  argv : list string;
}.

Record InteractiveProcessResult : Type := {
  process_exit_code : Z;
}.

Record TestDebugRequest : Type := {
  process : option InteractiveProcess;
}.

(** A member of the [TestFieldSet] union: the fields to run tests on one
    target. *)
Record TestFieldSet : Type := {
  field_set_address : Address;
}.

Inductive CoverageReport : Type :=
| ConsoleCoverageReport (report : string)
| FilesystemCoverageReport (result_digest : Digest)
    (directory_to_materialize_to : string) (report_file : option string)
    (report_type : CoverageReportType).

Record CoverageReports : Type := {
  reports : list CoverageReport;
}.

(** A registered member of the [CoverageDataCollection] union: the class
    and the [element_type] it declares. *)
Record CoverageDataCollectionClass : Type := {
  collection_cls : string;
  element_type : string;
}.

(** [collection_cls(data)]: an instance of a collection class. *)
Record CoverageDataCollection : Type := {
  cls : CoverageDataCollectionClass;
  elements : list CoverageData;
}.

(** [union_membership.get(CoverageDataCollection)], in its order. *)
Definition UnionMembership : Type := list CoverageDataCollectionClass.

Record TestSubsystem : Type := {
  name : string;
  debug : bool;
  force : bool;
  output : ShowOutput;
  use_coverage : bool;
  open_coverage : bool;
}.

(** The console's pure methods; printing is a request. *)
Record Console : Type := {
  green : string -> string;
  red : string -> string;
}.

Record TargetsToValidFieldSetsRequest : Type := {
  field_set_superclass : string;
  goal_description : string;
  error_if_no_valid_targets : bool;
}.

Record TargetsToValidFieldSets : Type := {
  field_sets : list TestFieldSet;
}.

Record OpenFilesRequest : Type := {
  files : list string;
  error_if_open_not_found : bool;
}.

Record OpenFiles : Type := {
  processes : list InteractiveProcess;
}.

(** The goal, as returned: [Test(exit_code)].  [cast(int, ...)] does
    nothing at run time, so the code stored is whatever the loop left. *)
Record Test : Type := {
  exit_code : option Z;
}.

(** What [run_tests] asks of its environment. *)
Inductive GoalE : Type -> Type :=
| GetTargetsToValidFieldSets (req : TargetsToValidFieldSetsRequest)
    : GoalE TargetsToValidFieldSets
| GetTestDebugRequest (field_set : TestFieldSet) : GoalE TestDebugRequest
| GetFieldSetsWithSources (req : list TestFieldSet) : GoalE (list TestFieldSet)
| GetEnrichedTestResult (field_set : TestFieldSet) : GoalE EnrichedTestResult.t
| GetMergeDigests (digests : list Digest) : GoalE Digest
| GetCoverageReports (c : CoverageDataCollection) : GoalE CoverageReports
| GetOpenFiles (req : OpenFilesRequest) : GoalE OpenFiles
| ConsolePrintStderr (s : string) : GoalE unit
| InteractiveRunnerRun (p : InteractiveProcess) : GoalE InteractiveProcessResult
| WorkspaceWriteDigest (d : Digest) (path_prefix : option string) : GoalE unit.

(** The exceptions the body itself can raise. *)
Inductive GoalExn : Type :=
| KeyError (key : string).

Definition goal : Type -> Type := rule GoalE GoalExn.

(** The loop of the debug branch. *)
Fixpoint debug_loop (debug_requests : list TestDebugRequest) (exit_code : Z)
  : goal Z :=
  match debug_requests with
  | [] => Ret exit_code
  | debug_request :: rest =>
      match process debug_request with
      | None => debug_loop rest exit_code
      | Some p =>
          Vis (InteractiveRunnerRun p) (fun debug_result =>
            if negb (process_exit_code debug_result =? 0)
            then debug_loop rest (process_exit_code debug_result)
            else debug_loop rest exit_code)
      end
  end.

(** The summary loop over the sorted results. *)
Fixpoint summary_loop (console : Console) (results : list EnrichedTestResult.t)
    (exit_code : option Z) : goal (option Z) :=
  match results with
  | [] => Ret exit_code
  | result :: rest =>
      if EnrichedTestResult.skipped result then
        summary_loop console rest exit_code
      else if EnrichedTestResult.exit_code_eqb
                (EnrichedTestResult.exit_code result) (Some 0) then
        let sigil := green console "✓" in
        let status := "succeeded" in
        let* _ := trigger (ConsolePrintStderr
          (sigil ++ " " ++ spec (EnrichedTestResult.address result)
             ++ " " ++ status ++ ".")) in
        summary_loop console rest exit_code
      else
        let sigil := red console "𐄂" in
        let status := "failed" in
        let* _ := trigger (ConsolePrintStderr
          (sigil ++ " " ++ spec (EnrichedTestResult.address result)
             ++ " " ++ status ++ ".")) in
        summary_loop console rest (EnrichedTestResult.exit_code result)
  end.

(** [itertools.groupby(xs, key)], each group consumed as it is yielded:
    the maximal runs of consecutive elements with the same key. *)
Fixpoint groupby (xs : list CoverageData) : list (string * list CoverageData) :=
  match xs with
  | [] => []
  | x :: xs' =>
      match groupby xs' with
      | (k, g) :: groups =>
          if String.eqb (data_cls x) k then (k, x :: g) :: groups
          else (data_cls x, [x]) :: (k, g) :: groups
      | [] => [(data_cls x, [x])]
      end
  end.

(** The dictionary comprehension over the union members: a later member
    replaces an earlier one with the same [element_type]. *)
Definition coverage_types_to_collection_types (union_membership : UnionMembership)
  : gmap string CoverageDataCollectionClass :=
  foldl (fun d c => <[element_type c := c]> d) ∅ union_membership.

(** The loop that builds [coverage_collections]; the subscript raises
    [KeyError] for a class with no registered collection. *)
Fixpoint collect_coverage (types : gmap string CoverageDataCollectionClass)
    (groups : list (string * list CoverageData))
  : goal (list CoverageDataCollection) :=
  match groups with
  | [] => Ret []
  | (cls_of_data, group) :: rest =>
      match types !! cls_of_data with
      | None => Raise (KeyError cls_of_data)
      | Some c =>
          let* collections := collect_coverage types rest in
          Ret ({| cls := c; elements := group |} :: collections)
      end
  end.

(** [CoverageReport.materialize] of the two report classes. *)
Definition materialize_report (r : CoverageReport) : goal (option string) :=
  match r with
  | ConsoleCoverageReport report =>
      let* _ := trigger (ConsolePrintStderr (LF ++ report)) in
      Ret None
  | FilesystemCoverageReport result_digest dir report_file report_type =>
      let* _ := trigger (WorkspaceWriteDigest result_digest (Some dir)) in
      let* _ := trigger (ConsolePrintStderr
        (LF ++ "Wrote " ++ report_name report_type
           ++ " coverage report to `" ++ dir ++ "`")) in
      Ret report_file
  end.

(** [CoverageReports.materialize] *)
Fixpoint materialize (rs : list CoverageReport) : goal (list string) :=
  match rs with
  | [] => Ret []
  | r :: rest =>
      let* report_path := materialize_report r in
      let* report_paths := materialize rest in
      Ret (match report_path with
           | Some p => p :: report_paths
           | None => report_paths
           end)
  end.

(** The loop that materializes every collection's reports and gathers
    the files written. *)
Fixpoint materialize_all (cs : list CoverageReports) : goal (list string) :=
  match cs with
  | [] => Ret []
  | c :: rest =>
      let* report_files := materialize (reports c) in
      let* more := materialize_all rest in
      Ret (report_files ++ more)%list
  end.

(** The coverage block of [run_tests]. *)
Definition coverage_block (test_subsystem : TestSubsystem)
    (union_membership : UnionMembership) (results : list EnrichedTestResult.t)
  : goal unit :=
  let all_coverage_data := omap EnrichedTestResult.coverage_data results in
  let types := coverage_types_to_collection_types union_membership in
  let* coverage_collections := collect_coverage types (groupby all_coverage_data) in
  let* coverage_reports_collections :=
    multi_get GetCoverageReports coverage_collections in
  let* coverage_report_files := materialize_all coverage_reports_collections in
  if match coverage_report_files with [] => false | _ => true end
     && open_coverage test_subsystem
  then
    let* open_files := trigger (GetOpenFiles
      {| files := coverage_report_files; error_if_open_not_found := false |}) in
    for_each (processes open_files) (fun p =>
      let* _ := trigger (InteractiveRunnerRun p) in Ret tt)
  else Ret tt.

(** The two requests and the batch that produce the per-target results
    of the ordinary branch. *)
Definition request_results (test_subsystem : TestSubsystem)
  : goal (list EnrichedTestResult.t) :=
  let* targets_to_valid_field_sets := trigger (GetTargetsToValidFieldSets
    {| field_set_superclass := "TestFieldSet";
       goal_description := "the `" ++ name test_subsystem ++ "` goal";
       error_if_no_valid_targets := false |}) in
  let* field_sets_with_sources := trigger (GetFieldSetsWithSources
    (field_sets targets_to_valid_field_sets)) in
  multi_get GetEnrichedTestResult field_sets_with_sources.

(** The part of [run_tests] from the comment [# Print summary.] on:
    the summary, the merged XML results, the coverage reports, and the
    goal returned. *)
Definition summarize (console : Console) (test_subsystem : TestSubsystem)
    (union_membership : UnionMembership) (results : list EnrichedTestResult.t)
  : goal Test :=
  let* _ := match results with
            | [] => Ret tt
            | _ => trigger (ConsolePrintStderr "")
            end in
  let* exit_code := summary_loop console (sorted results) (Some 0) in
  let* merged_xml_results := trigger (GetMergeDigests
    (omap EnrichedTestResult.xml_results results)) in
  let* _ := trigger (WorkspaceWriteDigest merged_xml_results None) in
  let* _ := if use_coverage test_subsystem
            then coverage_block test_subsystem union_membership results
            else Ret tt in
  Ret {| exit_code := exit_code |}.

Definition run_tests (console : Console) (test_subsystem : TestSubsystem)
    (union_membership : UnionMembership) : goal Test :=
  if debug test_subsystem then
    let* targets_to_valid_field_sets := trigger (GetTargetsToValidFieldSets
      {| field_set_superclass := "TestFieldSet";
         goal_description := "`test --debug`";
         error_if_no_valid_targets := true |}) in
    let* debug_requests :=
      multi_get GetTestDebugRequest (field_sets targets_to_valid_field_sets) in
    let* exit_code := debug_loop debug_requests 0 in
    Ret {| exit_code := Some exit_code |}
  else
    let* results := request_results test_subsystem in
    summarize console test_subsystem union_membership results.

(** [enrich_test_result] *)
Definition enrich_test_result (test_result : TestResult.t)
    (test_subsystem : TestSubsystem) : EnrichedTestResult.t :=
  {| EnrichedTestResult.exit_code := TestResult.exit_code test_result;
     EnrichedTestResult.stdout := TestResult.stdout test_result;
     EnrichedTestResult.stderr := TestResult.stderr test_result;
     EnrichedTestResult.address := TestResult.address test_result;
     EnrichedTestResult.coverage_data := TestResult.coverage_data test_result;
     EnrichedTestResult.xml_results := TestResult.xml_results test_result;
     EnrichedTestResult.output_setting := output test_subsystem |}.

End TestGoal.

(* ===================================================================== *)
(** ** backend/go/util_rules/sdk.py *)
(* ===================================================================== *)

Module GoSdk.
Import Engine Engine.Notations.

(** [pants.engine.fs.EMPTY_DIGEST]: the digest of the empty snapshot. *)
Definition EMPTY_DIGEST : Digest :=
  {| fingerprint :=
       "e3b0c44298fc1c149afbf4c8996fb92427ae41e4649b934ca495991b7852b855";
     serialized_bytes_length := 0 |}.

Module GoSdkProcess.
Record t : Type := {
  command : list string;
  description : string;
  env : gmap string string;
  input_digest : Digest;
  working_dir : option string;
  output_files : list string;
  output_directories : list string;
  replace_sandbox_root_in_args : bool;
}.

(** [env or {}] *)
Definition env_or_empty (env : option (gmap string string)) : gmap string string :=
  match env with
  | Some e => e
  | None => ∅
  end.

(** [__init__], every keyword argument given. *)
Definition init (command : list string) (description : string)
    (env : option (gmap string string)) (input_digest : Digest)
    (working_dir : option string) (output_files output_directories : list string)
    (allow_downloads replace_sandbox_root_in_args : bool) : t :=
  {| command := command;
     description := description;
     env := if allow_downloads then env_or_empty env
            else <["GOPROXY" := "off"]> (env_or_empty env);
     input_digest := input_digest;
     working_dir := working_dir;
     output_files := output_files;
     output_directories := output_directories;
     replace_sandbox_root_in_args := replace_sandbox_root_in_args |}.

(** [GoSdkProcess(command, description=...)], every other keyword
    argument at its default: [env=None], [input_digest=EMPTY_DIGEST],
    [working_dir=None], no outputs, [allow_downloads=False],
    [replace_sandbox_root_in_args=False]. *)
Definition init_default (command : list string) (description : string) : t :=
  init command description None EMPTY_DIGEST None [] [] false false.
End GoSdkProcess.

Record FileContent : Type := {
  path : string;
  content : string;
}.

Module GoSdkRunSetup.
Record t : Type := {
  digest : Digest;
  script : FileContent;
}.
Definition CHDIR_ENV : string := "__PANTS_CHDIR_TO".
Definition SANDBOX_ROOT_ENV : string := "__PANTS_REPLACE_SANDBOX_ROOT".
End GoSdkRunSetup.

Record BashBinary : Type := {
  bash_path : string;
}.

Record GoRoot : Type := {
  goroot_path : string;
  version : string;
  goos : string;
  goarch : string;
}.

(** [GolangSubsystem.EnvironmentAware], as far as the rule reads it. *)
Record EnvironmentAware : Type := {
  env_vars_to_pass_to_subprocesses : list string;
}.

Inductive LogLevel : Type := TRACE | DEBUG | INFO | WARN | ERROR.

(** [pants.engine.process.Process], with the fields the rule sets. *)
Module Process.
Record t : Type := {
  argv : list string;
  env : gmap string string;
  input_digest : Digest;
  description : string;
  output_files : list string;
  output_directories : list string;
  level : LogLevel;
}.
End Process.

(** What [setup_go_sdk_process] asks of the engine. *)
Inductive SdkE : Type -> Type :=
| GetMergeDigests (digests : list Digest) : SdkE Digest
| GetEnvironmentVars (requested : list string) : SdkE (gmap string string).

Definition sdk_rule : Type -> Type := rule SdkE Empty_set.

Definition setup_go_sdk_process (request : GoSdkProcess.t)
    (go_sdk_run : GoSdkRunSetup.t) (bash : BashBinary)
    (golang_env_aware : EnvironmentAware) (goroot : GoRoot)
  : sdk_rule Process.t :=
  let* input_digest := trigger (GetMergeDigests
    [GoSdkRunSetup.digest go_sdk_run; GoSdkProcess.input_digest request]) in
  let* env_vars := trigger (GetEnvironmentVars
    (env_vars_to_pass_to_subprocesses golang_env_aware)) in
  let maybe_replace_sandbox_root_env : gmap string string :=
    if GoSdkProcess.replace_sandbox_root_in_args request
    then {[ GoSdkRunSetup.SANDBOX_ROOT_ENV := "1" ]}
    else ∅ in
  Ret {| Process.argv :=
           bash_path bash :: path (GoSdkRunSetup.script go_sdk_run)
             :: GoSdkProcess.command request;
         Process.env :=
           <["__PANTS_GO_SDK_CACHE_KEY" :=
               version goroot ++ "/" ++ goos goroot ++ "/" ++ goarch goroot]>
             (maybe_replace_sandbox_root_env ∪
                <[GoSdkRunSetup.CHDIR_ENV :=
                    match GoSdkProcess.working_dir request with
                    | Some d => d
                    | None => ""
                    end]>
                  (GoSdkProcess.env request ∪ env_vars));
         Process.input_digest := input_digest;
         Process.description := GoSdkProcess.description request;
         Process.output_files := GoSdkProcess.output_files request;
         Process.output_directories := GoSdkProcess.output_directories request;
         Process.level := DEBUG |}.

(** Modelled from the spec: the engine rule that answers
    [Get(EnvironmentVars, EnvironmentVarsRequest(names))] is not among the
    sources.  The spec has the variables passed through be "an explicit
    allow-list, never the full ambient environment": the answer is the
    ambient environment restricted to the requested names. *)
Definition environment_vars_subset (requested : list string)
    (ambient : gmap string string) : gmap string string :=
  filter (fun kv => kv.1 ∈ requested) ambient.

(** The engine of a run: it merges digests with [merge] and reads the
    ambient environment [ambient]. *)
Definition engine (merge : list Digest -> Digest) (ambient : gmap string string)
  : handler SdkE unit :=
  fun X e s =>
    match e in SdkE X return X * unit with
    | GetMergeDigests ds => (merge ds, s)
    | GetEnvironmentVars requested => (environment_vars_subset requested ambient, s)
    end.

(** *** A sample invocation *)

Definition sample_request : GoSdkProcess.t :=
  GoSdkProcess.init ["build"; "./..."] "Build the packages"
    (Some {[ "CGO_ENABLED" := "0" ]}) EMPTY_DIGEST (Some "src/go") [] []
    false true.

Definition sample_run_setup : GoSdkRunSetup.t :=
  {| GoSdkRunSetup.digest :=
       {| fingerprint := "0f1e"; serialized_bytes_length := 80 |};
     GoSdkRunSetup.script := {| path := "__run_go.sh"; content := "" |} |}.

Definition sample_bash : BashBinary := {| bash_path := "/bin/bash" |}.

Definition sample_goroot : GoRoot :=
  {| goroot_path := "/usr/lib/go"; version := "1.19.5";
     goos := "linux"; goarch := "amd64" |}.

Definition sample_env_aware : EnvironmentAware :=
  {| env_vars_to_pass_to_subprocesses := ["PATH"; "LANG"] |}.

(** Two ambient environments with the same [PATH], neither with [LANG],
    and different secrets. *)
Definition sample_ambient1 : gmap string string :=
  {[ "PATH" := "/usr/bin"; "HOME" := "/home/a"; "TOKEN" := "s3cr3t" ]}.

Definition sample_ambient2 : gmap string string :=
  {[ "PATH" := "/usr/bin"; "HOME" := "/home/b" ]}.

Definition sample_merge (digests : list Digest) : Digest :=
  {| fingerprint := String.concat "+" (map fingerprint digests);
     serialized_bytes_length :=
       foldr Z.add 0 (map serialized_bytes_length digests) |}.

End GoSdk.

(* ===================================================================== *)
(** ** Python's [str] methods and [posixpath], as the sources use them *)
(* ===================================================================== *)

Module PyStr.

(** [s.partition(sep)] for a separator of one character. *)
Fixpoint partition (sep : ascii) (s : string) : string * string * string :=
  match s with
  | EmptyString => ("", "", "")
  | String c s' =>
      if Ascii.eqb c sep then ("", String sep "", s')
      else let '(before, found, after) := partition sep s' in
           (String c before, found, after)
  end.

(** [s.startswith(prefix)] *)
Definition startswith (s prefix : string) : bool := String.prefix prefix s.

(** [s.endswith(suffix)] *)
Definition endswith (s suffix : string) : bool :=
  let n := String.length s in
  let m := String.length suffix in
  (m <=? n)%nat && String.eqb (substring (n - m) m s) suffix.

(** [s.replace(old, new)] for [old] and [new] of one character. *)
Fixpoint replace (old new : ascii) (s : string) : string :=
  match s with
  | EmptyString => EmptyString
  | String c s' => String (if Ascii.eqb c old then new else c) (replace old new s')
  end.

Fixpoint rfind_from (c : ascii) (s : string) (i last : Z) : Z :=
  match s with
  | EmptyString => last
  | String a s' => rfind_from c s' (i + 1) (if Ascii.eqb a c then i else last)
  end.

(** [s.rfind(c)]: the highest index of [c] in [s], or [-1]. *)
Definition rfind (c : ascii) (s : string) : Z := rfind_from c s 0 (-1).

(** [s.split(sep)] for a separator of one character. *)
Fixpoint split (sep : ascii) (s : string) : list string :=
  match s with
  | EmptyString => [""]
  | String c s' =>
      if Ascii.eqb c sep then "" :: split sep s'
      else match split sep s' with
           | h :: t => String c h :: t
           | [] => [String c ""]
           end
  end.

(** [sep.join(parts)] *)
Definition join (sep : string) (parts : list string) : string :=
  String.concat sep parts.

(** [s[:i]] and [s[i:]] for [0 <= i]. *)
Definition slice_to (s : string) (i : Z) : string := substring 0 (Z.to_nat i) s.
Definition slice_from (s : string) (i : Z) : string :=
  substring (Z.to_nat i) (String.length s - Z.to_nat i) s.

(** [c * n] *)
Fixpoint repeat_char (c : ascii) (n : nat) : string :=
  match n with
  | O => EmptyString
  | S n' => String c (repeat_char c n')
  end.

End PyStr.

Module PosixPath.
Import PyStr.

Definition sep : ascii := "/"%char.
Definition extsep : ascii := "."%char.
Definition curdir : string := ".".
Definition pardir : string := "..".

Definition isabs (s : string) : bool := startswith s "/".

(** [os.path.join(a, b)] *)
Definition join2 (a b : string) : string :=
  if startswith b "/" then b
  else if String.eqb a "" || endswith a "/" then a ++ b
  else a ++ "/" ++ b.

(** [os.path.join(a, *p)] *)
Definition join (a : string) (p : list string) : string := foldl join2 a p.

(** The loop of [genericpath._splitext] that skips the leading dots of
    the file name: is there a character other than a dot in
    [p[filenameIndex:dotIndex]]?  [count] is [dotIndex - filenameIndex]. *)
Fixpoint splitext_loop (p : string) (filenameIndex count : nat) : bool :=
  match count with
  | O => false
  | S count' =>
      match String.get filenameIndex p with
      | Some c =>
          if negb (Ascii.eqb c extsep) then true
          else splitext_loop p (S filenameIndex) count'
      | None => true
      end
  end.

(** [os.path.splitext(p)] *)
Definition splitext (p : string) : string * string :=
  let sepIndex := rfind sep p in
  let dotIndex := rfind extsep p in
  if (sepIndex <? dotIndex)
     && splitext_loop p (Z.to_nat (sepIndex + 1))
          (Z.to_nat (dotIndex - (sepIndex + 1)))
  then (slice_to p dotIndex, slice_from p dotIndex)
  else (p, "").

(** One turn of the loop of [normpath] over the components. *)
Definition normpath_step (initial_slashes : nat) (new_comps : list string)
    (comp : string) : list string :=
  if String.eqb comp "" || String.eqb comp "." then new_comps
  else if negb (String.eqb comp "..")
          || (Nat.eqb initial_slashes 0
              && match new_comps with [] => true | _ => false end)
          || match new_comps with
             | [] => false
             | _ => String.eqb (List.last new_comps "") ".."
             end
  then (new_comps ++ [comp])%list
  else match new_comps with
       | [] => new_comps
       | _ => removelast new_comps
       end.

(** [os.path.normpath(path)] *)
Definition normpath (path : string) : string :=
  if String.eqb path "" then "."
  else
    let initial_slashes : nat :=
      if startswith path "/" then
        if startswith path "//" && negb (startswith path "///") then 2%nat
        else 1%nat
      else 0%nat in
    let comps := foldl (normpath_step initial_slashes) [] (split sep path) in
    let path' := repeat_char sep initial_slashes ++ PyStr.join "/" comps in
    if String.eqb path' "" then "." else path'.

(** [os.path.abspath(path)], the process being in directory [cwd]. *)
Definition abspath (cwd path : string) : string :=
  normpath (if isabs path then path else join2 cwd path).

(** The length of [commonprefix([l1, l2])]. *)
Fixpoint common_prefix_length (l1 l2 : list string) : nat :=
  match l1, l2 with
  | x :: l1', y :: l2' =>
      if String.eqb x y then S (common_prefix_length l1' l2') else O
  | _, _ => O
  end.

Definition nonempty_components (p : string) : list string :=
  List.filter (fun x => negb (String.eqb x "")) (split sep p).

(** [os.path.relpath(path, start)]; [None] is the [ValueError] for an
    empty path. *)
Definition relpath (cwd path start : string) : option string :=
  if String.eqb path "" then None
  else
    let start_list := nonempty_components (abspath cwd start) in
    let path_list := nonempty_components (abspath cwd path) in
    let i := common_prefix_length start_list path_list in
    let rel_list :=
      (List.repeat pardir (length start_list - i) ++ drop i path_list)%list in
    match rel_list with
    | [] => Some curdir
    | a :: p => Some (join a p)
    end.

(** *** Normalized paths *)

(** The separator does not occur in [s]. *)
Fixpoint free_of_sep (s : string) : bool :=
  match s with
  | EmptyString => true
  | String a s' => negb (Ascii.eqb a sep) && free_of_sep s'
  end.

(** A component of a normalized path: a name that is not empty, is not
    [.] or [..], and holds no separator. *)
Definition plain (c : string) : Prop :=
  c <> "" /\ c <> "." /\ c <> ".." /\ free_of_sep c = true.

(** The last character of a string. *)
Fixpoint last_char (s : string) : option ascii :=
  match s with
  | EmptyString => None
  | String a EmptyString => Some a
  | String _ s' => last_char s'
  end.

End PosixPath.

(* ===================================================================== *)
(** ** backend/awslambda/python/target_types.py *)
(* ===================================================================== *)

Module AwsLambda.
Import Engine Engine.Notations.

(** *** The handler field and its resolution *)

Module PythonAwsLambdaHandlerField.
Record t : Type := {
  value : string;
  address : Address;
}.
Definition alias : string := "handler".
End PythonAwsLambdaHandlerField.

Record ResolvedPythonAwsHandler : Type := {
  val : string;
  file_name_used : bool;
}.

Record ResolvePythonAwsHandlerRequest : Type := {
  field : PythonAwsLambdaHandlerField.t;
}.

Module GlobMatchErrorBehavior.
Inductive t : Type := ignore | warn | error.
End GlobMatchErrorBehavior.

Record PathGlobs : Type := {
  globs : list string;
  glob_match_error_behavior : GlobMatchErrorBehavior.t;
  description_of_origin : string;
}.

Record Paths : Type := {
  files : list string;
  dirs : list string;
}.

Record SourceRoot : Type := {
  path : string;
}.

(** The exceptions of the rule body.  The message of
    [InvalidFieldException] names the field alias, the handler value,
    the address and the files matched; [ValueError] is what
    [os.path.relpath] raises for an empty path, and what
    [SourceRootRequest.for_file] raises for a path it refuses. *)
Inductive HandlerExn : Type :=
| InvalidFieldException (field_alias handler_val : string) (address : Address)
    (matched : list string)
| ValueError (message : string).

Section SourceRoots.
(** [SourceRootRequest] is a class of [pants.source.source_root], outside
    these sources.  Its values are kept abstract, and its class method
    [for_file] is a parameter: it makes the request for the source root
    of a file, or raises [ValueError], here [inr] with the message, for a
    path it refuses. *)
Context {SourceRootRequest : Type}.
Variable for_file : string -> SourceRootRequest + string.

(** What [resolve_python_aws_handler] asks of the engine. *)
Inductive HandlerE : Type -> Type :=
| GetPaths (req : PathGlobs) : HandlerE Paths
| GetSourceRoot (req : SourceRootRequest) : HandlerE SourceRoot.

(** [resolve_python_aws_handler], in a process whose working directory
    is [cwd] (which [os.path.relpath] reads).  The request for the source
    root is made, and may raise, before it is awaited. *)
Definition resolve_python_aws_handler (cwd : string)
    (request : ResolvePythonAwsHandlerRequest)
  : rule HandlerE HandlerExn ResolvedPythonAwsHandler :=
  let handler_val := PythonAwsLambdaHandlerField.value (field request) in
  let field_alias := PythonAwsLambdaHandlerField.alias in
  let address := PythonAwsLambdaHandlerField.address (field request) in
  let '(path_, _, func) := PyStr.partition ":" handler_val in
  if negb (PyStr.endswith path_ ".py") then
    Ret {| val := handler_val; file_name_used := false |}
  else
    let full_glob := PosixPath.join2 (spec_path address) path_ in
    let* handler_paths := trigger (GetPaths
      {| globs := [full_glob];
         glob_match_error_behavior := GlobMatchErrorBehavior.error;
         description_of_origin :=
           spec address ++ "'s `" ++ field_alias ++ "` field" |}) in
    match files handler_paths with
    | [handler_path] =>
        match for_file handler_path with
        | inr message => Raise (ValueError message)
        | inl source_root_request =>
            let* source_root := trigger (GetSourceRoot source_root_request) in
            match PosixPath.relpath cwd handler_path (path source_root) with
            | None => Raise (ValueError "no path specified")
            | Some stripped_source_path =>
                let '(module_base, _) :=
                  PosixPath.splitext stripped_source_path in
                let normalized_path :=
                  PyStr.replace PosixPath.sep "." module_base in
                Ret {| val := normalized_path ++ ":" ++ func;
                       file_name_used := true |}
            end
        end
    | matched =>
        Raise (InvalidFieldException field_alias handler_val address matched)
    end.

End SourceRoots.

Arguments HandlerE : clear implicits.
Arguments GetPaths {SourceRootRequest} req.
Arguments GetSourceRoot {SourceRootRequest} req.

(** *** The runtime field

    [\d] and [int] go by the Unicode property of each character, so here
    a [str] is the list of its code points. *)

Definition char : Type := N.
Definition str : Type := list char.

(** A literal of the source, all ASCII. *)
Definition lit (s : string) : str := map N_of_ascii (list_ascii_of_string s).

(** The patterns of [re] that the source uses. *)
Inductive regex : Type :=
| Str (s : str)                       (* literal characters *)
| Digit                               (* [\d] *)
| Cat (r1 r2 : regex)                 (* [r1 r2] *)
| Plus (r : regex)                    (* [r+], greedy *)
| Group (name : string) (r : regex).  (* [(?P<name>r)] *)

(** [PYTHON_RUNTIME_REGEX = r"python(?P<major>\d)\.(?P<minor>\d+)"] *)
Definition PYTHON_RUNTIME_REGEX : regex :=
  Cat (Str (lit "python"))
    (Cat (Group "major" Digit)
       (Cat (Str (lit "."))
          (Group "minor" (Plus Digit)))).

(** A match object: the text of each named group. *)
Definition match_object : Type := list (string * str).

Fixpoint strip_prefix (p s : str) : option str :=
  match p, s with
  | [], _ => Some s
  | a :: p', b :: s' => if N.eqb a b then strip_prefix p' s' else None
  | _ :: _, [] => None
  end.

Section Unicode.
(** The decimal digits of the Unicode database (category Nd) and their
    values: [decimal c] is [Some v] for a digit [c] of value [v]. *)
Variable decimal : char -> option Z.
(** [sys.get_int_max_str_digits()]: the greatest number of digits of a
    string that [int] converts, 4300 unless the interpreter is told
    otherwise; 0 stands for no limit, as in the interpreters that have
    none. *)
Variable max_str_digits : nat.

Definition is_digit (c : char) : bool :=
  match decimal c with Some _ => true | None => false end.

(** A continuation of the matcher: what to do with the rest of the
    text and the groups matched so far. *)
Definition cont : Type := str -> match_object -> option match_object.

(** The greedy repetition [r+], [step] being the matcher of [r]: match
    [r] once, then prefer another turn (if the last one consumed some
    text) to going on with [k].  [n] bounds the number of turns; one
    more than the length of the text is never reached. *)
Fixpoint plus_loop (step : str -> match_object -> cont -> option match_object)
    (k : cont) (n : nat) (s : str) (g : match_object) {struct n}
  : option match_object :=
  match n with
  | O => None
  | S n' =>
      step s g (fun s' g' =>
        match (if (length s' <? length s)%nat
               then plus_loop step k n' s' g' else None) with
        | Some m => Some m
        | None => k s' g'
        end)
  end.

(** The backtracking matcher: match [r] at the start of [s], then hand
    the rest of the text and the groups so far to [k]; the first
    success in the order of preference (more repetitions first) wins. *)
Fixpoint go (r : regex) (s : str) (g : match_object) (k : cont) {struct r}
  : option match_object :=
  match r with
  | Str p =>
      match strip_prefix p s with
      | Some s' => k s' g
      | None => None
      end
  | Digit =>
      match s with
      | c :: s' => if is_digit c then k s' g else None
      | [] => None
      end
  | Cat r1 r2 => go r1 s g (fun s' g' => go r2 s' g' k)
  | Group name r' =>
      go r' s g (fun s' g' =>
        k s' ((name, take (length s - length s') s) :: g'))
  | Plus r' => plus_loop (go r') k (S (length s)) s g
  end.

(** [re.match(pattern, string)]: a match at the start of the string,
    not necessarily up to its end. *)
Definition re_match (pattern : regex) (s : str) : option match_object :=
  go pattern s [] (fun _ g => Some g).

(** [mo.group(name)] *)
Fixpoint group (mo : match_object) (name : string) : option str :=
  match mo with
  | [] => None
  | (n, text) :: mo' => if String.eqb n name then Some text else group mo' name
  end.

(** The number that a string of decimal digits denotes; [None] when a
    character is not a digit. *)
Fixpoint int_digits (s : str) (acc : Z) : option Z :=
  match s with
  | [] => Some acc
  | c :: s' =>
      match decimal c with
      | Some v => int_digits s' (10 * acc + v)
      | None => None
      end
  end.

(** [_PY_LONG_MAX_STR_DIGITS_THRESHOLD] of CPython: [int] does not look
    at the limit for a string of at most that many digits (and no limit
    under it can be set). *)
Definition max_str_digits_threshold : nat := 640.

(** The string is too long for [int]: the interpreter has a limit and
    the string has more digits than that. *)
Definition exceeds_limit (s : str) : bool :=
  (max_str_digits_threshold <? length s)%nat
  && negb (Nat.eqb max_str_digits 0) && (max_str_digits <? length s)%nat.

(** [int(s)]: the number for a non-empty string of decimal digits that
    is not too long; [None] is the [ValueError] for any other string. *)
Definition int (s : str) : option Z :=
  match s with
  | [] => None
  | _ => if exceeds_limit s then None else int_digits s 0
  end.

(** The longest run of decimal digits at the start of [s], and what
    follows it. *)
Fixpoint digits_prefix (s : str) : str * str :=
  match s with
  | c :: s' =>
      if is_digit c then
        let '(ds, rest) := digits_prefix s' in (c :: ds, rest)
      else ([], s)
  | [] => ([], [])
  end.

(** The language of a pattern: the texts it matches from end to end. *)
Inductive in_lang : regex -> str -> Prop :=
| in_str s : in_lang (Str s) s
| in_digit c : is_digit c = true -> in_lang Digit [c]
| in_cat r1 r2 s1 s2 :
    in_lang r1 s1 -> in_lang r2 s2 -> in_lang (Cat r1 r2) (s1 ++ s2)%list
| in_plus_once r s : in_lang r s -> in_lang (Plus r) s
| in_plus_more r s1 s2 :
    in_lang r s1 -> in_lang (Plus r) s2 -> in_lang (Plus r) (s1 ++ s2)%list
| in_group name r s : in_lang r s -> in_lang (Group name r) s.

(** "A string matching the regex", in the sense of [re.match]: the
    string starts with a text of the language of the pattern. *)
Definition matches_at_start (pattern : regex) (v : str) : Prop :=
  exists m rest, v = (m ++ rest)%list /\ in_lang pattern m.

End Unicode.

(** Modelled from the spec: [StringField.compute_value], which the
    runtime field inherits, is not among the sources.  The spec leaves
    field definitions outside the engine, as fixed typed fields of a target
    (sections 1 and 6); the model is what the caller relies on: a raw value
    of the declared type [Optional[str]] is passed through, and the
    [default] of the class stands in for a missing one. *)
Definition StringField_compute_value (default raw_value : option str)
  : option str :=
  match raw_value with
  | Some v => Some v
  | None => default
  end.

Inductive RuntimeExn : Type :=
| InvalidRuntime (field_alias : string) (address : Address) (value : str)
    (* [InvalidFieldException]: "must be of the form pythonX.Y, but was ..." *)
| AttributeError   (* [mo.group] on [None] *)
| IndexError       (* no such group *)
| IntValueError.   (* [ValueError]: [int] of a string it does not convert *)

Module PythonAwsLambdaRuntime.
Definition alias : string := "runtime".
Definition default : option str := None.

Definition compute_value (decimal : char -> option Z)
    (raw_value : option str) (address : Address)
  : outcome RuntimeExn (option str) :=
  let value := StringField_compute_value default raw_value in
  match value with
  | None => Ok None
  | Some v =>
      match re_match decimal PYTHON_RUNTIME_REGEX v with
      | None => Err (InvalidRuntime alias address v)
      | Some _ => Ok (Some v)
      end
  end.

(** [to_interpreter_version], [value] being the field's value. *)
Definition to_interpreter_version (decimal : char -> option Z)
    (max_str_digits : nat) (value : option str)
  : outcome RuntimeExn (option (Z * Z)) :=
  match value with
  | None => Ok None
  | Some v =>
      match re_match decimal PYTHON_RUNTIME_REGEX v with
      | None => Err AttributeError
      | Some mo =>
          match group mo "major", group mo "minor" with
          | Some major, Some minor =>
              match int decimal max_str_digits major,
                    int decimal max_str_digits minor with
              | Some a, Some b => Ok (Some (a, b))
              | _, _ => Err IntValueError
              end
          | _, _ => Err IndexError
          end
      end
  end.
End PythonAwsLambdaRuntime.

(** The ASCII digits, the part of the Unicode table that the examples
    below need. *)
Definition ascii_decimal (c : char) : option Z :=
  if ((48 <=? c) && (c <=? 57))%N then Some (Z.of_N c - 48) else None.

(** *** A sample repository *)

Definition sample_address : Address :=
  {| spec_path := "src/python/project"; spec := "src/python/project:lambda" |}.

(** The handler given by file name, and the same given as a module. *)
Definition sample_file_request : ResolvePythonAwsHandlerRequest :=
  {| field := {| PythonAwsLambdaHandlerField.value := "lambda.py:handler_func";
                 PythonAwsLambdaHandlerField.address := sample_address |} |}.

Definition sample_module_request : ResolvePythonAwsHandlerRequest :=
  {| field := {| PythonAwsLambdaHandlerField.value := "project.lambda:handler_func";
                 PythonAwsLambdaHandlerField.address := sample_address |} |}.

(** A constructor of requests for the examples: the request keeps the
    path of the file, and a path that is absolute or has a [..] segment is
    refused. *)
Definition sample_for_file (file_path : string) : string + string :=
  if PosixPath.isabs file_path
  then inr "SourceRootRequest path must be relative"
  else if existsb (String.eqb "..") (PyStr.split "/" file_path)
       then inr "SourceRootRequest cannot contain a `..` segment"
       else inl file_path.

(** An engine for a repository in which every glob names one file, and
    whose only source root is [src/python]. *)
Definition sample_engine : handler (HandlerE string) unit :=
  fun X e s =>
    match e in HandlerE _ X return X * unit with
    | GetPaths req => ({| files := globs req; dirs := [] |}, s)
    | GetSourceRoot _ => ({| path := "src/python" |}, s)
    end.

(** The same repository with the build root as its only source root. *)
Definition root_engine : handler (HandlerE string) unit :=
  fun X e s =>
    match e in HandlerE _ X return X * unit with
    | GetPaths req => ({| files := globs req; dirs := [] |}, s)
    | GetSourceRoot _ => ({| path := "." |}, s)
    end.

(** The limit of CPython on the digits of a string given to [int]. *)
Definition default_max_str_digits : nat := 4300.

End AwsLambda.

(* ===================================================================== *)
(** ** Reading a run of the [test] goal *)
(* ===================================================================== *)

Module TestGoalSpec.
Import Engine RuleSpec TestGoal.

(** *** What a trace of [run_tests] shows *)

(** The per-target result an event delivered, if it is one. *)
Definition result_of (ev : event GoalE) : option EnrichedTestResult.t :=
  match ev with
  | Ev e x =>
      match e in GoalE X return X -> option EnrichedTestResult.t with
      | GetEnrichedTestResult _ => fun r => Some r
      | _ => fun _ => None
      end x
  end.

(** The results of the batch, in request order. *)
Definition results_of (tr : list (event GoalE)) : list EnrichedTestResult.t :=
  omap result_of tr.

Definition field_sets_with_sources_of_event (ev : event GoalE)
  : list TestFieldSet :=
  match ev with
  | Ev e x =>
      match e in GoalE X return X -> list TestFieldSet with
      | GetFieldSetsWithSources _ => fun l => l
      | _ => fun _ => []
      end x
  end.

(** The eligible field sets: those the source filter let through. *)
Definition field_sets_with_sources_of (tr : list (event GoalE))
  : list TestFieldSet :=
  concat (map field_sets_with_sources_of_event tr).

Definition debug_request_of (ev : event GoalE) : option TestDebugRequest :=
  match ev with
  | Ev e x =>
      match e in GoalE X return X -> option TestDebugRequest with
      | GetTestDebugRequest _ => fun r => Some r
      | _ => fun _ => None
      end x
  end.

(** The debug requests the engine delivered, in request order. *)
Definition debug_requests_of (tr : list (event GoalE)) : list TestDebugRequest :=
  omap debug_request_of tr.

Definition interactive_run_of (ev : event GoalE)
  : option (InteractiveProcess * Z) :=
  match ev with
  | Ev e x =>
      match e in GoalE X return X -> option (InteractiveProcess * Z) with
      | InteractiveRunnerRun p => fun r => Some (p, process_exit_code r)
      | _ => fun _ => None
      end x
  end.

(** The processes run interactively, each with the exit code it gave. *)
Definition interactive_runs (tr : list (event GoalE))
  : list (InteractiveProcess * Z) :=
  omap interactive_run_of tr.

(** The requests of the part of [run_tests] that comes after the batch:
    none of them asks for targets, field sets, debug requests or
    per-target results. *)
Definition summary_request (X : Type) (e : GoalE X) : Prop :=
  match e with
  | GetTargetsToValidFieldSets _ | GetTestDebugRequest _
  | GetFieldSetsWithSources _ | GetEnrichedTestResult _ => False
  | _ => True
  end.

(** The requests of the loop of the debug branch. *)
Definition interactive_request (X : Type) (e : GoalE X) : Prop :=
  match e with
  | InteractiveRunnerRun _ => True
  | _ => False
  end.

(** *** The summary, as a function of the results *)

(** The exit code that [summary_loop] leaves. *)
Fixpoint summary_exit_code (results : list EnrichedTestResult.t)
    (exit_code : option Z) : option Z :=
  match results with
  | [] => exit_code
  | result :: rest =>
      if EnrichedTestResult.skipped result then summary_exit_code rest exit_code
      else if EnrichedTestResult.exit_code_eqb
                (EnrichedTestResult.exit_code result) (Some 0)
      then summary_exit_code rest exit_code
      else summary_exit_code rest (EnrichedTestResult.exit_code result)
  end.

(** A result that the summary counts as failed. *)
Definition failed (r : EnrichedTestResult.t) : bool :=
  negb (EnrichedTestResult.skipped r)
  && negb (EnrichedTestResult.exit_code_eqb
             (EnrichedTestResult.exit_code r) (Some 0)).

(** The last exit code other than zero, or zero: what the loop of the
    debug branch leaves. *)
Definition last_nonzero (codes : list Z) : Z :=
  foldl (fun acc c => if negb (c =? 0) then c else acc) 0 codes.

(** Every class of coverage data among the results has a registered
    collection. *)
Definition coverage_registered (union_membership : UnionMembership)
    (results : list EnrichedTestResult.t) : Prop :=
  Forall (fun d => is_Some
            (coverage_types_to_collection_types union_membership !! data_cls d))
    (omap EnrichedTestResult.coverage_data results).

(** The key [__lt__] sorts by: the exit code, none before any, then the
    address. *)
Definition exit_code_lt (a b : option Z) : Prop :=
  match a, b with
  | None, Some _ => True
  | Some x, Some y => x < y
  | _, None => False
  end.

(** *** The spec's sentences, word for word *)

(** Section 4.5 (5): "0 if every non-skipped result succeeded, otherwise
    the first non-zero code observed in sorted order". *)
Definition claimed_exit_code (results : list EnrichedTestResult.t) : option Z :=
  match List.find failed (sorted results) with
  | None => Some 0
  | Some r => EnrichedTestResult.exit_code r
  end.

Inductive category : Type := Skipped | Failed | Succeeded.

Definition category_of (r : EnrichedTestResult.t) : category :=
  if EnrichedTestResult.skipped r then Skipped
  else if failed r then Failed
  else Succeeded.

(** Section 4.5 (4): "primary key: outcome category --
    skipped/failed/succeeded". *)
Definition rank (c : category) : Z :=
  match c with
  | Skipped => 0
  | Failed => 1
  | Succeeded => 2
  end.

(** Section 4.5 (4): "secondary key: target identifier, lexical". *)
Definition claimed_lt (a b : EnrichedTestResult.t) : bool :=
  (rank (category_of a) <? rank (category_of b))
  || ((rank (category_of a) =? rank (category_of b))
      && String.ltb (spec (EnrichedTestResult.address a))
           (spec (EnrichedTestResult.address b))).

(** Section 4.5, the debug mode: "runs a single target's computation as an
    interactive, uncached process, surfacing that process's own exit code
    directly". *)
Definition claimed_debug_run (out : outcome GoalExn Test)
    (tr : list (event GoalE)) : Prop :=
  exists p code,
    interactive_runs tr = [(p, code)]
    /\ out = Ok {| exit_code := Some code |}.

(** *** A concrete environment *)

(** A repository and its tools: the targets, what testing each gives,
    the debug request of each, and the exit code of each interactive
    process. *)
Record World : Type := {
  targets : list TestFieldSet;
  has_sources : TestFieldSet -> bool;
  result_for : TestFieldSet -> EnrichedTestResult.t;
  debug_request_for : TestFieldSet -> TestDebugRequest;
  exit_code_for : InteractiveProcess -> Z;
}.

(** The handler of a world; its state is what the console has printed
    on standard error. *)
Definition world_handler (w : World) : handler GoalE (list string) :=
  fun X e s =>
    match e in GoalE X return X * list string with
    | GetTargetsToValidFieldSets _ => ({| field_sets := targets w |}, s)
    | GetTestDebugRequest fs => (debug_request_for w fs, s)
    | GetFieldSetsWithSources l => (List.filter (has_sources w) l, s)
    | GetEnrichedTestResult fs => (result_for w fs, s)
    | GetMergeDigests _ => (GoSdk.EMPTY_DIGEST, s)
    | GetCoverageReports _ => ({| reports := [] |}, s)
    | GetOpenFiles _ => ({| processes := [] |}, s)
    | ConsolePrintStderr line => (tt, (s ++ [line])%list)
    | InteractiveRunnerRun p => ({| process_exit_code := exit_code_for w p |}, s)
    | WorkspaceWriteDigest _ _ => (tt, s)
    end.

Definition target (name : string) : TestFieldSet :=
  {| field_set_address := {| spec_path := "src"; spec := "src:" ++ name |} |}.

Definition default_subsystem : TestSubsystem :=
  {| name := "test"; debug := false; force := false; output := FAILED;
     use_coverage := false; open_coverage := false |}.

Definition debug_subsystem : TestSubsystem :=
  {| name := "test"; debug := true; force := false; output := FAILED;
     use_coverage := false; open_coverage := false |}.

Definition plain_console : Console :=
  {| green := fun s => s; red := fun s => s |}.

(** A result with the given exit code and standard output. *)
Definition result_with (fs : TestFieldSet) (code : Z) (out : string)
  : EnrichedTestResult.t :=
  enrich_test_result
    {| TestResult.exit_code := Some code; TestResult.stdout := out;
       TestResult.stderr := ""; TestResult.address := field_set_address fs;
       TestResult.coverage_data := None; TestResult.xml_results := None |}
    default_subsystem.

Definition skipped_result (fs : TestFieldSet) : EnrichedTestResult.t :=
  enrich_test_result (TestResult.skip (field_set_address fs)) default_subsystem.

(** Three targets: [a] succeeds, [b] fails with exit code 5, [c] is
    skipped. *)
Definition three_targets : World :=
  {| targets := [target "a"; target "b"; target "c"];
     has_sources := fun _ => true;
     result_for := fun fs =>
       if String.eqb (spec (field_set_address fs)) "src:a"
       then result_with fs 0 "ok"
       else if String.eqb (spec (field_set_address fs)) "src:b"
       then result_with fs 5 "FAILED"
       else skipped_result fs;
     debug_request_for := fun _ => {| process := None |};
     exit_code_for := fun _ => 0 |}.

(** Two targets that fail, [a] with exit code 1 and [b] with 2. *)
Definition two_failures : World :=
  {| targets := [target "a"; target "b"];
     has_sources := fun _ => true;
     result_for := fun fs =>
       if String.eqb (spec (field_set_address fs)) "src:a"
       then result_with fs 1 "FAILED"
       else result_with fs 2 "FAILED";
     debug_request_for := fun _ => {| process := None |};
     exit_code_for := fun _ => 0 |}.

(** Two targets whose tests are all skipped. *)
Definition all_skipped : World :=
  {| targets := [target "a"; target "b"];
     has_sources := fun _ => true;
     result_for := skipped_result;
     debug_request_for := fun _ => {| process := None |};
     exit_code_for := fun _ => 0 |}.

(** Two targets in debug mode: the process of [a] exits with 3, that of
    [b] with 0. *)
Definition two_debug_targets : World :=
  {| targets := [target "a"; target "b"];
     has_sources := fun _ => true;
     result_for := skipped_result;
     debug_request_for := fun fs =>
       {| process := Some {| argv := ["pytest"; spec (field_set_address fs)] |} |};
     exit_code_for := fun p =>
       if decide (argv p = ["pytest"; "src:a"]) then 3 else 0 |}.

(** One target in debug mode, whose process exits with 3. *)
Definition one_debug_target : World :=
  {| targets := [target "a"];
     has_sources := fun _ => true;
     result_for := skipped_result;
     debug_request_for := fun fs =>
       {| process := Some {| argv := ["pytest"; spec (field_set_address fs)] |} |};
     exit_code_for := fun _ => 3 |}.

(** *** The requests of the ordinary branch *)

Definition valid_field_sets_of_event (ev : event GoalE)
  : option (list TestFieldSet) :=
  match ev with
  | Ev e x =>
      match e in GoalE X return X -> option (list TestFieldSet) with
      | GetTargetsToValidFieldSets _ => fun valid => Some (field_sets valid)
      | _ => fun _ => None
      end x
  end.

(** The valid field sets of the targets, as the engine gave them. *)
Definition valid_field_sets_of (tr : list (event GoalE))
  : list (list TestFieldSet) :=
  omap valid_field_sets_of_event tr.

Definition source_filter_request_of (ev : event GoalE)
  : option (list TestFieldSet) :=
  match ev with
  | Ev e _ =>
      match e with
      | GetFieldSetsWithSources req => Some req
      | _ => None
      end
  end.

(** The field sets that the source filter was asked about. *)
Definition source_filter_requests (tr : list (event GoalE))
  : list (list TestFieldSet) :=
  omap source_filter_request_of tr.

Definition result_request_of (ev : event GoalE) : option TestFieldSet :=
  match ev with
  | Ev e _ =>
      match e with
      | GetEnrichedTestResult field_set => Some field_set
      | _ => None
      end
  end.

(** The field sets whose result was asked for, in request order. *)
Definition result_requests (tr : list (event GoalE)) : list TestFieldSet :=
  omap result_request_of tr.

(** Section 8, the end-to-end scenario: "target C is skipped (no sources)
    -> final sort order is [C(skipped), A(success), B(failure)]". *)
Definition claimed_scenario_order (a b c : EnrichedTestResult.t)
  : list EnrichedTestResult.t :=
  [c; a; b].

(** The three targets again, [c] having no sources: the source filter
    leaves it out.  (Were its result asked for, it would be a skipped
    one.) *)
Definition three_targets_no_sources : World :=
  {| targets := [target "a"; target "b"; target "c"];
     has_sources := fun fs =>
       negb (String.eqb (spec (field_set_address fs)) "src:c");
     result_for := fun fs =>
       if String.eqb (spec (field_set_address fs)) "src:a"
       then result_with fs 0 "ok"
       else if String.eqb (spec (field_set_address fs)) "src:b"
       then result_with fs 5 "FAILED"
       else skipped_result fs;
     debug_request_for := fun _ => {| process := None |};
     exit_code_for := fun _ => 0 |}.

End TestGoalSpec.

(* ===================================================================== *)
(** ** core/goals/test.py, the rest of the result and report classes *)
(* ===================================================================== *)

Module TestGoalMore.
Import Engine RuleSpec TestGoal TestGoalSpec.

(** [EnrichedTestResult.level] *)
Definition level (r : EnrichedTestResult.t) : GoSdk.LogLevel :=
  if EnrichedTestResult.skipped r then GoSdk.DEBUG
  else if EnrichedTestResult.exit_code_eqb (EnrichedTestResult.exit_code r) (Some 0)
       then GoSdk.INFO
       else GoSdk.WARN.

(** *** [bytes.decode()]

    A [str] being the UTF-8 bytes of its text, decoding checks that the
    bytes are well-formed UTF-8 and gives them back. *)

Definition byte_in (lo hi : N) (a : ascii) : bool :=
  ((lo <=? N_of_ascii a) && (N_of_ascii a <=? hi))%N.

(** A continuation byte, [80..BF]. *)
Definition continuation (a : ascii) : bool := byte_in 128 191 a.

(** The well-formed byte sequences of UTF-8: no overlong form, no
    surrogate, nothing above U+10FFFF. *)
Fixpoint utf8_valid (s : string) : bool :=
  match s with
  | EmptyString => true
  | String a s1 =>
      if byte_in 0 127 a then utf8_valid s1
      else
        match s1 with
        | EmptyString => false
        | String b s2 =>
            if byte_in 194 223 a then continuation b && utf8_valid s2
            else
              match s2 with
              | EmptyString => false
              | String c s3 =>
                  if byte_in 224 239 a then
                    (if byte_in 224 224 a then byte_in 160 191 b
                     else if byte_in 237 237 a then byte_in 128 159 b
                     else continuation b)
                    && continuation c && utf8_valid s3
                  else
                    match s3 with
                    | EmptyString => false
                    | String d s4 =>
                        byte_in 240 244 a
                        && (if byte_in 240 240 a then byte_in 144 191 b
                            else if byte_in 244 244 a then byte_in 128 143 b
                            else continuation b)
                        && continuation c && continuation d && utf8_valid s4
                    end
              end
        end
  end.

(** [b.decode()]; [None] is [UnicodeDecodeError]. *)
Definition decode (b : string) : option string :=
  if utf8_valid b then Some b else None.

(** [pants.engine.process.FallibleProcessResult], as far as the class
    method reads it: the exit code and the two captured streams, in
    bytes. *)
Record FallibleProcessResult : Type := {
  process_result_exit_code : Z;
  process_result_stdout : string;
  process_result_stderr : string;
}.

Inductive DecodeExn : Type :=
| UnicodeDecodeError (stream : string).

(** [TestResult.from_fallible_process_result] *)
Definition from_fallible_process_result (process_result : FallibleProcessResult)
    (address : Address) (coverage_data : option CoverageData)
    (xml_results : option Digest) : outcome DecodeExn TestResult.t :=
  match decode (process_result_stdout process_result) with
  | None => Err (UnicodeDecodeError (process_result_stdout process_result))
  | Some stdout =>
      match decode (process_result_stderr process_result) with
      | None => Err (UnicodeDecodeError (process_result_stderr process_result))
      | Some stderr =>
          Ok {| TestResult.exit_code := Some (process_result_exit_code process_result);
                TestResult.stdout := stdout;
                TestResult.stderr := stderr;
                TestResult.address := address;
                TestResult.coverage_data := coverage_data;
                TestResult.xml_results := xml_results |}
      end
  end.

(** [CoverageReport.get_artifact]: nothing for the base class, the type
    and the digest for a report on disk. *)
Definition get_artifact (r : CoverageReport) : option (string * Digest) :=
  match r with
  | ConsoleCoverageReport _ => None
  | FilesystemCoverageReport result_digest _ _ report_type =>
      Some (value report_type, result_digest)
  end.

(** The dictionary that the loop of [CoverageReports.artifacts] fills. *)
Definition artifacts_dict (rs : list CoverageReport) : gmap string Digest :=
  foldl (fun artifacts report =>
           match get_artifact report with
           | None => artifacts
           | Some (k, d) => <[k := d]> artifacts
           end) ∅ rs.

(** [CoverageReports.artifacts]: [artifacts or None]. *)
Definition artifacts (c : CoverageReports) : option (gmap string Digest) :=
  if decide (artifacts_dict (reports c) = ∅) then None
  else Some (artifacts_dict (reports c)).

(** *** More of what a trace of [run_tests] shows *)

Definition printed_of (ev : event GoalE) : option string :=
  match ev with
  | Ev e x =>
      match e in GoalE X return X -> option string with
      | ConsolePrintStderr line => fun _ => Some line
      | _ => fun _ => None
      end x
  end.

(** The lines printed on standard error, in order. *)
Definition printed (tr : list (event GoalE)) : list string := omap printed_of tr.

Definition workspace_write_of (ev : event GoalE) : option (Digest * option string) :=
  match ev with
  | Ev e x =>
      match e in GoalE X return X -> option (Digest * option string) with
      | WorkspaceWriteDigest d path_prefix => fun _ => Some (d, path_prefix)
      | _ => fun _ => None
      end x
  end.

(** The digests written to the workspace, each with its path prefix. *)
Definition workspace_writes (tr : list (event GoalE))
  : list (Digest * option string) :=
  omap workspace_write_of tr.

Definition merge_of (ev : event GoalE) : option (list Digest * Digest) :=
  match ev with
  | Ev e x =>
      match e in GoalE X return X -> option (list Digest * Digest) with
      | GetMergeDigests ds => fun d => Some (ds, d)
      | _ => fun _ => None
      end x
  end.

(** The merges asked of the engine: the digests given and the answer. *)
Definition merges (tr : list (event GoalE)) : list (list Digest * Digest) :=
  omap merge_of tr.

Definition coverage_request_of (ev : event GoalE) : option CoverageDataCollection :=
  match ev with
  | Ev e x =>
      match e in GoalE X return X -> option CoverageDataCollection with
      | GetCoverageReports c => fun _ => Some c
      | _ => fun _ => None
      end x
  end.

(** The collections whose reports were asked for. *)
Definition coverage_requests (tr : list (event GoalE))
  : list CoverageDataCollection :=
  omap coverage_request_of tr.

(** The line of the summary for a result that is not skipped. *)
Definition summary_line (console : Console) (r : EnrichedTestResult.t) : string :=
  if EnrichedTestResult.exit_code_eqb (EnrichedTestResult.exit_code r) (Some 0)
  then green console "✓" ++ " " ++ spec (EnrichedTestResult.address r)
         ++ " " ++ "succeeded" ++ "."
  else red console "𐄂" ++ " " ++ spec (EnrichedTestResult.address r)
         ++ " " ++ "failed" ++ ".".

(** The requests of the debug branch. *)
Definition debug_branch_request (X : Type) (e : GoalE X) : Prop :=
  match e with
  | GetTargetsToValidFieldSets _ | GetTestDebugRequest _
  | InteractiveRunnerRun _ => True
  | _ => False
  end.

(** The requests that gather the results of the ordinary branch. *)
Definition gathering_request (X : Type) (e : GoalE X) : Prop :=
  match e with
  | GetTargetsToValidFieldSets _ | GetFieldSetsWithSources _
  | GetEnrichedTestResult _ => True
  | _ => False
  end.

(** The first class, in the order of the data, that has no registered
    collection. *)
Definition first_unregistered (types : gmap string CoverageDataCollectionClass)
    (classes : list string) : option string :=
  List.find (fun k => match types !! k with None => true | Some _ => false end)
    classes.

(** No two keys next to each other are the same. *)
Fixpoint adjacent_distinct (keys : list string) : Prop :=
  match keys with
  | k1 :: ((k2 :: _) as rest) => k1 <> k2 /\ adjacent_distinct rest
  | _ => True
  end.

(** The report file of a report, if it has one. *)
Definition report_file_of (r : CoverageReport) : option string :=
  match r with
  | ConsoleCoverageReport _ => None
  | FilesystemCoverageReport _ _ report_file _ => report_file
  end.

(** What a report writes to the workspace. *)
Definition report_write_of (r : CoverageReport) : option (Digest * option string) :=
  match r with
  | ConsoleCoverageReport _ => None
  | FilesystemCoverageReport d dir _ _ => Some (d, Some dir)
  end.

(** What a report prints. *)
Definition report_line_of (r : CoverageReport) : string :=
  match r with
  | ConsoleCoverageReport report => LF ++ report
  | FilesystemCoverageReport _ dir _ report_type =>
      LF ++ "Wrote " ++ report_name report_type
        ++ " coverage report to `" ++ dir ++ "`"
  end.

(** *** Sample data *)

Definition sample_digest (name : string) : Digest :=
  {| fingerprint := name; serialized_bytes_length := 1 |}.

(** A result with coverage data of the given class. *)
Definition result_with_coverage (fs : TestFieldSet) (code : Z) (cls_name : string)
  : EnrichedTestResult.t :=
  enrich_test_result
    {| TestResult.exit_code := Some code; TestResult.stdout := "";
       TestResult.stderr := ""; TestResult.address := field_set_address fs;
       TestResult.coverage_data := Some {| data_cls := cls_name; data := "" |};
       TestResult.xml_results := Some (sample_digest "xml") |}
    default_subsystem.

Definition coverage_subsystem : TestSubsystem :=
  {| name := "test"; debug := false; force := false; output := FAILED;
     use_coverage := true; open_coverage := false |}.

(** Two targets with coverage data of the class [PytestCoverageData]. *)
Definition covered_targets : World :=
  {| targets := [target "a"; target "b"];
     has_sources := fun _ => true;
     result_for := fun fs =>
       if String.eqb (spec (field_set_address fs)) "src:a"
       then result_with_coverage fs 0 "PytestCoverageData"
       else result_with_coverage fs 1 "PytestCoverageData";
     debug_request_for := fun _ => {| process := None |};
     exit_code_for := fun _ => 0 |}.

Definition three_reports : list CoverageReport :=
  [ConsoleCoverageReport "TOTAL 90%";
   FilesystemCoverageReport (sample_digest "html1") "dist/coverage/python/htmlcov"
     (Some "dist/coverage/python/htmlcov/index.html") HTML;
   FilesystemCoverageReport (sample_digest "html2") "dist/coverage/python/htmlcov"
     None HTML].

(** The requests of the coverage block. *)
Definition coverage_block_request (X : Type) (e : GoalE X) : Prop :=
  match e with
  | GetCoverageReports _ | GetOpenFiles _ | ConsolePrintStderr _
  | InteractiveRunnerRun _ | WorkspaceWriteDigest _ _ => True
  | _ => False
  end.

(** The two failing targets of [two_failures], delivered in the other
    order. *)
Definition two_failures_reversed : World :=
  {| targets := [target "b"; target "a"];
     has_sources := has_sources two_failures;
     result_for := result_for two_failures;
     debug_request_for := debug_request_for two_failures;
     exit_code_for := exit_code_for two_failures |}.


(** *** The coverage block in a trace *)

Definition coverage_answer_of (ev : event GoalE) : option CoverageReports :=
  match ev with
  | Ev e x =>
      match e in GoalE X return X -> option CoverageReports with
      | GetCoverageReports _ => fun reports => Some reports
      | _ => fun _ => None
      end x
  end.

(** The reports the engine delivered, one [CoverageReports] for each
    collection. *)
Definition coverage_answers (tr : list (event GoalE)) : list CoverageReports :=
  omap coverage_answer_of tr.

(** Every report the engine delivered, in order. *)
Definition delivered_reports (tr : list (event GoalE)) : list CoverageReport :=
  concat (map reports (coverage_answers tr)).

Definition open_request_of (ev : event GoalE)
  : option (OpenFilesRequest * OpenFiles) :=
  match ev with
  | Ev e x =>
      match e in GoalE X return X -> option (OpenFilesRequest * OpenFiles) with
      | GetOpenFiles req => fun open_files => Some (req, open_files)
      | _ => fun _ => None
      end x
  end.

(** The requests to open files, each with its answer. *)
Definition open_requests (tr : list (event GoalE))
  : list (OpenFilesRequest * OpenFiles) :=
  omap open_request_of tr.

(** The steps of materializing one report. *)
Definition report_events (r : CoverageReport) : list (event GoalE) :=
  match r with
  | ConsoleCoverageReport _ => [Ev (ConsolePrintStderr (report_line_of r)) tt]
  | FilesystemCoverageReport d dir _ _ =>
      [Ev (WorkspaceWriteDigest d (Some dir)) tt;
       Ev (ConsolePrintStderr (report_line_of r)) tt]
  end.

(** The last member of the union with the given element type. *)
Definition last_registered (union_membership : UnionMembership)
    (c : CoverageDataCollectionClass) : Prop :=
  exists earlier later,
    union_membership = (earlier ++ c :: later)%list
    /\ Forall (fun c' => element_type c' <> element_type c) later.

(** The world of [covered_targets], with an engine that delivers
    [three_reports] for every collection and one process to open the
    files asked for. *)
Definition reporting_handler : handler GoalE (list string) :=
  fun X e s =>
    match e in GoalE X return X * list string with
    | GetCoverageReports _ => ({| reports := three_reports |}, s)
    | GetOpenFiles req => ({| processes := [{| argv := "open" :: files req |}] |}, s)
    | e' => world_handler covered_targets _ e' s
    end.

Definition open_subsystem : TestSubsystem :=
  {| name := "test"; debug := false; force := false; output := FAILED;
     use_coverage := true; open_coverage := true |}.

Definition pytest_collection : CoverageDataCollectionClass :=
  {| collection_cls := "PytestCoverageDataCollection";
     element_type := "PytestCoverageData" |}.


(** The last report of the list with an artifact under the key [k] has
    the digest [d]. *)
Definition last_artifact (rs : list CoverageReport) (k : string) (d : Digest)
  : Prop :=
  exists earlier r later,
    rs = (earlier ++ r :: later)%list
    /\ get_artifact r = Some (k, d)
    /\ Forall (fun r' => forall d', get_artifact r' <> Some (k, d')) later.

Definition sample_process_result : FallibleProcessResult :=
  {| process_result_exit_code := 0;
     process_result_stdout := "";
     process_result_stderr := "" |}.


Definition sample_address_more : Address :=
  {| spec_path := "src"; spec := "src:a" |}.

End TestGoalMore.


(** ** Whitespace of [str]

    [str.strip], [str.rstrip] and [str.lstrip] without argument remove
    the characters for which [str.isspace] holds.  A [str] being the
    UTF-8 bytes of its text, a whitespace character is one of the byte
    sequences below. *)
Module PyText.

(** U+0009..U+000D, U+001C..U+001F and the space. *)
Definition ws1 (a : ascii) : bool :=
  let n := N_of_ascii a in
  (((9 <=? n) && (n <=? 13)) || ((28 <=? n) && (n <=? 32)))%N.

(** U+0085 and U+00A0. *)
Definition ws2 (a b : ascii) : bool :=
  ((N_of_ascii a =? 194) && ((N_of_ascii b =? 133) || (N_of_ascii b =? 160)))%N.

(** U+1680, U+2000..U+200A, U+2028, U+2029, U+202F, U+205F and
    U+3000. *)
Definition ws3 (a b c : ascii) : bool :=
  let '(x, y, z) := (N_of_ascii a, N_of_ascii b, N_of_ascii c) in
  (((x =? 225) && (y =? 154) && (z =? 128))
   || ((x =? 226) && (y =? 128)
       && (((128 <=? z) && (z <=? 138)) || (z =? 168) || (z =? 169)
           || (z =? 175)))
   || ((x =? 226) && (y =? 129) && (z =? 159))
   || ((x =? 227) && (y =? 128) && (z =? 128)))%N.

(** The string is one whitespace character. *)
Definition is_space (w : string) : bool :=
  match w with
  | String a EmptyString => ws1 a
  | String a (String b EmptyString) => ws2 a b
  | String a (String b (String c EmptyString)) => ws3 a b c
  | _ => false
  end.

(** [s.lstrip()] *)
Fixpoint lstrip (s : string) : string :=
  match s with
  | String a s1 =>
      if ws1 a then lstrip s1
      else
        match s1 with
        | String b s2 =>
            if ws2 a b then lstrip s2
            else
              match s2 with
              | String c s3 => if ws3 a b c then lstrip s3 else s
              | EmptyString => s
              end
        | EmptyString => s
        end
  | EmptyString => s
  end.

(** [s.rstrip()]: what is left of the rest, with the first byte before
    it, unless that is a whitespace character with nothing after it. *)
Fixpoint rstrip (s : string) : string :=
  match s with
  | String a s1 =>
      let r := String a (rstrip s1) in
      if is_space r then EmptyString else r
  | EmptyString => EmptyString
  end.

(** [s.strip()] *)
Definition strip (s : string) : string := lstrip (rstrip s).

(** A run of whitespace characters. *)
Inductive spaces : string -> Prop :=
| spaces_nil : spaces EmptyString
| spaces_cons (w s : string) :
    is_space w = true -> spaces s -> spaces (w ++ s).

(** The text does not start with a whitespace character. *)
Definition no_leading_space (t : string) : Prop :=
  forall w rest, is_space w = true -> t <> w ++ rest.

(** The text does not end with a whitespace character. *)
Definition no_trailing_space (t : string) : Prop :=
  forall w before, is_space w = true -> t <> before ++ w.

End PyText.

(** ** More of the Go SDK rules *)
Module GoSdkMore.
Import Engine Engine.Notations GoSdk.

(** [pants.engine.process.ProcessResult], as far as the rule reads it:
    the captured standard output, in bytes. *)
Record ProcessResult : Type := {
  stdout : string;
}.

Record GoSdkToolIDRequest : Type := {
  request_tool_name : string;
}.

Record GoSdkToolIDResult : Type := {
  tool_name : string;
  tool_id : string;
}.

(** What [compute_go_tool_id] asks of the engine. *)
Inductive ToolE : Type -> Type :=
| GetProcessResult (process : GoSdkProcess.t) : ToolE ProcessResult.

(** [compute_go_tool_id]; [bytes.decode] raises for bytes that are not
    UTF-8. *)
Definition compute_go_tool_id (request : GoSdkToolIDRequest)
  : rule ToolE TestGoalMore.DecodeExn GoSdkToolIDResult :=
  let* result := trigger (GetProcessResult
    (GoSdkProcess.init_default
       ["tool"; request_tool_name request; "-V=full"]
       ("Obtain tool ID for Go tool `" ++ request_tool_name request ++ "`."))) in
  match TestGoalMore.decode (stdout result) with
  | None => Raise (TestGoalMore.UnicodeDecodeError (stdout result))
  | Some text =>
      Ret {| tool_name := request_tool_name request;
             tool_id := PyText.strip text |}
  end.

(** An engine that hands the whole ambient environment over, whatever
    is asked for. *)
Definition leaky_engine (ambient : gmap string string) : handler SdkE unit :=
  fun X e s =>
    match e in SdkE X return X * unit with
    | GetMergeDigests ds => (sample_merge ds, s)
    | GetEnvironmentVars _ => (ambient, s)
    end.

(** A request that tries to set the control variables itself. *)
Definition meddling_request : GoSdkProcess.t :=
  GoSdkProcess.init ["build"] "Build"
    (Some {[ "__PANTS_CHDIR_TO" := "/etc";
             "__PANTS_GO_SDK_CACHE_KEY" := "stale";
             "__PANTS_REPLACE_SANDBOX_ROOT" := "yes";
             "GOPROXY" := "direct" ]})
    EMPTY_DIGEST None [] [] false false.

Definition proxy_ambient : gmap string string :=
  {[ "GOPROXY" := "https://proxy.golang.org"; "PATH" := "/usr/bin" ]}.

(** An engine for [compute_go_tool_id]: the tool prints its version
    between blank lines. *)
Definition tool_engine : handler ToolE unit :=
  fun X e s =>
    match e in ToolE X return X * unit with
    | GetProcessResult _ =>
        ({| stdout := LF ++ " compile version go1.19.5 " ++ LF |}, s)
    end.

End GoSdkMore.


(** ** More of the AWS Lambda target types *)
Module AwsLambdaMore.
Import Engine Engine.Notations AwsLambda.

(** [c in s] for a character [c]. *)
Fixpoint contains (c : ascii) (s : string) : bool :=
  match s with
  | EmptyString => false
  | String a s' => Ascii.eqb a c || contains c s'
  end.

(** [InvalidFieldException] of the handler field: "must end in the
    format [:my_handler_func], but was ...". *)
Inductive HandlerFieldExn : Type :=
| InvalidHandler (field_alias : string) (address : Address) (value : string).

(** [PythonAwsLambdaHandlerField.compute_value], [value] being what the
    inherited [compute_value] returned for the raw value. *)
Definition compute_value (value : string) (address : Address)
  : outcome HandlerFieldExn string :=
  if negb (contains ":" value)
  then Err (InvalidHandler PythonAwsLambdaHandlerField.alias address value)
  else Ok value.

Record Filespec : Type := {
  includes : list string;
}.

(** [PythonAwsLambdaHandlerField.filespec] *)
Definition filespec (self : PythonAwsLambdaHandlerField.t) : Filespec :=
  let '(path_, _, func) :=
    PyStr.partition ":" (PythonAwsLambdaHandlerField.value self) in
  if negb (PyStr.endswith path_ ".py") then {| includes := [] |}
  else
    let full_glob :=
      PosixPath.join2 (spec_path (PythonAwsLambdaHandlerField.address self))
        path_ in
    {| includes := [full_glob] |}.

(** *** The inference of the dependency on the handler

    The classes of other modules are kept as far as the rule reads
    them. *)

Module AmbiguityResolution.
Inductive t : Type := by_source_root | other.
End AmbiguityResolution.

Record PythonInferSubsystem : Type := {
  entry_points : bool;
  ambiguity_resolution : AmbiguityResolution.t;
}.

(** [ExplicitlyProvidedDependencies]: its method [disambiguated] gives
    the one owner left after the explicit dependencies and ignores are
    taken into account, if there is exactly one. *)
Record ExplicitlyProvidedDependencies : Type := {
  disambiguated : list Address -> bool -> option Address;
}.

Record PythonModuleOwners : Type := {
  unambiguous : list Address;
  ambiguous : list Address;
}.

Record PythonModuleOwnersRequest : Type := {
  module_ : string;
  resolve : string;
  locality : option string;
}.

Section Inference.
(** The fields [dependencies] and [resolve] of the field set and the
    subsystem [PythonSetup] are only passed on. *)
Context {Dependencies PythonResolveField PythonSetup : Type}.
(** [PythonResolveField.normalized_value] *)
Variable normalized_value : PythonResolveField -> PythonSetup -> string.

Record PythonLambdaHandlerDependencyInferenceFieldSet : Type := {
  fs_address : Address;
  fs_dependencies : Dependencies;
  fs_handler : PythonAwsLambdaHandlerField.t;
  fs_resolve : PythonResolveField;
}.

Record InferPythonLambdaHandlerDependency : Type := {
  field_set : PythonLambdaHandlerDependencyInferenceFieldSet;
}.

(** What the arguments of the warning are made of; the text of its
    [context] names the address, the value of the handler field and the
    module. *)
Record AmbiguityWarning : Type := {
  warned_ambiguous : list Address;
  warned_address : Address;
  owners_must_be_ancestors : bool;
  import_reference : string;
  context_handler : string;
  context_module : string;
}.

(** What [infer_lambda_handler_dependency] asks of the engine; the call
    that may log a warning is a request too. *)
Inductive InferE : Type -> Type :=
| GetExplicitlyProvidedDependencies (dependencies : Dependencies)
    : InferE ExplicitlyProvidedDependencies
| GetResolvedPythonAwsHandler (req : ResolvePythonAwsHandlerRequest)
    : InferE ResolvedPythonAwsHandler
| GetSourceRootForAddress (address : Address) : InferE SourceRoot
| GetPythonModuleOwners (req : PythonModuleOwnersRequest)
    : InferE PythonModuleOwners
| MaybeWarnOfAmbiguousDependencyInference (warning : AmbiguityWarning)
    : InferE unit.

(** [infer_lambda_handler_dependency]; the value is the tuple given to
    [InferredDependencies]. *)
Definition infer_lambda_handler_dependency
    (request : InferPythonLambdaHandlerDependency)
    (python_infer_subsystem : PythonInferSubsystem) (python_setup : PythonSetup)
  : rule InferE Empty_set (list Address) :=
  if negb (entry_points python_infer_subsystem) then Ret []
  else
    let* explicitly_provided_deps := trigger
      (GetExplicitlyProvidedDependencies (fs_dependencies (field_set request))) in
    let* handler := trigger
      (GetResolvedPythonAwsHandler
         {| field := fs_handler (field_set request) |}) in
    let '(module, _, _func) := PyStr.partition ":" (val handler) in
    let* locality :=
      match ambiguity_resolution python_infer_subsystem with
      | AmbiguityResolution.by_source_root =>
          let* source_root := trigger
            (GetSourceRootForAddress (fs_address (field_set request))) in
          Ret (Some (path source_root))
      | AmbiguityResolution.other => Ret None
      end in
    let* owners := trigger
      (GetPythonModuleOwners
         {| module_ := module;
            resolve := normalized_value (fs_resolve (field_set request))
                         python_setup;
            locality := locality |}) in
    let address := fs_address (field_set request) in
    let* _ := trigger
      (MaybeWarnOfAmbiguousDependencyInference
         {| warned_ambiguous := ambiguous owners;
            warned_address := address;
            owners_must_be_ancestors := file_name_used handler;
            import_reference := "module";
            context_handler :=
              PythonAwsLambdaHandlerField.value (fs_handler (field_set request));
            context_module := module |}) in
    let maybe_disambiguated :=
      disambiguated explicitly_provided_deps (ambiguous owners)
        (file_name_used handler) in
    let unambiguous_owners :=
      match unambiguous owners with
      | [] =>
          match maybe_disambiguated with
          | Some owner => [owner]
          | None => []
          end
      | owners' => owners'
      end in
    Ret unambiguous_owners.

(** The modules whose owners a trace asks for. *)
Definition owner_requests (tr : list (event InferE))
  : list (PythonModuleOwnersRequest * PythonModuleOwners) :=
  omap (fun ev =>
          match ev with
          | Ev e x =>
              match e in InferE X
                    return X -> option (PythonModuleOwnersRequest
                                        * PythonModuleOwners) with
              | GetPythonModuleOwners req => fun owners => Some (req, owners)
              | _ => fun _ => None
              end x
          end) tr.

(** The warnings a trace may have logged. *)
Definition warnings (tr : list (event InferE)) : list AmbiguityWarning :=
  omap (fun ev =>
          match ev with
          | Ev e x =>
              match e in InferE X return X -> option AmbiguityWarning with
              | MaybeWarnOfAmbiguousDependencyInference w => fun _ => Some w
              | _ => fun _ => None
              end x
          end) tr.

(** The source roots a trace asks for. *)
Definition source_root_requests (tr : list (event InferE))
  : list (Address * SourceRoot) :=
  omap (fun ev =>
          match ev with
          | Ev e x =>
              match e in InferE X return X -> option (Address * SourceRoot) with
              | GetSourceRootForAddress a => fun root => Some (a, root)
              | _ => fun _ => None
              end x
          end) tr.

(** The handlers a trace has resolved. *)
Definition resolved_handlers (tr : list (event InferE))
  : list (ResolvePythonAwsHandlerRequest * ResolvedPythonAwsHandler) :=
  omap (fun ev =>
          match ev with
          | Ev e x =>
              match e in InferE X
                    return X -> option (ResolvePythonAwsHandlerRequest
                                        * ResolvedPythonAwsHandler) with
              | GetResolvedPythonAwsHandler req => fun r => Some (req, r)
              | _ => fun _ => None
              end x
          end) tr.

(** The explicitly provided dependencies a trace was given. *)
Definition provided_dependencies (tr : list (event InferE))
  : list ExplicitlyProvidedDependencies :=
  omap (fun ev =>
          match ev with
          | Ev e x =>
              match e in InferE X
                    return X -> option ExplicitlyProvidedDependencies with
              | GetExplicitlyProvidedDependencies _ => fun d => Some d
              | _ => fun _ => None
              end x
          end) tr.

End Inference.

(** *** Sample data *)

Definition sample_field_set
  : PythonLambdaHandlerDependencyInferenceFieldSet (Dependencies := unit)
      (PythonResolveField := string) :=
  {| fs_address := sample_address;
     fs_dependencies := tt;
     fs_handler := field sample_file_request;
     fs_resolve := "python-default" |}.

(** An engine that resolves the handler with the rule and
    [sample_engine], knows one ambiguous pair of owners, and picks the
    first when asked to disambiguate. *)
Definition inference_engine (cwd : string)
  : handler (InferE (Dependencies := unit)) unit :=
  fun X e s =>
    match e in InferE X return X * unit with
    | GetExplicitlyProvidedDependencies _ =>
        ({| disambiguated := fun owners _ => head owners |}, s)
    | GetResolvedPythonAwsHandler req =>
        (match (run sample_engine
                  (resolve_python_aws_handler sample_for_file cwd req) tt).1.1 with
         | Ok r => r
         | Err _ => {| val := ""; file_name_used := false |}
         end, s)
    | GetSourceRootForAddress _ => ({| path := "src/python" |}, s)
    | GetPythonModuleOwners _ =>
        ({| unambiguous := [];
            ambiguous := [sample_address;
                          {| spec_path := "src/python/other";
                             spec := "src/python/other:lib" |}] |}, s)
    | MaybeWarnOfAmbiguousDependencyInference _ => (tt, s)
    end.


(** The files the engine found for the globs of a trace, and the source
    roots it gave. *)
Definition found_files {SourceRootRequest : Type}
    (tr : list (event (HandlerE SourceRootRequest))) : list (list string) :=
  omap (fun ev =>
          match ev with
          | Ev e x =>
              match e in HandlerE _ X return X -> option (list string) with
              | GetPaths _ => fun paths => Some (files paths)
              | GetSourceRoot _ => fun _ => None
              end x
          end) tr.

Definition source_roots {SourceRootRequest : Type}
    (tr : list (event (HandlerE SourceRootRequest))) : list string :=
  omap (fun ev =>
          match ev with
          | Ev e x =>
              match e in HandlerE _ X return X -> option string with
              | GetPaths _ => fun _ => None
              | GetSourceRoot _ => fun root => Some (path root)
              end x
          end) tr.

(** [x] as a tuple: empty for [None]. *)
Definition tuple_of_option {A : Type} (x : option A) : list A :=
  match x with
  | Some a => [a]
  | None => []
  end.

Definition sample_subsystem : PythonInferSubsystem :=
  {| entry_points := true;
     ambiguity_resolution := AmbiguityResolution.by_source_root |}.

Definition sample_normalized_value (resolve : string) (python_setup : unit)
  : string := resolve.

End AwsLambdaMore.


(** ** The message of a test result *)
Module TestGoalMessage.
Import TestGoal.

(** [str(n)] for an [int]. *)
Definition str_of_int (n : Z) : string :=
  DecimalString.NilZero.string_of_int (Z.to_int n).

(** [f"{x}"] for an [Optional[int]]. *)
Definition format_exit_code (exit_code : option Z) : string :=
  match exit_code with
  | Some n => str_of_int n
  | None => "None"
  end.

(** [output_setting == other] on the enumeration. *)
Definition show_output_eqb (a b : ShowOutput) : bool :=
  match a, b with
  | ALL, ALL | FAILED, FAILED | NONE, NONE => true
  | _, _ => false
  end.

(** [EnrichedTestResult.message] *)
Definition message (self : EnrichedTestResult.t) : string :=
  if EnrichedTestResult.skipped self then
    spec (EnrichedTestResult.address self) ++ " skipped."
  else
    let status :=
      if EnrichedTestResult.exit_code_eqb
           (EnrichedTestResult.exit_code self) (Some 0)
      then "succeeded"
      else "failed (exit code "
             ++ format_exit_code (EnrichedTestResult.exit_code self) ++ ")" in
    let message :=
      spec (EnrichedTestResult.address self) ++ " " ++ status ++ "." in
    if show_output_eqb (EnrichedTestResult.output_setting self) NONE
       || (show_output_eqb (EnrichedTestResult.output_setting self) FAILED
           && EnrichedTestResult.exit_code_eqb
                (EnrichedTestResult.exit_code self) (Some 0))
    then message
    else
      let output := "" in
      let output :=
        if EnrichedTestResult.truthy_str (EnrichedTestResult.stdout self)
        then output ++ LF ++ EnrichedTestResult.stdout self
        else output in
      let output :=
        if EnrichedTestResult.truthy_str (EnrichedTestResult.stderr self)
        then output ++ LF ++ EnrichedTestResult.stderr self
        else output in
      let output :=
        if EnrichedTestResult.truthy_str output
        then PyText.rstrip output ++ LF ++ LF
        else output in
      message ++ output.

(** The first line of the message. *)
Definition headline (self : EnrichedTestResult.t) : string :=
  spec (EnrichedTestResult.address self) ++ " "
    ++ (if EnrichedTestResult.skipped self then "skipped"
        else if EnrichedTestResult.exit_code_eqb
                  (EnrichedTestResult.exit_code self) (Some 0)
             then "succeeded"
             else "failed (exit code "
                    ++ format_exit_code (EnrichedTestResult.exit_code self)
                    ++ ")")
    ++ ".".

(** The captured output as the message lays it out: each stream that
    is not empty on a line of its own, standard output first. *)
Definition captured (self : EnrichedTestResult.t) : string :=
  (if EnrichedTestResult.truthy_str (EnrichedTestResult.stdout self)
   then LF ++ EnrichedTestResult.stdout self else "")
    ++ (if EnrichedTestResult.truthy_str (EnrichedTestResult.stderr self)
        then LF ++ EnrichedTestResult.stderr self else "").

(** Whether the setting lets the output of the result into the
    message: always for [ALL], never for [NONE], and for [FAILED] unless
    the exit code is 0. *)
Definition output_wanted (self : EnrichedTestResult.t) : bool :=
  match EnrichedTestResult.output_setting self with
  | ALL => true
  | FAILED =>
      negb (EnrichedTestResult.exit_code_eqb
              (EnrichedTestResult.exit_code self) (Some 0))
  | NONE => false
  end.

Definition noisy_result (setting : ShowOutput) (code : Z)
  : EnrichedTestResult.t :=
  {| EnrichedTestResult.exit_code := Some code;
     EnrichedTestResult.stdout := "collected 2 items" ++ LF ++ LF;
     EnrichedTestResult.stderr := "warning: slow ";
     EnrichedTestResult.address := {| spec_path := "src"; spec := "src:a" |};
     EnrichedTestResult.output_setting := setting;
     EnrichedTestResult.coverage_data := None;
     EnrichedTestResult.xml_results := None |}.

End TestGoalMessage.

(* ===================================================================== *)
(** * Theorems *)
(* ===================================================================== *)

(** ** Running rule bodies *)

Module EngineFacts.
Import Engine RuleSpec.

Section Run.
Context {E : Type -> Type} {Exn S : Type}.
Implicit Types h : handler E S.

(** Running [bind m f] runs [m], then [f] on its value from the state
    [m] left; the traces follow one another. *)
Lemma run_bind {A B : Type} h (m : rule E Exn A) (f : A -> rule E Exn B) s :
  run h (bind m f) s =
    match run h m s with
    | (Ok a, s1, t1) =>
        let '(o, s2, t2) := run h (f a) s1 in (o, s2, (t1 ++ t2)%list)
    | (Err e, s1, t1) => (Err e, s1, t1)
    end.
Proof.
  revert s. induction m as [a | e | X e k IH]; intros s; cbn.
  - destruct (run h (f a) s) as [[o s2] t2]. reflexivity.
  - reflexivity.
  - destruct (h X e s) as [x s1]. rewrite IH.
    destruct (run h (k x) s1) as [[[a | e'] s2] t1]; [| reflexivity].
    destruct (run h (f a) s2) as [[o s3] t2]. reflexivity.
Qed.

Lemma run_vis {A X : Type} h (e : E X) (k : X -> rule E Exn A) s :
  run h (Vis e k) s =
    let '(x, s1) := h X e s in
    let '(o, s2, tr) := run h (k x) s1 in
    (o, s2, Ev e x :: tr).
Proof. reflexivity. Qed.

Lemma run_trigger {X : Type} h (e : E X) s :
  run (Exn := Exn) h (trigger e) s =
    (Ok (h X e s).1, (h X e s).2, [Ev e (h X e s).1]).
Proof. cbn. destruct (h X e s). reflexivity. Qed.

Lemma issues_only_bind {A B : Type} P (m : rule E Exn A) (f : A -> rule E Exn B) :
  issues_only P m -> (forall a, issues_only P (f a)) ->
  issues_only P (bind m f).
Proof.
  intros Hm Hf. induction Hm; cbn; try constructor; auto.
Qed.

Lemma issues_only_trigger {X : Type} (P : forall X, E X -> Prop) (e : E X) :
  P X e -> issues_only (Exn := Exn) P (trigger e).
Proof. intros He. constructor; [exact He | intros x; constructor]. Qed.

Lemma issues_only_multi_get {A X : Type} P (get : A -> E X) xs :
  (forall x, P X (get x)) -> issues_only (Exn := Exn) P (multi_get (E := E) (X := X) get xs).
Proof.
  intros Hget. induction xs as [| x xs IH]; cbn; constructor; auto.
  intros r. apply issues_only_bind; [exact IH | intros; constructor].
Qed.

Lemma issues_only_for_each {A : Type} P xs (body : A -> rule E Exn unit) :
  (forall x, issues_only P (body x)) -> issues_only P (for_each xs body).
Proof.
  intros Hbody. induction xs as [| x xs IH]; cbn; [constructor |].
  apply issues_only_bind; auto.
Qed.

(** A body that only issues requests in [P] leaves a trace in [P]. *)
Lemma run_issues_only {A : Type} P h (m : rule E Exn A) s o s' tr :
  issues_only P m -> run h m s = (o, s', tr) ->
  Forall (event_satisfies P) tr.
Proof.
  intros Hm. revert s o s' tr.
  induction Hm as [a | e | X e k He Hk IH]; intros s o s' tr; cbn.
  - intros [= <- <- <-]. constructor.
  - intros [= <- <- <-]. constructor.
  - destruct (h X e s) as [x s1].
    destruct (run h (k x) s1) as [[o1 s2] t1] eqn:Hrun.
    intros [= <- <- <-]. constructor; [exact He | eauto].
Qed.

Lemma never_raises_bind {A B : Type} (m : rule E Exn A) (f : A -> rule E Exn B) :
  never_raises m -> (forall a, never_raises (f a)) -> never_raises (bind m f).
Proof.
  intros Hm Hf. induction Hm; cbn; try constructor; auto.
Qed.

Lemma never_raises_trigger {X : Type} (e : E X) :
  never_raises (Exn := Exn) (trigger e).
Proof. constructor. intros x. constructor. Qed.

Lemma never_raises_multi_get {A X : Type} (get : A -> E X) xs :
  never_raises (Exn := Exn) (multi_get (E := E) (X := X) get xs).
Proof.
  induction xs as [| x xs IH]; cbn; constructor.
  intros r. apply never_raises_bind; [exact IH | intros; constructor].
Qed.

Lemma never_raises_for_each {A : Type} xs (body : A -> rule E Exn unit) :
  (forall x, never_raises (body x)) -> never_raises (for_each xs body).
Proof.
  intros Hbody. induction xs as [| x xs IH]; cbn; [constructor |].
  apply never_raises_bind; auto.
Qed.

(** A body that raises nothing returns. *)
Lemma run_never_raises {A : Type} h (m : rule E Exn A) s :
  never_raises m -> exists a s' tr, run h m s = (Ok a, s', tr).
Proof.
  intros Hm. revert s. induction Hm as [a | X e k Hk IH]; intros s; cbn.
  - eauto.
  - destruct (h X e s) as [x s1].
    destruct (IH x s1) as (a & s' & tr & ->). eauto.
Qed.

End Run.
End EngineFacts.

(** ** The order of the summary *)

Module OrderFacts.
Import TestGoal TestGoalSpec.
Import EnrichedTestResult.

Lemma exit_code_eqb_eq (a b : option Z) : exit_code_eqb a b = true <-> a = b.
Proof.
  destruct a as [x |], b as [y |]; cbn; try (split; congruence).
  rewrite Z.eqb_eq. split; congruence.
Qed.

Lemma exit_code_eqb_neq (a b : option Z) : exit_code_eqb a b = false <-> a <> b.
Proof.
  rewrite <- exit_code_eqb_eq. destruct (exit_code_eqb a b); split; congruence.
Qed.

Lemma string_ltb_lt (s1 s2 : string) :
  String.ltb s1 s2 = true <-> OrderedTypeEx.String_as_OT.lt s1 s2.
Proof.
  rewrite <- OrderedTypeEx.String_as_OT.cmp_lt.
  unfold String.ltb, OrderedTypeEx.String_as_OT.cmp.
  destruct (String.compare s1 s2); split; congruence.
Qed.

Lemma string_ltb_irrefl (s : string) : String.ltb s s = false.
Proof.
  unfold String.ltb.
  assert (H : String.compare s s = Eq)
    by (apply OrderedTypeEx.String_as_OT.cmp_eq; reflexivity).
  rewrite H. reflexivity.
Qed.

Lemma string_ltb_trans (s1 s2 s3 : string) :
  String.ltb s1 s2 = true -> String.ltb s2 s3 = true -> String.ltb s1 s3 = true.
Proof.
  rewrite !string_ltb_lt. apply OrderedTypeEx.String_as_OT.lt_trans.
Qed.

Lemma string_ltb_asym (s1 s2 : string) :
  String.ltb s1 s2 = true -> String.ltb s2 s1 = false.
Proof.
  intros H. destruct (String.ltb s2 s1) eqn:H'; [| reflexivity].
  pose proof (string_ltb_trans _ _ _ H H') as Hc.
  rewrite string_ltb_irrefl in Hc. discriminate.
Qed.

Lemma string_ltb_total (s1 s2 : string) :
  String.ltb s1 s2 = false -> String.ltb s2 s1 = false -> s1 = s2.
Proof.
  unfold String.ltb. rewrite (String.compare_antisym s2 s1).
  destruct (String.compare s1 s2) eqn:Hc; cbn; try discriminate.
  intros _ _. apply String.compare_eq_iff. exact Hc.
Qed.

(** [__lt__] is the lexicographic order on the pair of the exit code
    (none first) and the address. *)
Lemma lt_iff (a b : t) :
  lt a b = true <->
    exit_code_lt (exit_code a) (exit_code b)
    \/ (exit_code a = exit_code b
        /\ String.ltb (spec (address a)) (spec (address b)) = true).
Proof.
  unfold lt.
  destruct (exit_code_eqb (exit_code a) (exit_code b)) eqn:Heq.
  - apply exit_code_eqb_eq in Heq. rewrite Heq. split.
    + intros H. right. split; [reflexivity | exact H].
    + intros [H | [_ H]]; [| exact H].
      destruct (exit_code b); cbn in H; [lia | contradiction].
  - apply exit_code_eqb_neq in Heq.
    destruct (exit_code a) as [x |], (exit_code b) as [y |]; cbn;
      rewrite ?Z.ltb_lt; split; try tauto; try congruence;
      intros [H | [H _]]; try tauto; try congruence.
Qed.

Lemma lt_irrefl (a : t) : lt a a = false.
Proof.
  destruct (lt a a) eqn:H; [| reflexivity].
  apply lt_iff in H as [H | [_ H]].
  - destruct (exit_code a); cbn in H; [lia | contradiction].
  - rewrite string_ltb_irrefl in H. discriminate.
Qed.

Lemma exit_code_lt_trans (a b c : option Z) :
  exit_code_lt a b -> exit_code_lt b c -> exit_code_lt a c.
Proof. destruct a, b, c; cbn; try tauto; lia. Qed.

Lemma exit_code_lt_irrefl (a : option Z) : ~ exit_code_lt a a.
Proof. destruct a; cbn; [lia | tauto]. Qed.

Lemma exit_code_trichotomy (a b : option Z) :
  exit_code_lt a b \/ a = b \/ exit_code_lt b a.
Proof.
  destruct a as [x |], b as [y |]; cbn; try tauto.
  destruct (Z.lt_trichotomy x y) as [H | [-> | H]]; tauto.
Qed.

Lemma lt_trans (a b c : t) : lt a b = true -> lt b c = true -> lt a c = true.
Proof.
  rewrite !lt_iff. intros [H1 | [E1 H1]] [H2 | [E2 H2]].
  - left. eapply exit_code_lt_trans; eassumption.
  - left. rewrite <- E2. exact H1.
  - left. rewrite E1. exact H2.
  - right. split; [congruence |]. eapply string_ltb_trans; eassumption.
Qed.

Lemma lt_asym (a b : t) : lt a b = true -> lt b a = false.
Proof.
  intros H. destruct (lt b a) eqn:H'; [| reflexivity].
  pose proof (lt_trans _ _ _ H H') as Hc. rewrite lt_irrefl in Hc. discriminate.
Qed.

(** "Not greater than" is transitive: the order is a strict weak one. *)
Lemma not_lt_trans (a b c : t) :
  lt b a = false -> lt c b = false -> lt c a = false.
Proof.
  intros Hba Hcb. destruct (lt c a) eqn:Hca; [| reflexivity]. exfalso.
  apply lt_iff in Hca.
  assert (Hnba : ~ (exit_code_lt (exit_code b) (exit_code a)
                    \/ (exit_code b = exit_code a
                        /\ String.ltb (spec (address b)) (spec (address a)) = true)))
    by (rewrite <- lt_iff, Hba; discriminate).
  assert (Hncb : ~ (exit_code_lt (exit_code c) (exit_code b)
                    \/ (exit_code c = exit_code b
                        /\ String.ltb (spec (address c)) (spec (address b)) = true)))
    by (rewrite <- lt_iff, Hcb; discriminate).
  destruct (exit_code_trichotomy (exit_code b) (exit_code a)) as [H | [Eba | H]];
    [tauto | |].
  - destruct (exit_code_trichotomy (exit_code c) (exit_code b)) as [H' | [Ecb | H']];
      [tauto | |].
    + destruct Hca as [Hca | [_ Hca]].
      * rewrite Ecb, Eba in Hca. exact (exit_code_lt_irrefl _ Hca).
      * destruct (String.ltb (spec (address b)) (spec (address a))) eqn:Sba;
          [tauto |].
        destruct (String.ltb (spec (address c)) (spec (address b))) eqn:Scb;
          [tauto |].
        destruct (String.ltb (spec (address a)) (spec (address b))) eqn:Sab.
        -- pose proof (string_ltb_trans _ _ _ Hca Sab). congruence.
        -- pose proof (string_ltb_total _ _ Sab Sba) as Heq.
           rewrite Heq in Hca. congruence.
    + destruct Hca as [Hca | [Eca _]].
      * rewrite <- Eba in Hca.
        exact (exit_code_lt_irrefl _ (exit_code_lt_trans _ _ _ H' Hca)).
      * rewrite Eca, Eba in H'. exact (exit_code_lt_irrefl _ H').
  - destruct Hca as [Hca | [Eca _]].
    + destruct (exit_code_trichotomy (exit_code c) (exit_code b)) as [H' | [Ecb | H']];
        [tauto | |].
      * rewrite Ecb in Hca.
        exact (exit_code_lt_irrefl _ (exit_code_lt_trans _ _ _ H Hca)).
      * exact (exit_code_lt_irrefl _
                 (exit_code_lt_trans _ _ _ H (exit_code_lt_trans _ _ _ H' Hca))).
    + rewrite <- Eca in H. tauto.
Qed.

Lemma insert_Permutation (x : t) (l : list t) : Permutation (insert x l) (x :: l).
Proof.
  induction l as [| y l IH]; cbn; [reflexivity |].
  destruct (lt y x); [| reflexivity].
  rewrite IH. apply perm_swap.
Qed.

(** [sorted] rearranges its argument. *)
Lemma sorted_Permutation (l : list t) : Permutation (sorted l) l.
Proof.
  induction l as [| x l IH]; cbn; [reflexivity |].
  rewrite insert_Permutation, IH. reflexivity.
Qed.

Lemma insert_StronglySorted (x : t) (l : list t) :
  StronglySorted (fun a b => lt b a = false) l ->
  StronglySorted (fun a b => lt b a = false) (insert x l).
Proof.
  induction l as [| y l IH]; cbn; intros Hs.
  - constructor; constructor.
  - apply StronglySorted_inv in Hs as [Hs Hy].
    destruct (lt y x) eqn:Hyx.
    + constructor; [auto |].
      rewrite Forall_forall in Hy |- *. intros z Hz.
      rewrite insert_Permutation in Hz.
      apply elem_of_cons in Hz as [-> | Hz]; [apply lt_asym; exact Hyx | auto].
    + constructor; [constructor; assumption |].
      constructor; [exact Hyx |].
      rewrite Forall_forall in Hy |- *. intros z Hz.
      eapply not_lt_trans; [exact Hyx | auto].
Qed.

(** In [sorted l] no element is smaller than one before it. *)
Lemma sorted_StronglySorted (l : list t) :
  StronglySorted (fun a b => lt b a = false) (sorted l).
Proof.
  induction l as [| x l IH]; cbn; [constructor |].
  apply insert_StronglySorted. exact IH.
Qed.

Lemma equivalent_refl (a : t) : equivalent a a = true.
Proof. unfold equivalent. rewrite lt_irrefl. reflexivity. Qed.

Lemma equivalent_sym (a b : t) : equivalent a b = equivalent b a.
Proof. unfold equivalent. apply andb_comm. Qed.

(** A result smaller than [x] is not equivalent to what [x] is equivalent
    to. *)
Lemma lt_not_equivalent (x y z : t) :
  lt y x = true -> equivalent z x = true -> equivalent z y = false.
Proof.
  unfold equivalent. intros Hyx Hzx.
  apply andb_true_iff in Hzx as [Hzx Hxz]. apply negb_true_iff in Hzx, Hxz.
  destruct (lt z y) eqn:Hzy; [reflexivity |].
  destruct (lt y z) eqn:Hyz; [reflexivity |]. exfalso.
  pose proof (not_lt_trans x z y Hzx Hyz) as H. congruence.
Qed.

Lemma filter_insert_other (z x : t) (l : list t) :
  equivalent z x = false ->
  List.filter (equivalent z) (insert x l) = List.filter (equivalent z) l.
Proof.
  intros Hzx. induction l as [| y l IH]; cbn.
  - rewrite Hzx. reflexivity.
  - destruct (lt y x); cbn; [rewrite IH | rewrite Hzx]; reflexivity.
Qed.

Lemma filter_insert_same (z x : t) (l : list t) :
  equivalent z x = true ->
  List.filter (equivalent z) (insert x l) = x :: List.filter (equivalent z) l.
Proof.
  intros Hzx. induction l as [| y l IH]; cbn.
  - rewrite Hzx. reflexivity.
  - destruct (lt y x) eqn:Hyx; cbn.
    + rewrite (lt_not_equivalent x y z Hyx Hzx). exact IH.
    + rewrite Hzx. reflexivity.
Qed.

(** [sorted] is stable: results that [__lt__] does not tell apart keep
    the order they came in. *)
Lemma sorted_stable (z : t) (l : list t) :
  List.filter (equivalent z) (sorted l) = List.filter (equivalent z) l.
Proof.
  induction l as [| x l IH]; cbn; [reflexivity |].
  destruct (equivalent z x) eqn:Hzx.
  - rewrite filter_insert_same by exact Hzx. rewrite IH. reflexivity.
  - rewrite filter_insert_other by exact Hzx. exact IH.
Qed.

(** Two sorted lists that hold the same results, those that [__lt__] does
    not tell apart in the same order, are the same list. *)
Lemma stable_sorted_eq (l1 l2 : list t) :
  StronglySorted (fun a b => lt b a = false) l1 ->
  StronglySorted (fun a b => lt b a = false) l2 ->
  (forall z, List.filter (equivalent z) l1 = List.filter (equivalent z) l2) ->
  l1 = l2.
Proof.
  revert l2. induction l1 as [| a l1 IH]; intros l2 Hs1 Hs2 Hfilter.
  - destruct l2 as [| b l2]; [reflexivity |].
    specialize (Hfilter b). cbn in Hfilter. rewrite equivalent_refl in Hfilter.
    discriminate.
  - destruct l2 as [| b l2].
    { specialize (Hfilter a). cbn in Hfilter. rewrite equivalent_refl in Hfilter.
      discriminate. }
    apply StronglySorted_inv in Hs1 as [Hs1 Ha].
    apply StronglySorted_inv in Hs2 as [Hs2 Hb].
    rewrite List.Forall_forall in Ha, Hb.
    assert (Hab : a = b).
    { pose proof (Hfilter a) as Hfa. cbn in Hfa. rewrite equivalent_refl in Hfa.
      destruct (equivalent a b) eqn:Heq; [congruence |]. exfalso.
      assert (Hin : In a l2).
      { eapply (proj1 (filter_In (equivalent a) a l2)).
        rewrite <- Hfa. left. reflexivity. }
      pose proof (Hb a Hin) as Hle.
      assert (Hlt : lt b a = true).
      { unfold equivalent in Heq. rewrite Hle in Heq. cbn in Heq.
        apply negb_false_iff in Heq. exact Heq. }
      pose proof (Hfilter b) as Hfb. cbn in Hfb.
      rewrite equivalent_refl, (equivalent_sym b a), Heq in Hfb.
      assert (Hin' : In b l1).
      { eapply (proj1 (filter_In (equivalent b) b l1)).
        rewrite Hfb. left. reflexivity. }
      pose proof (Ha b Hin'). congruence. }
    subst b. f_equal. apply IH; [assumption | assumption |].
    intros z. specialize (Hfilter z). cbn in Hfilter.
    destruct (equivalent z a); congruence.
Qed.

(** However a stable sort by [__lt__] proceeds, it ends in [sorted l]. *)
Lemma stable_sort_unique (l l' : list t) :
  StronglySorted (fun a b => lt b a = false) l' ->
  (forall z, List.filter (equivalent z) l' = List.filter (equivalent z) l) ->
  l' = sorted l.
Proof.
  intros Hs Hstable. apply stable_sorted_eq; [exact Hs | apply sorted_StronglySorted |].
  intros z. rewrite sorted_stable. apply Hstable.
Qed.

End OrderFacts.

(** ** The [test] goal *)

Module TestGoalFacts.
Import Engine RuleSpec EngineFacts TestGoal TestGoalSpec OrderFacts.

Section Runs.
Context {S : Type} (h : handler GoalE S).

Lemma results_of_app (t1 t2 : list (event GoalE)) :
  results_of (t1 ++ t2) = (results_of t1 ++ results_of t2)%list.
Proof. apply omap_app. Qed.

Lemma interactive_runs_app (t1 t2 : list (event GoalE)) :
  interactive_runs (t1 ++ t2) = (interactive_runs t1 ++ interactive_runs t2)%list.
Proof. apply omap_app. Qed.

Lemma debug_requests_of_app (t1 t2 : list (event GoalE)) :
  debug_requests_of (t1 ++ t2)
  = (debug_requests_of t1 ++ debug_requests_of t2)%list.
Proof. apply omap_app. Qed.

Lemma field_sets_with_sources_of_app (t1 t2 : list (event GoalE)) :
  field_sets_with_sources_of (t1 ++ t2)
  = (field_sets_with_sources_of t1 ++ field_sets_with_sources_of t2)%list.
Proof.
  unfold field_sets_with_sources_of. rewrite map_app, concat_app. reflexivity.
Qed.

(** A trace of summary requests holds no result, no field set and no
    debug request. *)
Lemma summary_trace (tr : list (event GoalE)) :
  Forall (event_satisfies summary_request) tr ->
  results_of tr = [] /\ field_sets_with_sources_of tr = []
  /\ debug_requests_of tr = [].
Proof.
  induction 1 as [| [X e x] tr He _ (IH1 & IH2 & IH3)]; [done |].
  unfold results_of, field_sets_with_sources_of, debug_requests_of in *.
  destruct e; cbn in *; try contradiction; rewrite ?IH1, ?IH2, ?IH3; done.
Qed.

(** A trace of interactive runs holds no result and no debug request. *)
Lemma interactive_trace (tr : list (event GoalE)) :
  Forall (event_satisfies interactive_request) tr ->
  results_of tr = [] /\ debug_requests_of tr = [].
Proof.
  induction 1 as [| [X e x] tr He _ (IH1 & IH2)]; [done |].
  unfold results_of, debug_requests_of in *.
  destruct e; cbn in *; try contradiction; rewrite ?IH1, ?IH2; done.
Qed.

(** The batch returns the answers to its requests, one per field set. *)
Lemma run_batch (fss : list TestFieldSet) s o s' tr :
  run h (multi_get (Exn := GoalExn) GetEnrichedTestResult fss) s = (o, s', tr) ->
  o = Ok (results_of tr) /\ length (results_of tr) = length fss
  /\ field_sets_with_sources_of tr = [].
Proof.
  revert s o s' tr. induction fss as [| fs fss IH]; intros s o s' tr; cbn.
  - intros [= <- <- <-]. done.
  - destruct (h _ (GetEnrichedTestResult fs) s) as [r s1].
    rewrite run_bind.
    destruct (run h (multi_get (Exn := GoalExn) GetEnrichedTestResult fss) s1)
      as [[o1 s2] t1] eqn:Hrun.
    destruct (IH _ _ _ _ Hrun) as (-> & Hlen & Hfs). cbn.
    intros [= <- <- <-]. rewrite app_nil_r.
    unfold results_of, field_sets_with_sources_of in *. cbn.
    rewrite Hlen, Hfs. done.
Qed.

(** The requests of the ordinary branch return the results, as many as
    there are eligible field sets. *)
Lemma run_request_results (test_subsystem : TestSubsystem) s o s' tr :
  run h (request_results test_subsystem) s = (o, s', tr) ->
  o = Ok (results_of tr)
  /\ length (results_of tr) = length (field_sets_with_sources_of tr).
Proof.
  unfold request_results. rewrite run_bind, run_trigger.
  rewrite run_bind, run_trigger.
  match goal with
  | |- context [run h (multi_get _ ?l) ?s1] =>
      destruct (run h (multi_get (Exn := GoalExn) GetEnrichedTestResult l) s1)
        as [[o1 s2] t1] eqn:Hrun
  end.
  destruct (run_batch _ _ _ _ _ Hrun) as (-> & Hlen & Hfs).
  intros [= <- <- <-].
  cbn [app]. unfold results_of, field_sets_with_sources_of in *. cbn.
  rewrite Hfs, app_nil_r. done.
Qed.

(** The summary loop returns [summary_exit_code]. *)
Lemma run_summary_loop console results exit_code s :
  exists s' tr,
    run h (summary_loop console results exit_code) s
    = (Ok (summary_exit_code results exit_code), s', tr).
Proof.
  revert exit_code s.
  induction results as [| r rest IH]; intros exit_code s; cbn; [eauto |].
  destruct (EnrichedTestResult.skipped r); [apply IH |].
  destruct (EnrichedTestResult.exit_code_eqb _ _);
    rewrite run_vis;
    match goal with
    | |- context [h unit ?e s] => destruct (h unit e s) as [[] s1]
    end;
    match goal with
    | |- context [run h (summary_loop _ _ ?c) ?s1] =>
        destruct (IH c s1) as (s' & tr & ->)
    end; eauto.
Qed.

Lemma summary_loop_issues console results exit_code :
  issues_only summary_request (summary_loop console results exit_code).
Proof.
  revert exit_code. induction results as [| r rest IH]; intros exit_code; cbn.
  - constructor.
  - destruct (EnrichedTestResult.skipped r); [apply IH |].
    destruct (EnrichedTestResult.exit_code_eqb _ _);
      (constructor; [exact I | intros _; apply IH]).
Qed.

Lemma collect_coverage_issues types groups :
  issues_only summary_request (collect_coverage types groups).
Proof.
  induction groups as [| [k g] groups IH]; cbn; [constructor |].
  destruct (types !! k); [| constructor].
  apply issues_only_bind; [exact IH | intros; constructor].
Qed.

Lemma materialize_report_issues r :
  issues_only summary_request (materialize_report r).
Proof.
  destruct r; cbn; repeat (constructor; try exact I; intros).
Qed.

Lemma materialize_issues rs : issues_only summary_request (materialize rs).
Proof.
  induction rs as [| r rs IH]; cbn; [constructor |].
  apply issues_only_bind; [apply materialize_report_issues | intros].
  apply issues_only_bind; [exact IH | intros; constructor].
Qed.

Lemma materialize_all_issues cs : issues_only summary_request (materialize_all cs).
Proof.
  induction cs as [| c cs IH]; cbn; [constructor |].
  apply issues_only_bind; [apply materialize_issues | intros].
  apply issues_only_bind; [exact IH | intros; constructor].
Qed.

Lemma coverage_block_issues test_subsystem union_membership results :
  issues_only summary_request
    (coverage_block test_subsystem union_membership results).
Proof.
  unfold coverage_block.
  apply issues_only_bind; [apply collect_coverage_issues | intros cols].
  apply issues_only_bind;
    [apply issues_only_multi_get; intros; exact I | intros reps].
  apply issues_only_bind; [apply materialize_all_issues | intros paths].
  destruct (_ && _); [| constructor].
  apply issues_only_bind; [apply issues_only_trigger; exact I | intros o].
  apply issues_only_for_each. intros p.
  apply issues_only_bind; [apply issues_only_trigger; exact I |].
  intros; constructor.
Qed.

(** After the batch, [run_tests] asks for no more results. *)
Lemma summarize_issues console test_subsystem union_membership results :
  issues_only summary_request
    (summarize console test_subsystem union_membership results).
Proof.
  unfold summarize.
  apply issues_only_bind.
  { destruct results; [constructor | apply issues_only_trigger; exact I]. }
  intros _. apply issues_only_bind; [apply summary_loop_issues | intros c].
  apply issues_only_bind; [apply issues_only_trigger; exact I | intros d].
  apply issues_only_bind; [apply issues_only_trigger; exact I | intros _].
  apply issues_only_bind; [| intros; constructor].
  destruct (use_coverage test_subsystem);
    [apply coverage_block_issues | constructor].
Qed.

Lemma materialize_report_never_raises r : never_raises (materialize_report r).
Proof. destruct r; cbn; repeat (constructor; intros). Qed.

Lemma materialize_never_raises rs : never_raises (materialize rs).
Proof.
  induction rs as [| r rs IH]; cbn; [constructor |].
  apply never_raises_bind; [apply materialize_report_never_raises | intros].
  apply never_raises_bind; [exact IH | intros; constructor].
Qed.

Lemma materialize_all_never_raises cs : never_raises (materialize_all cs).
Proof.
  induction cs as [| c cs IH]; cbn; [constructor |].
  apply never_raises_bind; [apply materialize_never_raises | intros].
  apply never_raises_bind; [exact IH | intros; constructor].
Qed.

(** Every group of [groupby] carries the class of one of the data. *)
Lemma groupby_keys (P : string -> Prop) (xs : list CoverageData) :
  Forall (fun d => P (data_cls d)) xs ->
  Forall (fun kg => P kg.1) (groupby xs).
Proof.
  induction 1 as [| x xs Hx _ IH]; cbn; [constructor |].
  destruct (groupby xs) as [| [k g] groups]; [repeat constructor; exact Hx |].
  destruct (String.eqb (data_cls x) k); [| constructor; [exact Hx | exact IH]].
  apply Forall_cons in IH as [Hk IH]. constructor; assumption.
Qed.

(** With every class registered, the subscript never fails. *)
Lemma run_collect_coverage types groups s :
  Forall (fun kg => is_Some (types !! kg.1)) groups ->
  exists cols, run h (collect_coverage types groups) s = (Ok cols, s, []).
Proof.
  induction 1 as [| [k g] groups [c Hc] _ (cols & IH)]; cbn; [eauto |].
  cbn in Hc. rewrite Hc, run_bind, IH. cbn. eauto.
Qed.

Lemma run_coverage_block test_subsystem union_membership results s :
  coverage_registered union_membership results ->
  exists s' tr,
    run h (coverage_block test_subsystem union_membership results) s
    = (Ok tt, s', tr).
Proof.
  intros Hreg. unfold coverage_block. rewrite run_bind.
  destruct (run_collect_coverage
              (coverage_types_to_collection_types union_membership)
              (groupby (omap EnrichedTestResult.coverage_data results)) s)
    as (cols & ->).
  { apply (groupby_keys (fun k => is_Some (_ !! k))). exact Hreg. }
  match goal with
  | |- context [run h ?m s] =>
      assert (Hm : never_raises m); [| destruct (run_never_raises h m s Hm)
                                          as ([] & s' & tr & ->); eauto]
  end.
  apply never_raises_bind; [apply never_raises_multi_get | intros reps].
  apply never_raises_bind; [apply materialize_all_never_raises | intros paths].
  destruct (_ && _); [| constructor].
  apply never_raises_bind; [apply never_raises_trigger | intros o].
  apply never_raises_for_each. intros p.
  apply never_raises_bind; [apply never_raises_trigger | intros; constructor].
Qed.

(** The summary part returns the exit code the loop left, unless the
    coverage block meets a class without a registered collection. *)
Lemma run_summarize console test_subsystem union_membership results s o s' tr :
  (use_coverage test_subsystem = true ->
   coverage_registered union_membership results) ->
  run h (summarize console test_subsystem union_membership results) s
  = (o, s', tr) ->
  o = Ok {| exit_code := summary_exit_code (sorted results) (Some 0) |}.
Proof.
  intros Hreg. unfold summarize. rewrite run_bind.
  match goal with
  | |- context [run h ?m s] =>
      assert (Hm : never_raises m);
      [destruct results; [constructor | apply never_raises_trigger] |
       destruct (run_never_raises h m s Hm) as ([] & s1 & t1 & ->)]
  end.
  rewrite run_bind.
  destruct (run_summary_loop console (sorted results) (Some 0) s1)
    as (s2 & t2 & ->).
  rewrite run_bind, run_trigger, run_bind, run_trigger, run_bind.
  match goal with
  | |- context [run h ?m ?s3] =>
      assert (exists s4 t4, run h m s3 = (Ok tt, s4, t4)) as (s4 & t4 & ->)
  end.
  { destruct (use_coverage test_subsystem).
    - apply run_coverage_block. auto.
    - cbn. eauto. }
  cbn. intros [= <- <- <-]. reflexivity.
Qed.

(** The ordinary branch: there is a result for each eligible field
    set, and the goal returns the exit code that the summary of the
    sorted results leaves. *)
Lemma run_tests_batch console test_subsystem union_membership s o s' tr :
  debug test_subsystem = false ->
  run h (run_tests console test_subsystem union_membership) s = (o, s', tr) ->
  length (results_of tr) = length (field_sets_with_sources_of tr)
  /\ ((use_coverage test_subsystem = true ->
       coverage_registered union_membership (results_of tr)) ->
      o = Ok {| exit_code :=
                  summary_exit_code (sorted (results_of tr)) (Some 0) |}).
Proof.
  intros Hdebug. unfold run_tests. rewrite Hdebug, run_bind.
  destruct (run h (request_results test_subsystem) s) as [[o1 s1] t1] eqn:Hreq.
  destruct (run_request_results _ _ _ _ _ Hreq) as (-> & Hlen).
  destruct (run h (summarize console test_subsystem union_membership
                     (results_of t1)) s1) as [[o2 s2] t2] eqn:Hsum.
  intros [= <- <- <-].
  pose proof (run_issues_only _ _ _ _ _ _ _
                (summarize_issues _ _ _ _) Hsum) as Htr.
  apply summary_trace in Htr as (Hr & Hf & _).
  rewrite results_of_app, field_sets_with_sources_of_app, Hr, Hf, !app_nil_r.
  split; [exact Hlen |]. intros Hreg.
  eapply run_summarize; eassumption.
Qed.

(** The batch of debug requests returns the answers, and runs nothing. *)
Lemma run_debug_batch (fss : list TestFieldSet) s o s' tr :
  run h (multi_get (Exn := GoalExn) GetTestDebugRequest fss) s = (o, s', tr) ->
  o = Ok (debug_requests_of tr)
  /\ interactive_runs tr = [] /\ results_of tr = [].
Proof.
  revert s o s' tr. induction fss as [| fs fss IH]; intros s o s' tr; cbn.
  - intros [= <- <- <-]. done.
  - destruct (h _ (GetTestDebugRequest fs) s) as [r s1].
    rewrite run_bind.
    destruct (run h (multi_get GetTestDebugRequest fss) s1)
      as [[o1 s2] t1] eqn:Hrun.
    destruct (IH _ _ _ _ Hrun) as (-> & Hruns & Hres). cbn.
    intros [= <- <- <-]. rewrite app_nil_r.
    unfold debug_requests_of, interactive_runs, results_of in *. cbn.
    rewrite Hruns, Hres. done.
Qed.

(** The loop of the debug branch runs the process of every request that
    has one, in order, and keeps the last exit code other than zero. *)
Lemma run_debug_loop (debug_requests : list TestDebugRequest) exit_code
    s o s' tr :
  run h (debug_loop debug_requests exit_code) s = (o, s', tr) ->
  o = Ok (foldl (fun acc c => if negb (c =? 0) then c else acc) exit_code
            (map snd (interactive_runs tr)))
  /\ map fst (interactive_runs tr) = omap process debug_requests
  /\ Forall (event_satisfies interactive_request) tr.
Proof.
  revert exit_code s o s' tr.
  induction debug_requests as [| [[p |]] rest IH];
    intros exit_code s o s' tr; cbn.
  - intros [= <- <- <-]. done.
  - destruct (h _ (InteractiveRunnerRun p) s) as [r s1].
    destruct (run h _ s1) as [[o1 s2] t1] eqn:Hrun.
    intros [= <- <- <-].
    unfold interactive_runs in *. cbn.
    destruct (negb (process_exit_code r =? 0));
      destruct (IH _ _ _ _ _ Hrun) as (-> & Hp & Htr);
      rewrite Hp; repeat split; try constructor; try exact I; exact Htr.
  - apply IH.
Qed.

Lemma result_requests_app (t1 t2 : list (event GoalE)) :
  result_requests (t1 ++ t2) = (result_requests t1 ++ result_requests t2)%list.
Proof. apply omap_app. Qed.

Lemma valid_field_sets_of_app (t1 t2 : list (event GoalE)) :
  valid_field_sets_of (t1 ++ t2)
  = (valid_field_sets_of t1 ++ valid_field_sets_of t2)%list.
Proof. apply omap_app. Qed.

Lemma source_filter_requests_app (t1 t2 : list (event GoalE)) :
  source_filter_requests (t1 ++ t2)
  = (source_filter_requests t1 ++ source_filter_requests t2)%list.
Proof. apply omap_app. Qed.

(** A trace of summary requests asks for no field sets, no source
    filter and no result. *)
Lemma summary_trace_requests (tr : list (event GoalE)) :
  Forall (event_satisfies summary_request) tr ->
  valid_field_sets_of tr = [] /\ source_filter_requests tr = []
  /\ result_requests tr = [].
Proof.
  induction 1 as [| [X e x] tr He _ (IH1 & IH2 & IH3)]; [done |].
  unfold valid_field_sets_of, source_filter_requests, result_requests in *.
  destruct e; cbn in *; try contradiction; rewrite ?IH1, ?IH2, ?IH3; done.
Qed.

(** The batch asks for the result of each field set it is given, in
    order, and for nothing else. *)
Lemma run_batch_requests (fss : list TestFieldSet) s o s' tr :
  run h (multi_get (Exn := GoalExn) GetEnrichedTestResult fss) s = (o, s', tr) ->
  result_requests tr = fss
  /\ valid_field_sets_of tr = [] /\ source_filter_requests tr = [].
Proof.
  revert s o s' tr. induction fss as [| fs fss IH]; intros s o s' tr; cbn.
  - intros [= <- <- <-]. done.
  - destruct (h _ (GetEnrichedTestResult fs) s) as [r s1].
    rewrite run_bind.
    destruct (run h (multi_get (Exn := GoalExn) GetEnrichedTestResult fss) s1)
      as [[o1 s2] t1] eqn:Hrun.
    destruct (IH _ _ _ _ Hrun) as (Hreq & Hvalid & Hfilter).
    destruct (run_batch _ _ _ _ _ Hrun) as (-> & _). cbn.
    intros [= <- <- <-]. rewrite app_nil_r.
    unfold result_requests, valid_field_sets_of, source_filter_requests in *.
    cbn. rewrite Hreq, Hvalid, Hfilter. done.
Qed.

(** The requests of the ordinary branch: the valid field sets of the
    targets are asked for once, the source filter is asked about them, and
    a result is asked for each field set that the filter lets through. *)
Lemma run_request_results_requests (test_subsystem : TestSubsystem) s o s' tr :
  run h (request_results test_subsystem) s = (o, s', tr) ->
  (exists valid,
     valid_field_sets_of tr = [valid] /\ source_filter_requests tr = [valid])
  /\ result_requests tr = field_sets_with_sources_of tr.
Proof.
  unfold request_results. rewrite run_bind, run_trigger.
  rewrite run_bind, run_trigger.
  match goal with
  | |- context [run h (multi_get _ ?l) ?s1] =>
      destruct (run h (multi_get (Exn := GoalExn) GetEnrichedTestResult l) s1)
        as [[o1 s2] t1] eqn:Hrun
  end.
  destruct (run_batch _ _ _ _ _ Hrun) as (-> & _ & Hfs).
  destruct (run_batch_requests _ _ _ _ _ Hrun) as (Hreq & Hvalid & Hfilter).
  intros [= <- <- <-].
  cbn [app].
  unfold result_requests, valid_field_sets_of, source_filter_requests,
    field_sets_with_sources_of in *.
  cbn. rewrite Hreq, Hvalid, Hfilter, Hfs, app_nil_r. eauto.
Qed.

Lemma run_tests_requests console test_subsystem union_membership s o s' tr :
  debug test_subsystem = false ->
  run h (run_tests console test_subsystem union_membership) s = (o, s', tr) ->
  (exists valid,
     valid_field_sets_of tr = [valid] /\ source_filter_requests tr = [valid])
  /\ result_requests tr = field_sets_with_sources_of tr.
Proof.
  intros Hdebug. unfold run_tests. rewrite Hdebug, run_bind.
  destruct (run h (request_results test_subsystem) s) as [[o1 s1] t1] eqn:Hreq.
  destruct (run_request_results _ _ _ _ _ Hreq) as (-> & _).
  destruct (run_request_results_requests _ _ _ _ _ Hreq)
    as ((valid & Hvalid & Hfilter) & Hresults).
  destruct (run h (summarize console test_subsystem union_membership
                     (results_of t1)) s1) as [[o2 s2] t2] eqn:Hsum.
  intros [= <- <- <-].
  pose proof (run_issues_only _ _ _ _ _ _ _
                (summarize_issues _ _ _ _) Hsum) as Htr.
  destruct (summary_trace _ Htr) as (_ & Hf & _).
  destruct (summary_trace_requests _ Htr) as (Hv2 & Hs2 & Hr2).
  rewrite valid_field_sets_of_app, source_filter_requests_app,
    result_requests_app, field_sets_with_sources_of_app.
  rewrite Hv2, Hs2, Hr2, Hf, !app_nil_r. eauto.
Qed.

End Runs.
End TestGoalFacts.

(** ** The exit code and the order of the [test] goal *)

Module TestGoalClaims.
Import Engine RuleSpec EngineFacts TestGoal TestGoalSpec OrderFacts TestGoalFacts.
Import EnrichedTestResult.

Lemma skipped_exit_code (r : t) : skipped r = true -> exit_code r = None.
Proof.
  unfold skipped. destruct (exit_code r); cbn; [discriminate | reflexivity].
Qed.

Lemma exit_code_not_skipped (r : t) (x : Z) :
  exit_code r = Some x -> skipped r = false.
Proof. unfold skipped. intros ->. reflexivity. Qed.

Lemma skipped_no_coverage (r : t) : skipped r = true -> coverage_data r = None.
Proof.
  unfold skipped. destruct (coverage_data r); [| reflexivity].
  cbn. rewrite andb_false_r. cbn. discriminate.
Qed.

Lemma failed_false_iff (r : t) :
  failed r = false <-> (skipped r = false -> exit_code r = Some 0).
Proof.
  unfold failed. destruct (skipped r); cbn; [split; [discriminate | reflexivity] |].
  rewrite negb_false_iff, exit_code_eqb_eq. tauto.
Qed.

Lemma failed_true_iff (r : t) :
  failed r = true <-> skipped r = false /\ exit_code r <> Some 0.
Proof.
  unfold failed. rewrite andb_true_iff, !negb_true_iff, exit_code_eqb_neq.
  reflexivity.
Qed.

Lemma summary_exit_code_cons (r : t) (l : list t) (c : option Z) :
  summary_exit_code (r :: l) c
  = summary_exit_code l (if failed r then exit_code r else c).
Proof.
  cbn. unfold failed. destruct (skipped r); [reflexivity |].
  destruct (exit_code_eqb _ _); reflexivity.
Qed.

Lemma summary_exit_code_app (l1 l2 : list t) (c : option Z) :
  summary_exit_code (l1 ++ l2) c = summary_exit_code l2 (summary_exit_code l1 c).
Proof.
  revert c. induction l1 as [| r l1 IH]; intros c; [reflexivity |].
  rewrite <- app_comm_cons, !summary_exit_code_cons. apply IH.
Qed.

(** Results that did not fail leave the exit code as it was. *)
Lemma summary_exit_code_no_failure (l : list t) (c : option Z) :
  Forall (fun r => failed r = false) l -> summary_exit_code l c = c.
Proof.
  induction 1 as [| r l Hr _ IH]; [reflexivity |].
  rewrite summary_exit_code_cons, Hr. exact IH.
Qed.

(** The exit code is that of the last failed result. *)
Lemma summary_exit_code_last_failure (pre post : list t) (r : t) (c : option Z) :
  failed r = true -> Forall (fun r' => failed r' = false) post ->
  summary_exit_code (pre ++ r :: post) c = exit_code r.
Proof.
  intros Hr Hpost.
  rewrite summary_exit_code_app, summary_exit_code_cons, Hr.
  apply summary_exit_code_no_failure. exact Hpost.
Qed.

Lemma Forall_not_failed (l : list t) :
  Forall (fun r => skipped r = false -> exit_code r = Some 0) l <->
  Forall (fun r => failed r = false) l.
Proof. apply Forall_iff. intros r. symmetry. apply failed_false_iff. Qed.

(** Skipped results need no coverage collection. *)
Lemma skipped_coverage_registered union_membership (l : list t) :
  Forall (fun r => skipped r = true) l -> coverage_registered union_membership l.
Proof.
  unfold coverage_registered. induction 1 as [| r l Hr _ IH]; cbn.
  - constructor.
  - rewrite (skipped_no_coverage r Hr). exact IH.
Qed.

(** C2, as amended.  In the ordinary branch [run_tests] returns exit code
    0 when every result that is not skipped has exit code 0; otherwise it
    returns the exit code of the last failed result in sorted order (each
    failure overwrites the code of the one before). *)
Theorem run_tests_exit_code_is_last_failure
    (S : Type) (h : handler GoalE S) (s : S) (console : Console)
    (test_subsystem : TestSubsystem) (union_membership : UnionMembership)
    (o : outcome GoalExn Test) (s' : S) (tr : list (event GoalE)) :
  debug test_subsystem = false ->
  run h (run_tests console test_subsystem union_membership) s = (o, s', tr) ->
  (use_coverage test_subsystem = true ->
   coverage_registered union_membership (results_of tr)) ->
  (Forall (fun r => skipped r = false -> exit_code r = Some 0) (results_of tr) ->
   o = Ok {| TestGoal.exit_code := Some 0 |})
  /\ (forall pre r post,
        sorted (results_of tr) = (pre ++ r :: post)%list ->
        skipped r = false -> exit_code r <> Some 0 ->
        Forall (fun r' => skipped r' = false -> exit_code r' = Some 0) post ->
        o = Ok {| TestGoal.exit_code := exit_code r |}).
Proof.
  intros Hdebug Hrun Hreg.
  destruct (run_tests_batch h _ _ _ _ _ _ _ Hdebug Hrun) as [_ Ho].
  specialize (Ho Hreg). subst o. split.
  - intros Hall. f_equal. f_equal.
    apply summary_exit_code_no_failure.
    rewrite sorted_Permutation. apply Forall_not_failed. exact Hall.
  - intros pre r post Hsorted Hskip Hcode Hpost. f_equal. f_equal.
    rewrite Hsorted. apply summary_exit_code_last_failure.
    + apply failed_true_iff. split; assumption.
    + apply Forall_not_failed. exact Hpost.
Qed.

Lemma run_tests_exit_code_is_last_failure_witness :
  (run (world_handler two_failures)
     (run_tests plain_console default_subsystem []) []).1.1
  = Ok {| TestGoal.exit_code := Some 2 |}.
Proof.
  set (w := run (world_handler two_failures)
              (run_tests plain_console default_subsystem []) []).
  refine (proj2 (run_tests_exit_code_is_last_failure (list string)
                   (world_handler two_failures) [] plain_console
                   default_subsystem [] w.1.1 w.1.2 w.2 _ _ _)
            [result_with (target "a") 1 "FAILED"]
            (result_with (target "b") 2 "FAILED") [] _ _ _ _).
  - reflexivity.
  - vm_compute. reflexivity.
  - cbn. discriminate.
  - vm_compute. reflexivity.
  - reflexivity.
  - cbn. discriminate.
  - constructor.
Defined.

(** C2, as the spec states it, fails: with two failed results of exit
    codes 1 and 2 the goal returns 2, not the first code other than zero
    in sorted order, which is 1. *)
Lemma run_tests_exit_code_not_first_failure :
  let '(o, _, tr) := run (world_handler two_failures)
                       (run_tests plain_console default_subsystem []) [] in
  o = Ok {| TestGoal.exit_code := Some 2 |}
  /\ claimed_exit_code (results_of tr) = Some 1
  /\ o <> Ok {| TestGoal.exit_code := claimed_exit_code (results_of tr) |}.
Proof. vm_compute. repeat split; congruence. Qed.

Ltac rewrite_lt Hs :=
  repeat (cbn [sorted insert]; rewrite ?(proj1 Hs), ?(proj1 (proj2 Hs)),
            ?(proj1 (proj2 (proj2 Hs))), ?(proj1 (proj2 (proj2 (proj2 Hs)))),
            ?(proj1 (proj2 (proj2 (proj2 (proj2 Hs))))),
            ?(proj2 (proj2 (proj2 (proj2 (proj2 Hs))))));
  try reflexivity.

(** The order of a skipped result, a success and a failure with exit
    code 5 among themselves. *)
Lemma scenario_order (a b c : t) :
  exit_code a = Some 0 -> exit_code b = Some 5 -> skipped c = true ->
  lt c a = true /\ lt a c = false /\ lt a b = true /\ lt b a = false
  /\ lt c b = true /\ lt b c = false.
Proof.
  intros Ha Hb Hc. apply skipped_exit_code in Hc.
  unfold lt. rewrite Ha, Hb, Hc. cbn. done.
Qed.

(** However three such results are listed, [sorted] puts the skipped one
    first and the failure last. *)
Lemma scenario_sorted (l : list t) (a b c : t) :
  Permutation l [a; b; c] ->
  exit_code a = Some 0 -> exit_code b = Some 5 -> skipped c = true ->
  sorted l = [c; a; b].
Proof.
  intros Hp Ha Hb Hc.
  pose proof (scenario_order a b c Ha Hb Hc) as Hs.
  pose proof (skipped_exit_code c Hc) as Hc'.
  assert (Hab : a <> b) by congruence.
  assert (Hac : a <> c) by congruence.
  assert (Hbc : b <> c) by congruence.
  pose proof (Permutation_length Hp) as Hlen.
  destruct l as [| x [| y [| z [| ? ?]]]]; try discriminate Hlen.
  assert (Hnd : List.NoDup [a; b; c])
    by (repeat constructor; cbn; intuition congruence).
  apply (Permutation_NoDup (Permutation_sym Hp)) in Hnd.
  inversion Hnd as [| ? ? Hxyz Hnd']. inversion Hnd' as [| ? ? Hyz _].
  cbn in Hxyz, Hyz.
  pose proof (Permutation_in x Hp (or_introl eq_refl)) as Hx.
  pose proof (Permutation_in y Hp (or_intror (or_introl eq_refl))) as Hy.
  pose proof (Permutation_in z Hp (or_intror (or_intror (or_introl eq_refl))))
    as Hz.
  cbn in Hx, Hy, Hz. subst.
  clear Hnd Hnd' Hp Hlen.
  destruct Hx as [<- | [<- | [<- | []]]], Hy as [<- | [<- | [<- | []]]],
    Hz as [<- | [<- | [<- | []]]]; try tauto; rewrite_lt Hs.
Qed.

(** A success and a failure with exit code 5, however they are listed. *)
Lemma scenario_sorted_two (l : list t) (a b : t) :
  Permutation l [a; b] ->
  exit_code a = Some 0 -> exit_code b = Some 5 ->
  sorted l = [a; b].
Proof.
  intros Hp Ha Hb.
  assert (Hab : lt a b = true /\ lt b a = false)
    by (unfold lt; rewrite Ha, Hb; done).
  destruct Hab as [Hab Hba].
  apply Permutation_sym, Permutation_length_2_inv in Hp as [-> | ->];
    cbn [sorted insert]; rewrite ?Hab, ?Hba; reflexivity.
Qed.

(** C1, as amended.  A run of the goal over three targets A, B and C asks
    the source filter about the three, and asks for a result for each
    field set that the filter lets through, for no other: a target without
    sources has no result, not a skipped one.  So when the results are
    those of A, which succeeds with exit code 0, and of B, which fails with
    exit code 5, they are sorted as A, B and the goal returns exit code 5.
    When there is a skipped result for C as well, delivered by the batch,
    the sorted results are C, A, B and the goal returns exit code 5
    again. *)
Theorem three_targets_sorted_and_exit_code
    (S : Type) (h : handler GoalE S) (s : S) (console : Console)
    (test_subsystem : TestSubsystem) (union_membership : UnionMembership)
    (o : outcome GoalExn Test) (s' : S) (tr : list (event GoalE))
    (fa fb fc : TestFieldSet) :
  debug test_subsystem = false ->
  run h (run_tests console test_subsystem union_membership) s = (o, s', tr) ->
  (use_coverage test_subsystem = true ->
   coverage_registered union_membership (results_of tr)) ->
  valid_field_sets_of tr = [[fa; fb; fc]] ->
  source_filter_requests tr = [[fa; fb; fc]]
  /\ result_requests tr = field_sets_with_sources_of tr
  /\ length (results_of tr) = length (field_sets_with_sources_of tr)
  /\ (forall a b,
        Permutation (results_of tr) [a; b] ->
        exit_code a = Some 0 -> exit_code b = Some 5 ->
        sorted (results_of tr) = [a; b]
        /\ o = Ok {| TestGoal.exit_code := Some 5 |})
  /\ (forall a b c,
        Permutation (results_of tr) [a; b; c] ->
        exit_code a = Some 0 -> exit_code b = Some 5 -> skipped c = true ->
        sorted (results_of tr) = [c; a; b]
        /\ o = Ok {| TestGoal.exit_code := Some 5 |}).
Proof.
  intros Hdebug Hrun Hreg Hvalid.
  destruct (run_tests_requests h _ _ _ _ _ _ _ Hdebug Hrun)
    as ((valid & Hv & Hfilter) & Hrequests).
  destruct (run_tests_batch h _ _ _ _ _ _ _ Hdebug Hrun) as [Hlen Ho].
  specialize (Ho Hreg).
  rewrite Hv in Hvalid. injection Hvalid as ->.
  split; [exact Hfilter |]. split; [exact Hrequests |].
  split; [exact Hlen |]. split.
  - intros a b Hp Ha Hb.
    pose proof (scenario_sorted_two _ _ _ Hp Ha Hb) as Hsorted.
    split; [exact Hsorted |].
    rewrite Ho, Hsorted. f_equal. f_equal.
    rewrite !summary_exit_code_cons.
    assert (Hfb : failed b = true).
    { apply failed_true_iff. split; [eapply exit_code_not_skipped; eauto |].
      rewrite Hb. discriminate. }
    rewrite Hfb. exact Hb.
  - intros a b c Hp Ha Hb Hc.
    pose proof (scenario_sorted _ _ _ _ Hp Ha Hb Hc) as Hsorted.
    split; [exact Hsorted |].
    rewrite Ho, Hsorted. f_equal. f_equal.
    rewrite !summary_exit_code_cons.
    assert (Hfb : failed b = true).
    { apply failed_true_iff. split; [eapply exit_code_not_skipped; eauto |].
      rewrite Hb. discriminate. }
    rewrite Hfb. exact Hb.
Qed.

Lemma three_targets_sorted_and_exit_code_witness :
  let w := run (world_handler three_targets_no_sources)
             (run_tests plain_console default_subsystem []) [] in
  result_requests w.2 = [target "a"; target "b"]
  /\ sorted (results_of w.2)
     = [result_with (target "a") 0 "ok"; result_with (target "b") 5 "FAILED"]
  /\ w.1.1 = Ok {| TestGoal.exit_code := Some 5 |}.
Proof.
  intros w.
  destruct (three_targets_sorted_and_exit_code (list string)
              (world_handler three_targets_no_sources) [] plain_console
              default_subsystem [] w.1.1 w.1.2 w.2
              (target "a") (target "b") (target "c"))
    as (_ & Hrequests & _ & Htwo & _).
  - reflexivity.
  - vm_compute. reflexivity.
  - cbn. discriminate.
  - vm_compute. reflexivity.
  - split; [rewrite Hrequests; vm_compute; reflexivity |].
    apply Htwo; [vm_compute; reflexivity | reflexivity | reflexivity].
Defined.

(** C1, as the spec states it, fails: of three valid targets, the one
    without sources is left out by the source filter and no result is
    asked for it, so the sorted results are those of A and B only, where
    the spec has the skipped result of C before them. *)
Lemma no_result_without_sources :
  let '(o, _, tr) := run (world_handler three_targets_no_sources)
                       (run_tests plain_console default_subsystem []) [] in
  let a := result_with (target "a") 0 "ok" in
  let b := result_with (target "b") 5 "FAILED" in
  let c := skipped_result (target "c") in
  valid_field_sets_of tr = [[target "a"; target "b"; target "c"]]
  /\ field_sets_with_sources_of tr = [target "a"; target "b"]
  /\ result_requests tr = [target "a"; target "b"]
  /\ sorted (results_of tr) = [a; b]
  /\ sorted (results_of tr) <> claimed_scenario_order a b c
  /\ o = Ok {| TestGoal.exit_code := Some 5 |}.
Proof. vm_compute. repeat split; discriminate. Qed.

(** C8.  In the ordinary branch, when no field set is eligible or every
    result is skipped, [run_tests] returns exit code 0. *)
Theorem nothing_to_do_exits_zero
    (S : Type) (h : handler GoalE S) (s : S) (console : Console)
    (test_subsystem : TestSubsystem) (union_membership : UnionMembership)
    (o : outcome GoalExn Test) (s' : S) (tr : list (event GoalE)) :
  debug test_subsystem = false ->
  run h (run_tests console test_subsystem union_membership) s = (o, s', tr) ->
  field_sets_with_sources_of tr = []
  \/ Forall (fun r => skipped r = true) (results_of tr) ->
  o = Ok {| TestGoal.exit_code := Some 0 |}.
Proof.
  intros Hdebug Hrun Hnothing.
  destruct (run_tests_batch h _ _ _ _ _ _ _ Hdebug Hrun) as [Hlen Ho].
  assert (Hall : Forall (fun r => skipped r = true) (results_of tr)).
  { destruct Hnothing as [Hnone | Hall]; [| exact Hall].
    rewrite Hnone in Hlen. apply nil_length_inv in Hlen. rewrite Hlen.
    constructor. }
  rewrite Ho by (intros _; apply skipped_coverage_registered; exact Hall).
  f_equal. f_equal. apply summary_exit_code_no_failure.
  rewrite sorted_Permutation.
  eapply Forall_impl; [exact Hall |].
  intros r Hr. unfold failed. rewrite Hr. reflexivity.
Qed.

Lemma nothing_to_do_exits_zero_witness :
  (run (world_handler all_skipped)
     (run_tests plain_console default_subsystem []) []).1.1
  = Ok {| TestGoal.exit_code := Some 0 |}.
Proof.
  set (w := run (world_handler all_skipped)
              (run_tests plain_console default_subsystem []) []).
  refine (nothing_to_do_exits_zero (list string) (world_handler all_skipped) []
            plain_console default_subsystem [] w.1.1 w.1.2 w.2 _ _ _).
  - reflexivity.
  - vm_compute. reflexivity.
  - right. vm_compute. repeat constructor.
Defined.

(** C3, as amended.  The summary is sorted by outcome first: a skipped
    result comes before every result with an exit code, and a success
    (exit code 0) before a failure with a positive exit code; two results
    with the same exit code, so any two skipped results and any two
    successes, come in the lexical order of their target addresses.
    [sorted] rearranges the results into the order of [__lt__]. *)
Theorem summary_order_is_outcome_then_address (a b : t) (l : list t) :
  (skipped a = true -> is_Some (exit_code b) ->
   lt a b = true /\ lt b a = false)
  /\ (forall code,
        exit_code a = Some 0 -> exit_code b = Some code -> 0 < code ->
        lt a b = true /\ lt b a = false)
  /\ (exit_code a = exit_code b ->
      lt a b = String.ltb (spec (address a)) (spec (address b)))
  /\ Permutation (sorted l) l
  /\ StronglySorted (fun x y => lt y x = false) (sorted l).
Proof.
  split; [| split; [| split]].
  - intros Ha [code Hb]. apply skipped_exit_code in Ha.
    unfold lt. rewrite Ha, Hb. done.
  - intros code Ha Hb Hcode. unfold lt. rewrite Ha, Hb.
    cbn [exit_code_eqb].
    rewrite (proj2 (Z.eqb_neq 0 code)), (proj2 (Z.eqb_neq code 0)) by lia.
    split; [apply Z.ltb_lt | apply Z.ltb_ge]; lia.
  - intros Hsame. unfold lt. rewrite Hsame.
    replace (exit_code_eqb (exit_code b) (exit_code b)) with true;
      [reflexivity |].
    symmetry. apply exit_code_eqb_eq. reflexivity.
  - split; [apply sorted_Permutation | apply sorted_StronglySorted].
Qed.

Lemma summary_order_is_outcome_then_address_witness :
  let c := skipped_result (target "z") in
  let a := result_with (target "a") 0 "ok" in
  let b := result_with (target "b") 5 "FAILED" in
  lt c a = true /\ lt a b = true /\ lt b a = false
  /\ Permutation (sorted [b; a; c]) [b; a; c].
Proof.
  intros c a b.
  destruct (summary_order_is_outcome_then_address c a [b; a; c])
    as (Hskipped & _ & _ & Hperm & _).
  destruct (summary_order_is_outcome_then_address a b [])
    as (_ & Hsuccess & _).
  destruct (Hskipped eq_refl (ex_intro _ 0 eq_refl)) as [Hca _].
  destruct (Hsuccess 5 eq_refl eq_refl eq_refl) as [Hab Hba].
  exact (conj Hca (conj Hab (conj Hba Hperm))).
Defined.

(** C3, as the spec states it, fails: a success is sorted before a
    failure, where the stated order of the categories (skipped, failed,
    succeeded) puts it after. *)
Lemma summary_order_not_failed_before_succeeded :
  let a := result_with (target "a") 0 "ok" in
  let b := result_with (target "b") 5 "FAILED" in
  category_of a = Succeeded /\ category_of b = Failed
  /\ lt a b = true /\ claimed_lt a b = false
  /\ sorted [b; a] = [a; b].
Proof. vm_compute. repeat split; reflexivity. Qed.

Lemma last_nonzero_singleton (code : Z) : last_nonzero [code] = code.
Proof.
  unfold last_nonzero. cbn. destruct (code =? 0) eqn:H; cbn; [| reflexivity].
  apply Z.eqb_eq in H. congruence.
Qed.

(** The debug branch on any input: [run_tests] asks for no per-target
    result, runs the process of each debug request that has one,
    interactively and in order, and returns the last exit code other than
    zero among those processes, or zero.  When exactly one process is
    run, that is the exit code of that process. *)
Lemma debug_runs_every_process
    (S : Type) (h : handler GoalE S) (s : S) (console : Console)
    (test_subsystem : TestSubsystem) (union_membership : UnionMembership)
    (o : outcome GoalExn Test) (s' : S) (tr : list (event GoalE)) :
  debug test_subsystem = true ->
  run h (run_tests console test_subsystem union_membership) s = (o, s', tr) ->
  results_of tr = []
  /\ map fst (interactive_runs tr) = omap process (debug_requests_of tr)
  /\ o = Ok {| TestGoal.exit_code :=
                 Some (last_nonzero (map snd (interactive_runs tr))) |}
  /\ (forall p code,
        interactive_runs tr = [(p, code)] ->
        o = Ok {| TestGoal.exit_code := Some code |}).
Proof.
  intros Hdebug. unfold run_tests. rewrite Hdebug, run_bind, run_trigger.
  match goal with
  | |- context [Ev ?e ?x] => set (first := Ev e x); set (valid := x)
  end.
  rewrite run_bind.
  destruct (run h (multi_get (Exn := GoalExn) GetTestDebugRequest
                     (field_sets valid)) (h _ _ s).2)
    as [[o1 s2] t1] eqn:Hbatch.
  destruct (run_debug_batch h _ _ _ _ _ Hbatch) as (-> & Hruns1 & Hres1).
  rewrite run_bind.
  destruct (run h (debug_loop (debug_requests_of t1) 0) s2)
    as [[o2 s3] t2] eqn:Hloop.
  destruct (run_debug_loop h _ _ _ _ _ _ Hloop) as (-> & Hprocs & Htr).
  apply interactive_trace in Htr as (Hres2 & Hreqs2).
  cbn [run]. intros [= <- <- <-]. rewrite app_nil_r.
  change ([first] ++ t1 ++ t2)%list with (first :: t1 ++ t2)%list.
  assert (Hres : results_of (first :: t1 ++ t2) = []).
  { change (results_of (first :: t1 ++ t2)) with (results_of (t1 ++ t2)).
    rewrite results_of_app, Hres1, Hres2. reflexivity. }
  assert (Hruns : interactive_runs (first :: t1 ++ t2) = interactive_runs t2).
  { change (interactive_runs (first :: t1 ++ t2))
      with (interactive_runs (t1 ++ t2)).
    rewrite interactive_runs_app, Hruns1. reflexivity. }
  assert (Hreqs : debug_requests_of (first :: t1 ++ t2) = debug_requests_of t1).
  { change (debug_requests_of (first :: t1 ++ t2))
      with (debug_requests_of (t1 ++ t2)).
    rewrite debug_requests_of_app, Hreqs2, app_nil_r. reflexivity. }
  rewrite Hres, Hruns, Hreqs.
  split; [reflexivity |]. split; [exact Hprocs |].
  split; [reflexivity |].
  intros p code Hone. rewrite Hone. cbn [map snd].
  fold (last_nonzero [code]). rewrite last_nonzero_singleton. reflexivity.
Qed.

Lemma debug_runs_every_process_witness :
  let w := run (world_handler one_debug_target)
             (run_tests plain_console debug_subsystem []) [] in
  results_of w.2 = []
  /\ map fst (interactive_runs w.2) = [{| argv := ["pytest"; "src:a"] |}]
  /\ w.1.1 = Ok {| TestGoal.exit_code := Some 3 |}.
Proof.
  intros w.
  destruct (debug_runs_every_process (list string)
              (world_handler one_debug_target) [] plain_console debug_subsystem []
              w.1.1 w.1.2 w.2 eq_refl eq_refl) as (H1 & H2 & H3 & _).
  exact (conj H1 (conj H2 H3)).
Defined.

(** C4.  With the debug flag set and two targets, each with a process
    to debug, [run_tests] runs both processes one after the other, not a
    single target's as the spec and the help of [--debug] have it, and
    the exit code of the goal (3, of the first process) is not that of the
    process run last (0). *)
Theorem debug_runs_more_than_one_process :
  let '(o, _, tr) := run (world_handler two_debug_targets)
                       (run_tests plain_console debug_subsystem []) [] in
  interactive_runs tr
  = [({| argv := ["pytest"; "src:a"] |}, 3);
     ({| argv := ["pytest"; "src:b"] |}, 0)]
  /\ o = Ok {| TestGoal.exit_code := Some 3 |}
  /\ ~ claimed_debug_run o tr.
Proof.
  vm_compute. repeat split.
  intros (p & code & Hruns & _). discriminate Hruns.
Qed.

(** C9.  [enrich_test_result] copies the exit code, the output streams,
    the address, the coverage data and the XML results of the test result
    unchanged and adds the output setting of the subsystem; the enriched
    [TestResult.skip] of an address is skipped. *)
Theorem enrich_test_result_frame (test_result : TestResult.t)
    (test_subsystem : TestSubsystem) (addr : Address) :
  let r := enrich_test_result test_result test_subsystem in
  exit_code r = TestResult.exit_code test_result
  /\ stdout r = TestResult.stdout test_result
  /\ stderr r = TestResult.stderr test_result
  /\ address r = TestResult.address test_result
  /\ coverage_data r = TestResult.coverage_data test_result
  /\ xml_results r = TestResult.xml_results test_result
  /\ output_setting r = output test_subsystem
  /\ skipped (enrich_test_result (TestResult.skip addr) test_subsystem) = true
  /\ address (enrich_test_result (TestResult.skip addr) test_subsystem) = addr.
Proof. cbn. repeat split; reflexivity. Qed.

End TestGoalClaims.

(** ** The Go SDK process *)

Module GoSdkFacts.
Import Engine GoSdk.

(** C5.  A [GoSdkProcess] made with [allow_downloads=False], which is the
    default, has ["GOPROXY"] set to ["off"] in its environment, whatever
    the caller gave for it, and the caller's other variables unchanged;
    one made with [allow_downloads=True] has exactly the caller's
    environment (the empty one when none is given). *)
Theorem go_sdk_process_env_goproxy
    (command : list string) (description : string)
    (env : option (gmap string string)) (input_digest : Digest)
    (working_dir : option string) (output_files output_directories : list string)
    (replace_sandbox_root_in_args : bool) :
  let denied := GoSdkProcess.init command description env input_digest
                  working_dir output_files output_directories false
                  replace_sandbox_root_in_args in
  let allowed := GoSdkProcess.init command description env input_digest
                   working_dir output_files output_directories true
                   replace_sandbox_root_in_args in
  GoSdkProcess.env denied !! "GOPROXY" = Some "off"
  /\ (forall k, k <> "GOPROXY" ->
        GoSdkProcess.env denied !! k = GoSdkProcess.env_or_empty env !! k)
  /\ GoSdkProcess.env (GoSdkProcess.init_default command description) !! "GOPROXY"
     = Some "off"
  /\ GoSdkProcess.env allowed = GoSdkProcess.env_or_empty env
  /\ (forall e, env = Some e -> GoSdkProcess.env allowed = e)
  /\ (env = None -> GoSdkProcess.env allowed = ∅).
Proof.
  cbn. repeat split.
  - apply lookup_insert_eq.
  - intros k Hk. apply lookup_insert_ne. congruence.
  - intros e ->. reflexivity.
  - intros ->. reflexivity.
Qed.

Lemma go_sdk_process_env_goproxy_witness :
  GoSdkProcess.env
    (GoSdkProcess.init ["build"] "Build" (Some {[ "GOPROXY" := "direct" ]})
       EMPTY_DIGEST None [] [] false false) !! "GOPROXY" = Some "off"
  /\ GoSdkProcess.env
       (GoSdkProcess.init ["build"] "Build" (Some {[ "GOPROXY" := "direct" ]})
          EMPTY_DIGEST None [] [] true false) = {[ "GOPROXY" := "direct" ]}.
Proof.
  pose proof (go_sdk_process_env_goproxy ["build"] "Build"
                (Some {[ "GOPROXY" := "direct" ]}) EMPTY_DIGEST None [] []
                false) as (H1 & _ & _ & _ & H2 & _).
  exact (conj H1 (H2 _ eq_refl)).
Defined.

(** The answer of the engine only depends on the requested variables. *)
Lemma environment_vars_subset_agree (requested : list string)
    (ambient1 ambient2 : gmap string string) :
  (forall k, k ∈ requested -> ambient1 !! k = ambient2 !! k) ->
  environment_vars_subset requested ambient1
  = environment_vars_subset requested ambient2.
Proof.
  intros Hagree. apply map_eq. intros k. apply option_eq. intros v.
  unfold environment_vars_subset. rewrite !map_lookup_filter_Some. cbn.
  split; intros [Hk Hin]; (split; [| exact Hin]);
    [rewrite <- (Hagree k Hin) | rewrite (Hagree k Hin)]; exact Hk.
Qed.

(** C7.  The process that [setup_go_sdk_process] builds is the same in
    any two ambient environments that agree on the variables named by
    [env_vars_to_pass_to_subprocesses]; every variable of its environment
    is the Go SDK cache key, the sandbox-root or the chdir control
    variable, a variable of the request's own environment, or an
    allow-listed variable with its ambient value; no other variable of
    the ambient environment is in it. *)
Theorem setup_go_sdk_process_env_is_allow_listed
    (merge : list Digest -> Digest) (ambient1 ambient2 : gmap string string)
    (request : GoSdkProcess.t) (go_sdk_run : GoSdkRunSetup.t) (bash : BashBinary)
    (golang_env_aware : EnvironmentAware) (goroot : GoRoot) :
  (forall k, k ∈ env_vars_to_pass_to_subprocesses golang_env_aware ->
             ambient1 !! k = ambient2 !! k) ->
  run (engine merge ambient1)
    (setup_go_sdk_process request go_sdk_run bash golang_env_aware goroot) tt
  = run (engine merge ambient2)
      (setup_go_sdk_process request go_sdk_run bash golang_env_aware goroot) tt
  /\ exists p tr,
       run (engine merge ambient1)
         (setup_go_sdk_process request go_sdk_run bash golang_env_aware goroot) tt
       = (Ok p, tt, tr)
       /\ (forall k v,
            Process.env p !! k = Some v ->
            (k = "__PANTS_GO_SDK_CACHE_KEY"
             /\ v = version goroot ++ "/" ++ goos goroot ++ "/" ++ goarch goroot)
            \/ (k = GoSdkRunSetup.SANDBOX_ROOT_ENV
                /\ GoSdkProcess.replace_sandbox_root_in_args request = true
                /\ v = "1")
            \/ (k = GoSdkRunSetup.CHDIR_ENV
                /\ v = match GoSdkProcess.working_dir request with
                       | Some d => d
                       | None => ""
                       end)
            \/ GoSdkProcess.env request !! k = Some v
            \/ (k ∈ env_vars_to_pass_to_subprocesses golang_env_aware
                /\ ambient1 !! k = Some v))
       /\ (forall k,
             k ∉ env_vars_to_pass_to_subprocesses golang_env_aware ->
             GoSdkProcess.env request !! k = None ->
             k <> "__PANTS_GO_SDK_CACHE_KEY" ->
             k <> GoSdkRunSetup.SANDBOX_ROOT_ENV ->
             k <> GoSdkRunSetup.CHDIR_ENV ->
             Process.env p !! k = None).
Proof.
  intros Hagree. split.
  - cbn. rewrite (environment_vars_subset_agree _ _ _ Hagree). reflexivity.
  - cbn. eexists _, _. split; [reflexivity |]. cbn. split.
    + intros k v.
      rewrite lookup_insert_Some. intros [[<- <-] | [_ Hk]]; [left; done |].
      right. apply lookup_union_Some_raw in Hk as [Hk | [_ Hk]].
      * left. destruct (GoSdkProcess.replace_sandbox_root_in_args request).
        -- apply lookup_singleton_Some in Hk as [<- <-]. done.
        -- rewrite lookup_empty in Hk. discriminate.
      * right. apply lookup_insert_Some in Hk as [[<- <-] | [_ Hk]]; [left; done |].
        right. apply lookup_union_Some_raw in Hk as [Hk | [_ Hk]]; [left; done |].
        right. unfold environment_vars_subset in Hk.
        apply map_lookup_filter_Some in Hk as [Hk Hin]. done.
    + intros k Hnot Hreq Hcache Hroot Hchdir.
      rewrite lookup_insert_ne by congruence.
      apply lookup_union_None. split.
      * destruct (GoSdkProcess.replace_sandbox_root_in_args request);
          [| apply lookup_empty].
        rewrite lookup_insert_ne by (intros Heq; apply Hroot; symmetry; exact Heq).
        apply lookup_empty.
      * rewrite lookup_insert_ne by (intros Heq; apply Hchdir; symmetry; exact Heq).
        apply lookup_union_None. split; [exact Hreq |].
        apply map_lookup_filter_None. right. intros v _. exact Hnot.
Qed.

Lemma setup_go_sdk_process_env_is_allow_listed_witness :
  run (engine sample_merge sample_ambient1)
    (setup_go_sdk_process sample_request sample_run_setup sample_bash
       sample_env_aware sample_goroot) tt
  = run (engine sample_merge sample_ambient2)
      (setup_go_sdk_process sample_request sample_run_setup sample_bash
         sample_env_aware sample_goroot) tt.
Proof.
  refine (proj1 (setup_go_sdk_process_env_is_allow_listed sample_merge
                   sample_ambient1 sample_ambient2 sample_request
                   sample_run_setup sample_bash sample_env_aware
                   sample_goroot _)).
  intros k Hk. cbn in Hk.
  apply elem_of_cons in Hk as [-> | Hk]; [vm_compute; reflexivity |].
  apply list_elem_of_singleton in Hk as ->. vm_compute. reflexivity.
Defined.

End GoSdkFacts.

(** ** Paths *)

Module PathFacts.
Import PyStr PosixPath.

Lemma append_cons (a : ascii) (s t : string) : String a s ++ t = String a (s ++ t).
Proof. reflexivity. Qed.

Lemma append_nil_l (s : string) : "" ++ s = s.
Proof. reflexivity. Qed.

Lemma append_nil_r (s : string) : s ++ "" = s.
Proof.
  induction s as [| a s IH]; [reflexivity |]. rewrite append_cons, IH. reflexivity.
Qed.

Lemma append_assoc (s1 s2 s3 : string) : (s1 ++ s2) ++ s3 = s1 ++ (s2 ++ s3).
Proof.
  induction s1 as [| a s1 IH]; [reflexivity |].
  rewrite !append_cons, IH. reflexivity.
Qed.

(** [endswith] a separator, by the last character. *)
Lemma endswith_sep (s : string) :
  endswith s "/" = match last_char s with
                   | Some a => Ascii.eqb a sep
                   | None => false
                   end.
Proof.
  unfold endswith. induction s as [| a s IH]; [reflexivity |].
  destruct s as [| b s].
  - cbn. unfold sep. destruct (Ascii.eqb a "/"); reflexivity.
  - change (last_char (String a (String b s))) with (last_char (String b s)).
    rewrite <- IH. cbn [String.length Nat.leb]. cbn [Nat.sub].
    rewrite !Nat.sub_0_r. cbn [substring]. reflexivity.
Qed.

Lemma last_char_app (x s : string) : s <> "" -> last_char (x ++ s) = last_char s.
Proof.
  intros Hs. induction x as [| a x IH]; [reflexivity |].
  rewrite append_cons. cbn [last_char]. rewrite IH.
  destruct (x ++ s) eqn:Hx; [| reflexivity].
  destruct x; [rewrite append_nil_l in Hx; contradiction |].
  rewrite append_cons in Hx. discriminate Hx.
Qed.

Lemma last_char_free (s : string) :
  s <> "" -> free_of_sep s = true ->
  exists a, last_char s = Some a /\ Ascii.eqb a sep = false.
Proof.
  induction s as [| a s IH]; [contradiction |]. intros _ Hfree.
  cbn in Hfree. apply andb_true_iff in Hfree as [Ha Hfree].
  apply negb_true_iff in Ha. destruct s as [| b s]; [eauto |].
  apply IH; [discriminate | exact Hfree].
Qed.

(** A text that ends in a plain name does not end in a separator. *)
Lemma endswith_sep_plain (x c : string) : plain c -> endswith (x ++ c) "/" = false.
Proof.
  intros (Hne & _ & _ & Hfree).
  rewrite endswith_sep, last_char_app by exact Hne.
  destruct (last_char_free c Hne Hfree) as (a & -> & Ha). exact Ha.
Qed.

(** A text that starts with a plain name does not start with a separator. *)
Lemma startswith_sep_plain (c rest : string) :
  plain c -> startswith (c ++ rest) "/" = false.
Proof.
  intros (Hne & _ & _ & Hfree). destruct c as [| a c]; [contradiction |].
  cbn in Hfree. apply andb_true_iff in Hfree as [Ha _].
  unfold startswith. rewrite append_cons. cbn [String.prefix].
  destruct (ascii_dec "/" a) as [<- |]; [| reflexivity].
  discriminate Ha.
Qed.

Lemma plain_eqb (c : string) :
  plain c -> String.eqb c "" = false /\ String.eqb c "." = false
             /\ String.eqb c ".." = false.
Proof. intros (H1 & H2 & H3 & _). rewrite !String.eqb_neq. auto. Qed.

Lemma split_free (c : string) : free_of_sep c = true -> split sep c = [c].
Proof.
  induction c as [| a c IH]; [reflexivity |]. cbn. intros H.
  apply andb_true_iff in H as [Ha Hc]. apply negb_true_iff in Ha.
  fold sep. rewrite Ha, (IH Hc). reflexivity.
Qed.

Lemma split_free_app (c s : string) :
  free_of_sep c = true -> split sep (c ++ String sep s) = c :: split sep s.
Proof.
  induction c as [| a c IH].
  - intros _. rewrite append_nil_l. cbn. reflexivity.
  - intros H. cbn in H. apply andb_true_iff in H as [Ha Hc].
    apply negb_true_iff in Ha. rewrite append_cons. cbn [split].
    rewrite Ha, (IH Hc). reflexivity.
Qed.

(** [sep.join] of two components or more. *)
Lemma join_cons (c d : string) (l : list string) :
  PyStr.join "/" (c :: d :: l) = c ++ String sep (PyStr.join "/" (d :: l)).
Proof. reflexivity. Qed.

Lemma join_app (l1 l2 : list string) :
  l1 <> [] -> l2 <> [] ->
  PyStr.join "/" (l1 ++ l2)
  = PyStr.join "/" l1 ++ String sep (PyStr.join "/" l2).
Proof.
  intros H1 H2. induction l1 as [| c l1 IH]; [contradiction |].
  destruct l1 as [| d l1].
  - destruct l2 as [| e l2]; [contradiction |]. reflexivity.
  - change ((c :: d :: l1) ++ l2)%list with (c :: d :: (l1 ++ l2))%list.
    rewrite !join_cons.
    change (d :: (l1 ++ l2))%list with ((d :: l1) ++ l2)%list.
    rewrite IH by discriminate. rewrite append_assoc. reflexivity.
Qed.

(** A path made of plain names starts with the first of them. *)
Lemma join_head (c : string) (l : list string) :
  exists rest, PyStr.join "/" (c :: l) = c ++ rest.
Proof.
  destruct l as [| d l].
  - exists "". cbn. rewrite append_nil_r. reflexivity.
  - eexists. apply join_cons.
Qed.

(** A path made of plain names ends with the last of them. *)
Lemma join_last (l : list string) (c : string) :
  exists x, PyStr.join "/" (l ++ [c]) = x ++ c.
Proof.
  destruct l as [| d l]; [exists ""; reflexivity |].
  rewrite join_app by discriminate. eexists.
  change (String sep (PyStr.join "/" [c])) with ("/" ++ c).
  rewrite <- append_assoc. reflexivity.
Qed.

Lemma join_nonempty (l : list string) :
  l <> [] -> Forall plain l -> PyStr.join "/" l <> "".
Proof.
  intros Hl Hall. destruct l as [| c l]; [contradiction |].
  apply Forall_cons in Hall as [(Hc & _) _].
  destruct (join_head c l) as [rest ->].
  destruct c; [contradiction | discriminate].
Qed.

Lemma join_not_endswith_sep (l : list string) :
  l <> [] -> Forall plain l -> endswith (PyStr.join "/" l) "/" = false.
Proof.
  intros Hl Hall. destruct (exists_last Hl) as (l' & c & ->).
  apply Forall_app in Hall as [_ Hc]. apply Forall_cons in Hc as [Hc _].
  destruct (join_last l' c) as [x ->]. apply endswith_sep_plain. exact Hc.
Qed.

Lemma join_not_startswith_sep (l : list string) :
  l <> [] -> Forall plain l -> startswith (PyStr.join "/" l) "/" = false.
Proof.
  intros Hl Hall. destruct l as [| c l]; [contradiction |].
  apply Forall_cons in Hall as [Hc _].
  destruct (join_head c l) as [rest ->]. apply startswith_sep_plain. exact Hc.
Qed.

(** Splitting a path made of plain names gives the names back. *)
Lemma split_join (l : list string) :
  l <> [] -> Forall plain l -> split sep (PyStr.join "/" l) = l.
Proof.
  intros Hl Hall. induction l as [| c l IH]; [contradiction |].
  apply Forall_cons in Hall as [(_ & _ & _ & Hc) Hall].
  destruct l as [| d l].
  - cbn. apply split_free. exact Hc.
  - rewrite join_cons, split_free_app by exact Hc.
    rewrite IH by (discriminate || assumption). reflexivity.
Qed.

(** [normpath] keeps plain names as they come. *)
Lemma foldl_normpath_step (n : nat) (acc l : list string) :
  Forall plain l -> foldl (normpath_step n) acc l = (acc ++ l)%list.
Proof.
  intros Hall. revert acc. induction Hall as [| c l Hc _ IH]; intros acc; cbn.
  - rewrite app_nil_r. reflexivity.
  - unfold normpath_step at 2.
    destruct (plain_eqb c Hc) as (-> & -> & ->). cbn.
    rewrite IH, <- app_assoc. reflexivity.
Qed.

Lemma startswith_sep_cons (s : string) : startswith (String sep s) "/" = true.
Proof.
  unfold startswith. cbn [String.prefix].
  destruct (ascii_dec "/" sep) as [_ | n]; [destruct s; reflexivity |].
  exfalso. apply n. reflexivity.
Qed.

Lemma startswith_sep_sep_cons (s : string) :
  startswith (String sep s) "//" = startswith s "/".
Proof.
  unfold startswith. cbn [String.prefix].
  destruct (ascii_dec "/" sep) as [_ | n]; [reflexivity |].
  exfalso. apply n. reflexivity.
Qed.

(** An absolute path made of plain names is normalized. *)
Lemma normpath_absolute (l : list string) :
  l <> [] -> Forall plain l ->
  normpath (String sep (PyStr.join "/" l)) = String sep (PyStr.join "/" l).
Proof.
  intros Hl Hall. unfold normpath.
  change (String.eqb (String sep (PyStr.join "/" l)) "") with false. cbn match.
  rewrite startswith_sep_cons, startswith_sep_sep_cons.
  rewrite join_not_startswith_sep by assumption. cbn [andb].
  change (split sep (String sep (PyStr.join "/" l)))
    with ("" :: split sep (PyStr.join "/" l)).
  rewrite split_join by assumption. cbn [foldl].
  change (normpath_step 1 [] "") with (@nil string).
  rewrite foldl_normpath_step by assumption. cbn [app repeat_char].
  reflexivity.
Qed.

Lemma nonempty_components_absolute (l : list string) :
  l <> [] -> Forall plain l ->
  nonempty_components (String sep (PyStr.join "/" l)) = l.
Proof.
  intros Hl Hall. unfold nonempty_components.
  change (split sep (String sep (PyStr.join "/" l)))
    with ("" :: split sep (PyStr.join "/" l)).
  rewrite split_join by assumption. cbn.
  clear Hl. induction Hall as [| c l Hc _ IH]; [reflexivity |].
  cbn. destruct (plain_eqb c Hc) as (-> & _). cbn. rewrite IH. reflexivity.
Qed.

(** Joining a relative path of plain names to an absolute one. *)
Lemma join2_plain (l1 l2 : list string) :
  l1 <> [] -> l2 <> [] -> Forall plain l1 -> Forall plain l2 ->
  join2 (String sep (PyStr.join "/" l1)) (PyStr.join "/" l2)
  = String sep (PyStr.join "/" (l1 ++ l2)).
Proof.
  intros H1 H2 Hall1 Hall2. unfold join2.
  rewrite join_not_startswith_sep by assumption.
  change (String.eqb (String sep (PyStr.join "/" l1)) "") with false.
  change (String sep (PyStr.join "/" l1)) with ("/" ++ PyStr.join "/" l1).
  destruct (exists_last H1) as (l' & c & ->).
  apply Forall_app in Hall1 as [_ Hc]. apply Forall_cons in Hc as [Hc _].
  destruct (join_last l' c) as [x Hx]. rewrite Hx at 1.
  rewrite <- append_assoc, endswith_sep_plain by exact Hc. cbn [orb].
  rewrite (join_app _ l2) by (assumption || (destruct l'; discriminate)).
  cbn. reflexivity.
Qed.

(** [abspath] of a relative path of plain names, in a directory of plain
    names. *)
Lemma abspath_plain (cs l : list string) :
  cs <> [] -> l <> [] -> Forall plain cs -> Forall plain l ->
  abspath (String sep (PyStr.join "/" cs)) (PyStr.join "/" l)
  = String sep (PyStr.join "/" (cs ++ l)).
Proof.
  intros Hcs Hl Hall1 Hall2. unfold abspath, isabs.
  rewrite join_not_startswith_sep by assumption.
  rewrite join2_plain by assumption.
  apply normpath_absolute; [destruct cs; [contradiction | discriminate] |].
  apply Forall_app. split; assumption.
Qed.

Lemma common_prefix_length_app (l1 l2 : list string) :
  common_prefix_length l1 (l1 ++ l2) = length l1.
Proof.
  induction l1 as [| c l1 IH]; cbn.
  - destruct l2; reflexivity.
  - rewrite String.eqb_refl, IH. reflexivity.
Qed.

(** [os.path.join] of plain names is [sep.join] of them. *)
Lemma join_plain (l0 p : list string) :
  l0 <> [] -> Forall plain l0 -> Forall plain p ->
  foldl join2 (PyStr.join "/" l0) p = PyStr.join "/" (l0 ++ p).
Proof.
  intros H0 Hall0 Hallp. revert l0 H0 Hall0.
  induction Hallp as [| b p Hb _ IH]; intros l0 H0 Hall0; cbn [foldl].
  - rewrite app_nil_r. reflexivity.
  - assert (Hstep : join2 (PyStr.join "/" l0) b = PyStr.join "/" (l0 ++ [b])).
    { unfold join2.
      rewrite <- (append_nil_r b) at 1.
      rewrite startswith_sep_plain by exact Hb.
      pose proof (join_nonempty l0 H0 Hall0) as Hne.
      apply String.eqb_neq in Hne. rewrite Hne.
      rewrite join_not_endswith_sep by assumption. cbn [orb].
      rewrite join_app by (assumption || discriminate). reflexivity. }
    rewrite Hstep, IH.
    + rewrite <- app_assoc. reflexivity.
    + destruct l0; discriminate.
    + apply Forall_app. split; [assumption | constructor; [exact Hb | constructor]].
Qed.

(** A file under a directory, both given by plain names from the working
    directory: [relpath] is the path of the file from the directory. *)
Lemma relpath_under (cs rs fs : list string) :
  cs <> [] -> rs <> [] -> fs <> [] ->
  Forall plain cs -> Forall plain rs -> Forall plain fs ->
  relpath (String sep (PyStr.join "/" cs)) (PyStr.join "/" (rs ++ fs))
    (PyStr.join "/" rs)
  = Some (PyStr.join "/" fs).
Proof.
  intros Hcs Hrs Hfs Hallc Hallr Hallf.
  assert (Hrf : Forall plain (rs ++ fs)) by (apply Forall_app; split; assumption).
  assert (Hrfne : (rs ++ fs)%list <> []) by (destruct rs; [contradiction | discriminate]).
  unfold relpath.
  pose proof (join_nonempty _ Hrfne Hrf) as Hne.
  apply String.eqb_neq in Hne. rewrite Hne.
  rewrite !abspath_plain by assumption.
  rewrite !nonempty_components_absolute;
    try (apply Forall_app; split; assumption);
    try (destruct cs; [contradiction | discriminate]).
  rewrite (app_assoc cs rs fs), common_prefix_length_app.
  rewrite Nat.sub_diag, drop_app_length. cbn [List.repeat app].
  destruct fs as [| a p]; [contradiction |].
  apply Forall_cons in Hallf as [Ha Hp].
  f_equal. unfold PosixPath.join.
  change a with (PyStr.join "/" [a]) at 1.
  apply (join_plain [a] p);
    [discriminate | constructor; [exact Ha | constructor] | exact Hp].
Qed.


Lemma split_join_free (l : list string) :
  l <> [] -> Forall (fun c => free_of_sep c = true) l ->
  split sep (PyStr.join "/" l) = l.
Proof.
  intros Hl Hall. induction l as [| c l IH]; [contradiction |].
  apply Forall_cons in Hall as [Hc Hall].
  destruct l as [| d l].
  - cbn. apply split_free. exact Hc.
  - rewrite join_cons, split_free_app by exact Hc.
    rewrite IH by (discriminate || assumption). reflexivity.
Qed.

(** [abspath] of the current directory, in a directory of plain names,
    is that directory. *)
Lemma abspath_curdir (cs : list string) :
  cs <> [] -> Forall plain cs ->
  abspath (String sep (PyStr.join "/" cs)) "." = String sep (PyStr.join "/" cs).
Proof.
  intros Hcs Hall. unfold abspath, isabs.
  assert (Hdot : startswith "." "/" = false) by reflexivity.
  rewrite Hdot. unfold join2. rewrite Hdot.
  change (String.eqb (String sep (PyStr.join "/" cs)) "") with false.
  assert (Hend : endswith (String sep (PyStr.join "/" cs)) "/" = false).
  { destruct (exists_last Hcs) as (l' & c & ->).
    apply Forall_app in Hall as [_ Hc]. apply Forall_cons in Hc as [Hc _].
    destruct (join_last l' c) as [x ->].
    change (String sep (x ++ c)) with (String sep x ++ c).
    apply endswith_sep_plain. exact Hc. }
  rewrite Hend. cbn [orb].
  change (String sep (PyStr.join "/" cs) ++ "/" ++ ".")
    with (String sep (PyStr.join "/" cs ++ String sep (PyStr.join "/" ["."]))).
  rewrite <- join_app by (assumption || discriminate).
  unfold normpath.
  change (String.eqb (String sep (PyStr.join "/" (cs ++ ["."]))) "") with false.
  cbn match.
  rewrite startswith_sep_cons, startswith_sep_sep_cons.
  assert (Hstart : startswith (PyStr.join "/" (cs ++ ["."])) "/" = false).
  { destruct cs as [| c cs']; [contradiction |].
    apply Forall_cons in Hall as [Hc _].
    change ((c :: cs') ++ ["."])%list with (c :: (cs' ++ ["."]))%list.
    destruct (join_head c (cs' ++ ["."])) as [rest ->].
    apply startswith_sep_plain. exact Hc. }
  rewrite Hstart. cbn [andb].
  change (split sep (String sep (PyStr.join "/" (cs ++ ["."]))))
    with ("" :: split sep (PyStr.join "/" (cs ++ ["."]))).
  rewrite split_join_free.
  - cbn [foldl]. change (normpath_step 1 [] "") with (@nil string).
    rewrite foldl_app, (foldl_normpath_step 1 [] cs) by assumption.
    cbn [foldl app]. change (normpath_step 1 cs ".") with cs.
    cbn [repeat_char].
    change (String sep "" ++ PyStr.join "/" cs)
      with (String sep (PyStr.join "/" cs)).
    reflexivity.
  - destruct cs; discriminate.
  - apply Forall_app. split; [| repeat constructor].
    eapply Forall_impl; [exact Hall |]. intros c (_ & _ & _ & Hc). exact Hc.
Qed.

(** A file given by plain names from the working directory: [relpath]
    from the current directory is the path of the file as it is. *)
Lemma relpath_curdir (cs fs : list string) :
  cs <> [] -> fs <> [] -> Forall plain cs -> Forall plain fs ->
  relpath (String sep (PyStr.join "/" cs)) (PyStr.join "/" fs) "."
  = Some (PyStr.join "/" fs).
Proof.
  intros Hcs Hfs Hallc Hallf. unfold relpath.
  pose proof (join_nonempty _ Hfs Hallf) as Hne.
  apply String.eqb_neq in Hne. rewrite Hne.
  rewrite abspath_curdir, abspath_plain by assumption.
  rewrite !nonempty_components_absolute;
    try (apply Forall_app; split; assumption); try assumption;
    try (destruct cs; [contradiction | discriminate]).
  rewrite common_prefix_length_app.
  rewrite Nat.sub_diag, drop_app_length. cbn [List.repeat app].
  destruct fs as [| a p]; [contradiction |].
  apply Forall_cons in Hallf as [Ha Hp].
  f_equal. unfold PosixPath.join.
  change a with (PyStr.join "/" [a]) at 1.
  apply (join_plain [a] p);
    [discriminate | constructor; [exact Ha | constructor] | exact Hp].
Qed.

End PathFacts.

Module PathExamples.
Import PyStr PosixPath.

(** The embedded [posixpath] functions on the inputs of Python's
    documentation and of the rule. *)
Example splitext_examples :
  splitext "foo/bar.py" = ("foo/bar", ".py")
  /\ splitext "foo/.bashrc" = ("foo/.bashrc", "")
  /\ splitext "foo.d/bar" = ("foo.d/bar", "")
  /\ splitext "a.tar.gz" = ("a.tar", ".gz")
  /\ splitext "foo/..a.py" = ("foo/..a", ".py").
Proof. vm_compute. repeat split; reflexivity. Qed.

Example normpath_examples :
  normpath "a//b/../c/./d/" = "a/c/d"
  /\ normpath "//a/../../b" = "//b"
  /\ normpath "///a" = "/a"
  /\ normpath "../../a/.." = "../.."
  /\ normpath "" = ".".
Proof. vm_compute. repeat split; reflexivity. Qed.

Example relpath_examples :
  relpath "/build" "src/python/project/lambda.py" "src/python"
  = Some "project/lambda.py"
  /\ relpath "/build" "src/python/project/lambda.py" "."
     = Some "src/python/project/lambda.py"
  /\ relpath "/build" "project/lambda.py" "src/python"
     = Some "../../project/lambda.py"
  /\ relpath "/build" "src" "src" = Some "."
  /\ relpath "/build" "" "src" = None.
Proof. vm_compute. repeat split; reflexivity. Qed.

Example partition_examples :
  partition ":" "lambda.py:handler_func" = ("lambda.py", ":", "handler_func")
  /\ partition ":" "path.to.module" = ("path.to.module", "", "")
  /\ partition ":" "a:b:c" = ("a", ":", "b:c")
  /\ endswith "lambda.py" ".py" = true
  /\ endswith "py" ".py" = false
  /\ join2 "src/python/project" "lambda.py" = "src/python/project/lambda.py"
  /\ join2 "" "lambda.py" = "lambda.py".
Proof. vm_compute. repeat split; reflexivity. Qed.

End PathExamples.

(** ** The AWS Lambda handler and runtime fields *)

Module AwsLambdaFacts.
Import Engine AwsLambda.

Lemma relpath_nonempty (cwd path_ start : string) :
  path_ <> "" -> exists stripped, PosixPath.relpath cwd path_ start = Some stripped.
Proof.
  intros Hne. unfold PosixPath.relpath.
  destruct (String.eqb_spec path_ ""); [contradiction |].
  destruct (_ ++ _)%list; eauto.
Qed.

(** C6.  For a handler whose path part does not end in [.py], the rule
    returns the value unchanged, with [file_name_used=False].  For one
    that does, the rule asks for the paths of the glob made of the
    target's directory and the path part, with the behaviour [error] for
    a glob without match; it raises [InvalidFieldException] unless exactly
    one file matched (so, when more than one did).  For exactly one file
    it makes the request for the source root of that file: where
    [SourceRootRequest.for_file] refuses the path, its [ValueError] is
    raised and nothing more is asked; otherwise the rule asks for the
    source root and returns the path of the file relative to the source
    root, without its extension and with dots for separators, followed by
    [":"] and the function name, with [file_name_used=True].  For a file
    given by plain names from the working directory, the relative path is
    what follows the source root in the path of the file when the file is
    under the source root, and the path of the file itself when the source
    root is the build root, [.]. *)
Theorem resolve_python_aws_handler_cases (SourceRootRequest : Type)
    (for_file : string -> SourceRootRequest + string) (cwd : string)
    (request : ResolvePythonAwsHandlerRequest) :
  let handler_val := PythonAwsLambdaHandlerField.value (field request) in
  let address := PythonAwsLambdaHandlerField.address (field request) in
  let path_ := (PyStr.partition ":" handler_val).1.1 in
  let func := (PyStr.partition ":" handler_val).2 in
  (PyStr.endswith path_ ".py" = false ->
   resolve_python_aws_handler for_file cwd request
   = Ret {| val := handler_val; file_name_used := false |})
  /\ (PyStr.endswith path_ ".py" = true ->
      exists k,
        resolve_python_aws_handler for_file cwd request
        = Vis (GetPaths
                 {| globs := [PosixPath.join2 (spec_path address) path_];
                    glob_match_error_behavior := GlobMatchErrorBehavior.error;
                    description_of_origin :=
                      spec address ++ "'s `"
                        ++ PythonAwsLambdaHandlerField.alias ++ "` field" |}) k
        /\ (forall handler_paths,
              length (files handler_paths) <> 1%nat ->
              k handler_paths
              = Raise (InvalidFieldException PythonAwsLambdaHandlerField.alias
                         handler_val address (files handler_paths)))
        /\ (forall handler_paths handler_path message,
              files handler_paths = [handler_path] ->
              for_file handler_path = inr message ->
              k handler_paths = Raise (ValueError message))
        /\ (forall handler_paths handler_path source_root_request,
              files handler_paths = [handler_path] ->
              for_file handler_path = inl source_root_request ->
              exists k',
                k handler_paths = Vis (GetSourceRoot source_root_request) k'
                /\ forall source_root,
                     (handler_path <> "" ->
                      exists stripped,
                        PosixPath.relpath cwd handler_path (path source_root)
                        = Some stripped
                        /\ k' source_root
                           = Ret {| val :=
                                      PyStr.replace "/" "."
                                        (PosixPath.splitext stripped).1
                                        ++ ":" ++ func;
                                    file_name_used := true |})
                     /\ (forall cs rs fs,
                           cs <> [] -> rs <> [] -> fs <> [] ->
                           Forall PosixPath.plain cs ->
                           Forall PosixPath.plain rs ->
                           Forall PosixPath.plain fs ->
                           cwd = String PosixPath.sep (PyStr.join "/" cs) ->
                           path source_root = PyStr.join "/" rs ->
                           handler_path = PyStr.join "/" (rs ++ fs) ->
                           k' source_root
                           = Ret {| val :=
                                      PyStr.replace "/" "."
                                        (PosixPath.splitext
                                           (PyStr.join "/" fs)).1
                                        ++ ":" ++ func;
                                    file_name_used := true |})
                     /\ (forall cs fs,
                           cs <> [] -> fs <> [] ->
                           Forall PosixPath.plain cs ->
                           Forall PosixPath.plain fs ->
                           cwd = String PosixPath.sep (PyStr.join "/" cs) ->
                           path source_root = "." ->
                           handler_path = PyStr.join "/" fs ->
                           k' source_root
                           = Ret {| val :=
                                      PyStr.replace "/" "."
                                        (PosixPath.splitext
                                           (PyStr.join "/" fs)).1
                                        ++ ":" ++ func;
                                    file_name_used := true |}))).
Proof.
  intros handler_val address path_ func.
  unfold resolve_python_aws_handler.
  fold handler_val address. subst path_ func.
  destruct (PyStr.partition ":" handler_val) as [[path_ found] func]. cbn [fst snd].
  split; intros Hpy; rewrite Hpy; cbn [negb]; [reflexivity |].
  eexists. split; [reflexivity |]. cbn beta. split; [| split].
  - intros handler_paths Hlen. cbn [bind].
    destruct (files handler_paths) as [| f [| f' fs]]; cbn in Hlen |- *;
      [reflexivity | contradiction | reflexivity].
  - intros handler_paths handler_path message Hfiles Hrefused. cbn [bind].
    rewrite Hfiles, Hrefused. reflexivity.
  - intros handler_paths handler_path source_root_request Hfiles Hmade.
    cbn [bind]. rewrite Hfiles, Hmade.
    eexists. split; [reflexivity |]. cbn beta.
    intros source_root. cbn [bind]. split; [| split].
    + intros Hne.
      destruct (relpath_nonempty cwd handler_path (path source_root) Hne)
        as [stripped Hrel].
      exists stripped. split; [exact Hrel |]. rewrite Hrel.
      destruct (PosixPath.splitext stripped) as [module_base ext]. reflexivity.
    + intros cs rs fs Hcs Hrs Hfs Hallc Hallr Hallf -> -> ->.
      rewrite PathFacts.relpath_under by assumption.
      destruct (PosixPath.splitext (PyStr.join "/" fs)) as [module_base ext].
      reflexivity.
    + intros cs fs Hcs Hfs Hallc Hallf -> -> ->.
      rewrite PathFacts.relpath_curdir by assumption.
      destruct (PosixPath.splitext (PyStr.join "/" fs)) as [module_base ext].
      reflexivity.
Qed.

Lemma plain_name (c : string) :
  negb (String.eqb c "") && negb (String.eqb c ".") && negb (String.eqb c "..")
  && PosixPath.free_of_sep c = true ->
  PosixPath.plain c.
Proof.
  rewrite !andb_true_iff, !negb_true_iff, !String.eqb_neq. unfold PosixPath.plain.
  tauto.
Qed.

Lemma resolve_python_aws_handler_cases_witness :
  (run sample_engine
     (resolve_python_aws_handler sample_for_file "/build" sample_file_request)
     tt).1.1
  = Ok {| val := "project.lambda:handler_func"; file_name_used := true |}
  /\ (run root_engine
        (resolve_python_aws_handler sample_for_file "/build" sample_file_request)
        tt).1.1
     = Ok {| val := "src.python.project.lambda:handler_func";
             file_name_used := true |}
  /\ (run sample_engine
        (resolve_python_aws_handler sample_for_file "/build"
           sample_module_request) tt).1.1
     = Ok {| val := "project.lambda:handler_func"; file_name_used := false |}.
Proof.
  split; [| split].
  - destruct (resolve_python_aws_handler_cases string sample_for_file "/build"
                sample_file_request) as [_ Hfile].
    destruct (Hfile eq_refl) as (k & -> & _ & _ & Hone).
    rewrite EngineFacts.run_vis. cbn [sample_engine].
    match goal with
    | |- context [k ?hp] =>
        destruct (Hone hp "src/python/project/lambda.py"
                    "src/python/project/lambda.py" eq_refl eq_refl)
          as (k' & -> & Hroot)
    end.
    rewrite EngineFacts.run_vis. cbn [sample_engine].
    destruct (Hroot {| path := "src/python" |}) as (_ & Hunder & _).
    rewrite (Hunder ["build"] ["src"; "python"] ["project"; "lambda.py"]);
      try discriminate; try reflexivity;
      repeat (constructor; [apply plain_name; reflexivity |]); constructor.
  - destruct (resolve_python_aws_handler_cases string sample_for_file "/build"
                sample_file_request) as [_ Hfile].
    destruct (Hfile eq_refl) as (k & -> & _ & _ & Hone).
    rewrite EngineFacts.run_vis. cbn [root_engine].
    match goal with
    | |- context [k ?hp] =>
        destruct (Hone hp "src/python/project/lambda.py"
                    "src/python/project/lambda.py" eq_refl eq_refl)
          as (k' & -> & Hroot)
    end.
    rewrite EngineFacts.run_vis. cbn [root_engine].
    destruct (Hroot {| path := "." |}) as (_ & _ & Hbuild).
    rewrite (Hbuild ["build"] ["src"; "python"; "project"; "lambda.py"]);
      try discriminate; try reflexivity;
      repeat (constructor; [apply plain_name; reflexivity |]); constructor.
  - destruct (resolve_python_aws_handler_cases string sample_for_file "/build"
                sample_module_request) as [Hmodule _].
    rewrite (Hmodule eq_refl). reflexivity.
Defined.

(** A matched path that the constructor of the request refuses: the rule
    raises its [ValueError] after the one request for the paths. *)
Example resolve_refused_path :
  run (fun X (e : HandlerE string X) (s : unit) =>
         match e in HandlerE _ X return X * unit with
         | GetPaths req =>
             ({| files := ["src/python/project/../lambda.py"]; dirs := [] |}, s)
         | GetSourceRoot _ => ({| path := "src/python" |}, s)
         end)
    (resolve_python_aws_handler sample_for_file "/build" sample_file_request) tt
  = (Err (ValueError "SourceRootRequest cannot contain a `..` segment"), tt,
     [Ev (GetPaths
            {| globs := ["src/python/project/lambda.py"];
               glob_match_error_behavior := GlobMatchErrorBehavior.error;
               description_of_origin :=
                 "src/python/project:lambda's `handler` field" |})
        {| files := ["src/python/project/../lambda.py"]; dirs := [] |}]).
Proof. vm_compute. reflexivity. Qed.

Section Runtime.
Variable decimal : char -> option Z.
Variable max_str_digits : nat.
Local Open Scope list_scope.

Lemma strip_prefix_app (p r : str) : strip_prefix p (p ++ r) = Some r.
Proof.
  induction p as [| a p IH]; cbn; [reflexivity |].
  rewrite N.eqb_refl. exact IH.
Qed.

Lemma strip_prefix_Some (p s r : str) :
  strip_prefix p s = Some r -> s = (p ++ r)%list.
Proof.
  revert s. induction p as [| a p IH]; intros s; cbn.
  - intros [= ->]. reflexivity.
  - destruct s as [| b s]; [discriminate |].
    destruct (N.eqb_spec a b) as [-> |]; [| discriminate].
    intros H. rewrite (IH _ H). reflexivity.
Qed.

Lemma is_digit_decimal (c : char) :
  is_digit decimal c = true <-> exists v, decimal c = Some v.
Proof.
  unfold is_digit. destruct (decimal c) as [v |]; split; eauto.
  - discriminate.
  - intros [v [=]].
Qed.

(** The run of digits and the rest make up the text; the run holds
    digits only, and no digit follows it. *)
Lemma digits_prefix_spec (s ds rest : str) :
  digits_prefix decimal s = (ds, rest) ->
  s = (ds ++ rest)%list
  /\ Forall (fun c => is_digit decimal c = true) ds
  /\ match rest with
     | c :: _ => is_digit decimal c = false
     | [] => True
     end.
Proof.
  revert ds rest. induction s as [| c s IH]; intros ds rest; cbn.
  - intros [= <- <-]. repeat split. constructor.
  - destruct (is_digit decimal c) eqn:Hc.
    + destruct (digits_prefix decimal s) as [ds' rest'].
      intros [= <- <-]. destruct (IH _ _ eq_refl) as (-> & Hds & Hrest).
      repeat split; [constructor; assumption | exact Hrest].
    + intros [= <- <-]. repeat split; [constructor | exact Hc].
Qed.

(** A text that starts with a digit has a run of digits that is not
    empty. *)
Lemma digits_prefix_cons (c : char) (s : str) :
  is_digit decimal c = true ->
  exists ds rest, digits_prefix decimal (c :: s) = (c :: ds, rest).
Proof.
  intros Hc. cbn. rewrite Hc.
  destruct (digits_prefix decimal s) as [ds rest]. eauto.
Qed.

(** [\d+] takes the longest run of digits, when what follows the
    pattern cannot fail. *)
Lemma plus_loop_digits (k : cont) (n : nat) (s : str) (g : match_object) :
  (forall s' g', is_Some (k s' g')) ->
  (length s < n)%nat ->
  plus_loop (go decimal Digit) k n s g
  = match digits_prefix decimal s with
    | ([], _) => None
    | (_ :: _, rest) => k rest g
    end.
Proof.
  intros Hk. revert s. induction n as [| n IH]; intros s Hn; [lia |].
  cbn [plus_loop go]. destruct s as [| c s]; [reflexivity |].
  cbn [digits_prefix]. destruct (is_digit decimal c) eqn:Hc; [| reflexivity].
  assert (Hlt : (length s <? length (c :: s))%nat = true)
    by (apply Nat.ltb_lt; cbn; lia).
  rewrite Hlt, IH by (cbn in Hn; lia).
  destruct (digits_prefix decimal s) as [[| d ds] rest] eqn:Hds.
  - destruct s as [| c' s]; cbn in Hds.
    + injection Hds as <-. reflexivity.
    + destruct (is_digit decimal c').
      * destruct (digits_prefix decimal s). discriminate.
      * injection Hds as <-. reflexivity.
  - destruct (Hk rest g) as [m Hm]. rewrite Hm. reflexivity.
Qed.

(** What [re.match] finds for the pattern of the runtime: the text
    must be ["python"], a digit, a dot and a run of digits that is not
    empty; the groups are the digit and the longest such run. *)
Lemma re_match_runtime (v : str) :
  re_match decimal PYTHON_RUNTIME_REGEX v
  = match strip_prefix (lit "python") v with
    | Some (d :: s2) =>
        if is_digit decimal d then
          match strip_prefix (lit ".") s2 with
          | Some s3 =>
              match digits_prefix decimal s3 with
              | ([], _) => None
              | (ds, _) => Some [("minor", ds); ("major", [d])]
              end
          | None => None
          end
        else None
    | _ => None
    end.
Proof.
  unfold re_match, PYTHON_RUNTIME_REGEX. cbn [go].
  destruct (strip_prefix (lit "python") v) as [[| d s2] |]; try reflexivity.
  destruct (is_digit decimal d); [| reflexivity].
  destruct (strip_prefix (lit ".") s2) as [s3 |]; [| reflexivity].
  rewrite plus_loop_digits by (eauto || lia).
  destruct (digits_prefix decimal s3) as [[| c ds] rest] eqn:Hds;
    [reflexivity |].
  apply digits_prefix_spec in Hds as (-> & _ & _).
  replace (length (d :: s2) - length s2)%nat with 1%nat by (cbn; lia).
  replace (length ((c :: ds) ++ rest) - length rest)%nat
    with (length (c :: ds)) by (rewrite length_app; lia).
  rewrite take_app_length. reflexivity.
Qed.

Lemma int_digits_Some (ds : str) (acc : Z) :
  Forall (fun c => is_digit decimal c = true) ds ->
  exists n, int_digits decimal ds acc = Some n.
Proof.
  intros Hds. revert acc. induction Hds as [| c ds Hc _ IH]; intros acc; cbn.
  - eauto.
  - apply is_digit_decimal in Hc as [v ->]. apply IH.
Qed.

(** A text of [\d+] is a run of digits that is not empty. *)
Lemma in_lang_plus_digit (r : regex) (s : str) :
  in_lang decimal r s -> r = Plus Digit ->
  s <> [] /\ Forall (fun c => is_digit decimal c = true) s.
Proof.
  induction 1 as [| | | r s H _ | r s1 s2 H1 _ H2 IH |]; try discriminate.
  - intros [= ->]. inversion H; subst. split; [discriminate |].
    repeat constructor. assumption.
  - intros [= ->]. inversion H1; subst.
    destruct (IH eq_refl) as [_ Hall].
    split; [discriminate | constructor; assumption].
Qed.

Lemma digits_in_lang_plus (ds : str) :
  ds <> [] -> Forall (fun c => is_digit decimal c = true) ds ->
  in_lang decimal (Plus Digit) ds.
Proof.
  intros Hne Hall. induction Hall as [| c ds Hc Hall IH]; [contradiction |].
  destruct ds as [| c' ds].
  - apply in_plus_once. constructor. exact Hc.
  - apply (in_plus_more decimal Digit [c] (c' :: ds)).
    + constructor. exact Hc.
    + apply IH. discriminate.
Qed.

(** [re.match] finds a match exactly for the strings that start with
    a text of the language of the pattern. *)
Lemma re_match_runtime_iff (v : str) :
  is_Some (re_match decimal PYTHON_RUNTIME_REGEX v)
  <-> matches_at_start decimal PYTHON_RUNTIME_REGEX v.
Proof.
  rewrite re_match_runtime. split.
  - intros [mo Hmo].
    destruct (strip_prefix (lit "python") v) as [[| d s2] |] eqn:Hv;
      try discriminate Hmo.
    destruct (is_digit decimal d) eqn:Hd; [| discriminate Hmo].
    destruct (strip_prefix (lit ".") s2) as [s3 |] eqn:Hs2;
      [| discriminate Hmo].
    destruct (digits_prefix decimal s3) as [[| c ds] rest] eqn:Hds;
      [discriminate Hmo |].
    clear Hmo. apply strip_prefix_Some in Hv, Hs2.
    apply digits_prefix_spec in Hds as (Hs3 & Hall & _). subst.
    exists (lit "python" ++ [d] ++ lit "." ++ c :: ds)%list, rest.
    split; [rewrite <- !app_assoc; reflexivity |].
    unfold PYTHON_RUNTIME_REGEX.
    apply in_cat; [constructor |].
    apply in_cat; [constructor; constructor; exact Hd |].
    apply in_cat; [constructor |].
    constructor. apply digits_in_lang_plus; [discriminate | assumption].
  - intros (m & rest & -> & Hm). unfold PYTHON_RUNTIME_REGEX in Hm.
    inversion Hm as [| | ? ? m1 m' H1 H' | | |]; subst; clear Hm.
    inversion H1; subst; clear H1.
    inversion H' as [| | ? ? m2 m'' H2 H'' | | |]; subst; clear H'.
    inversion H2 as [| | | | | ? ? ? H2']; subst; clear H2.
    inversion H2' as [| c Hc | | | |]; subst; clear H2'.
    inversion H'' as [| | ? ? m3 m4 H3 H4 | | |]; subst; clear H''.
    inversion H3; subst; clear H3.
    inversion H4 as [| | | | | ? ? ? H4']; subst; clear H4.
    destruct (in_lang_plus_digit _ _ H4' eq_refl) as [Hne Hall].
    rewrite <- !app_assoc, strip_prefix_app. cbn [app]. rewrite Hc.
    change (lit "." ++ m4 ++ rest)%list with ((lit "." ++ m4) ++ rest)%list.
    rewrite <- app_assoc, strip_prefix_app.
    destruct m4 as [| c4 m4]; [contradiction |].
    apply Forall_cons in Hall as [Hc4 _].
    destruct (digits_prefix_cons c4 (m4 ++ rest) Hc4) as (ds & rest' & Hds).
    cbn [app]. rewrite Hds. eauto.
Qed.

(** [int] of a run of digits: the number it denotes, unless the run is
    longer than the limit of the interpreter. *)
Lemma int_digits_run (ds : str) (n : Z) :
  ds <> [] -> int_digits decimal ds 0 = Some n ->
  int decimal max_str_digits ds
  = if exceeds_limit max_str_digits ds then None else Some n.
Proof.
  intros Hne Hn. unfold int. destruct ds; [contradiction |].
  destruct (exceeds_limit _ _); [reflexivity | exact Hn].
Qed.

(** One digit is never too long. *)
Lemma int_one_digit (d : char) (major : Z) :
  decimal d = Some major -> int decimal max_str_digits [d] = Some major.
Proof.
  intros Hd. unfold int, exceeds_limit. cbn. rewrite Hd. reflexivity.
Qed.

(** C10, as amended.  [compute_value] gives [None] for no raw value,
    gives back any string that matches the pattern
    [python(?P<major>\d)\.(?P<minor>\d+)] at its start, and raises
    [InvalidFieldException] for every other string.  An accepted value is
    ["python"], a digit, a dot and a run of digits, the longest there is,
    possibly followed by more text.  When the run has no more digits than
    the limit of the interpreter on the strings that [int] converts (or
    there is no limit, or the run has at most the 640 digits that [int]
    never refuses), [to_interpreter_version] is the pair of the value of
    the digit and the number that the run denotes; when the run is longer,
    [to_interpreter_version] raises the [ValueError] of [int]. *)
Theorem python_runtime_field (address : Address) :
  PythonAwsLambdaRuntime.compute_value decimal None address = Ok None
  /\ PythonAwsLambdaRuntime.to_interpreter_version decimal max_str_digits None
     = Ok None
  /\ (forall v,
        matches_at_start decimal PYTHON_RUNTIME_REGEX v ->
        PythonAwsLambdaRuntime.compute_value decimal (Some v) address
        = Ok (Some v))
  /\ (forall v,
        ~ matches_at_start decimal PYTHON_RUNTIME_REGEX v ->
        PythonAwsLambdaRuntime.compute_value decimal (Some v) address
        = Err (InvalidRuntime PythonAwsLambdaRuntime.alias address v))
  /\ (forall raw_value v,
        PythonAwsLambdaRuntime.compute_value decimal raw_value address
        = Ok (Some v) ->
        exists d ds rest major minor,
          v = (lit "python" ++ d :: lit "." ++ ds ++ rest)%list
          /\ digits_prefix decimal (ds ++ rest) = (ds, rest)
          /\ ds <> []
          /\ decimal d = Some major
          /\ int_digits decimal ds 0 = Some minor
          /\ (max_str_digits = 0%nat
              \/ (length ds <= max_str_digits)%nat
              \/ (length ds <= max_str_digits_threshold)%nat ->
              PythonAwsLambdaRuntime.to_interpreter_version decimal
                max_str_digits (Some v)
              = Ok (Some (major, minor)))
          /\ (max_str_digits <> 0%nat ->
              (max_str_digits < length ds)%nat ->
              (max_str_digits_threshold < length ds)%nat ->
              PythonAwsLambdaRuntime.to_interpreter_version decimal
                max_str_digits (Some v)
              = Err IntValueError)).
Proof.
  split; [reflexivity |]. split; [reflexivity |]. split; [| split].
  - intros v Hv. apply re_match_runtime_iff in Hv as [mo Hmo].
    unfold PythonAwsLambdaRuntime.compute_value, StringField_compute_value.
    rewrite Hmo. reflexivity.
  - intros v Hv.
    unfold PythonAwsLambdaRuntime.compute_value, StringField_compute_value.
    destruct (re_match decimal PYTHON_RUNTIME_REGEX v) as [mo |] eqn:Hmo;
      [| reflexivity].
    exfalso. apply Hv, re_match_runtime_iff. eauto.
  - intros raw_value v.
    unfold PythonAwsLambdaRuntime.compute_value,
      PythonAwsLambdaRuntime.to_interpreter_version.
    unfold StringField_compute_value, PythonAwsLambdaRuntime.default.
    destruct raw_value as [v' |]; [| discriminate].
    destruct (re_match decimal PYTHON_RUNTIME_REGEX v') as [mo |] eqn:Hmo;
      [| discriminate].
    intros [= ->]. rewrite Hmo. rewrite re_match_runtime in Hmo.
    destruct (strip_prefix (lit "python") v) as [[| d s2] |] eqn:Hv;
      try discriminate.
    destruct (is_digit decimal d) eqn:Hd; [| discriminate].
    destruct (strip_prefix (lit ".") s2) as [s3 |] eqn:Hs2; [| discriminate].
    destruct (digits_prefix decimal s3) as [[| c ds] rest] eqn:Hds;
      [discriminate |].
    injection Hmo as <-.
    apply strip_prefix_Some in Hv, Hs2.
    destruct (digits_prefix_spec _ _ _ Hds) as (Hs3 & Hall & _).
    apply is_digit_decimal in Hd as [major Hmajor].
    destruct (int_digits_Some (c :: ds) 0 Hall) as [minor Hminor].
    exists d, (c :: ds), rest, major, minor. subst.
    split; [reflexivity |]. split; [exact Hds |]. split; [discriminate |].
    split; [exact Hmajor |]. split; [exact Hminor |].
    cbn [group String.eqb Ascii.eqb Bool.eqb].
    rewrite (int_one_digit d major Hmajor).
    rewrite (int_digits_run (c :: ds) minor) by (discriminate || exact Hminor).
    unfold exceeds_limit. split.
    + intros [-> | [Hfits | Hfits]].
      * rewrite andb_false_r. reflexivity.
      * apply Nat.ltb_ge in Hfits. rewrite Hfits, andb_false_r. reflexivity.
      * apply Nat.ltb_ge in Hfits. rewrite Hfits. reflexivity.
    + intros Hlimit Hlong Hover.
      apply Nat.eqb_neq in Hlimit. apply Nat.ltb_lt in Hlong, Hover.
      rewrite Hlimit, Hlong, Hover. reflexivity.
Qed.

End Runtime.

Lemma python_runtime_field_witness :
  let v := lit "python3.10" in
  PythonAwsLambdaRuntime.compute_value ascii_decimal (Some v) sample_address
  = Ok (Some v)
  /\ PythonAwsLambdaRuntime.to_interpreter_version ascii_decimal
       default_max_str_digits (Some v)
     = Ok (Some (3, 10)).
Proof.
  intros v.
  destruct (python_runtime_field ascii_decimal default_max_str_digits
              sample_address)
    as (_ & _ & Haccept & _ & Hversion).
  assert (Hv : PythonAwsLambdaRuntime.compute_value ascii_decimal
                 (Some v) sample_address = Ok (Some v)).
  { apply Haccept. exists v, []. split; [reflexivity |].
    unfold PYTHON_RUNTIME_REGEX.
    apply (in_cat ascii_decimal _ _ (lit "python") (lit "3.10")); [constructor |].
    apply (in_cat ascii_decimal _ _ (lit "3") (lit ".10"));
      [constructor; constructor; reflexivity |].
    apply (in_cat ascii_decimal _ _ (lit ".") (lit "10")); [constructor |].
    constructor.
    apply (in_plus_more ascii_decimal Digit (lit "1") (lit "0"));
      [constructor; reflexivity |].
    apply in_plus_once. constructor. reflexivity. }
  split; [exact Hv |].
  destruct (Hversion _ _ Hv)
    as (d & ds & rest & major & minor & Hshape & Hds & _ & Hmajor & Hminor
        & Hfits & _).
  assert (Hparts : d = 51%N /\ ds = lit "10").
  { vm_compute in Hshape. injection Hshape as -> Hrest.
    vm_compute in Hds. split; [reflexivity |].
    destruct ds as [| c1 [| c2 ds]]; cbn in Hrest.
    - subst rest. vm_compute in Hds. discriminate Hds.
    - injection Hrest as <- <-. vm_compute in Hds. discriminate Hds.
    - injection Hrest as <- <- Hrest.
      destruct ds as [| c3 ds]; [reflexivity |].
      destruct ds; cbn in Hrest; discriminate Hrest. }
  destruct Hparts as [-> ->].
  vm_compute in Hmajor, Hminor. injection Hmajor as <-. injection Hminor as <-.
  apply Hfits. right. vm_compute. lia.
Defined.

(** C10, as the spec states it, fails on an interpreter with the limit
    of CPython on the digits of a string given to [int]: the value
    [python3.] followed by 4301 digits is accepted by [compute_value], and
    [to_interpreter_version] raises [ValueError] for it, where the spec
    has it return the pair of integers. *)
Lemma to_interpreter_version_raises_on_long_minor :
  let v := (lit "python3." ++ List.repeat 49%N 4301)%list in
  PythonAwsLambdaRuntime.compute_value ascii_decimal (Some v) sample_address
  = Ok (Some v)
  /\ PythonAwsLambdaRuntime.to_interpreter_version ascii_decimal
       default_max_str_digits (Some v)
     = Err IntValueError
  /\ ~ exists major minor,
         PythonAwsLambdaRuntime.to_interpreter_version ascii_decimal
           default_max_str_digits (Some v)
         = Ok (Some (major, minor)).
Proof.
  intros v.
  assert (Hraise : PythonAwsLambdaRuntime.to_interpreter_version ascii_decimal
                     default_max_str_digits (Some v) = Err IntValueError)
    by (vm_compute; reflexivity).
  split; [vm_compute; reflexivity |]. split; [exact Hraise |].
  intros (major & minor & Hok). rewrite Hraise in Hok. discriminate Hok.
Qed.

(** The version of the sample runtime, and of one with text after it. *)
Example python_3_10 :
  PythonAwsLambdaRuntime.to_interpreter_version ascii_decimal
    default_max_str_digits (Some (lit "python3.10")) = Ok (Some (3, 10))
  /\ PythonAwsLambdaRuntime.compute_value ascii_decimal
       (Some (lit "python3.8-beta")) sample_address
     = Ok (Some (lit "python3.8-beta"))
  /\ PythonAwsLambdaRuntime.to_interpreter_version ascii_decimal
       default_max_str_digits (Some (lit "python3.8-beta")) = Ok (Some (3, 8))
  /\ PythonAwsLambdaRuntime.compute_value ascii_decimal
       (Some (lit "Python3.8")) sample_address
     = Err (InvalidRuntime "runtime" sample_address (lit "Python3.8")).
Proof. vm_compute. repeat split; reflexivity. Qed.

End AwsLambdaFacts.

(** ** More on the [test] goal *)

Module TestGoalMoreFacts.
Import Engine RuleSpec EngineFacts TestGoal TestGoalSpec OrderFacts TestGoalFacts.
Import TestGoalClaims TestGoalMore.
Import EnrichedTestResult.

(** *** Traces *)

Lemma printed_app (t1 t2 : list (event GoalE)) :
  printed (t1 ++ t2) = (printed t1 ++ printed t2)%list.
Proof. apply omap_app. Qed.

Lemma workspace_writes_app (t1 t2 : list (event GoalE)) :
  workspace_writes (t1 ++ t2) = (workspace_writes t1 ++ workspace_writes t2)%list.
Proof. apply omap_app. Qed.

Lemma merges_app (t1 t2 : list (event GoalE)) :
  merges (t1 ++ t2) = (merges t1 ++ merges t2)%list.
Proof. apply omap_app. Qed.

Lemma coverage_requests_app (t1 t2 : list (event GoalE)) :
  coverage_requests (t1 ++ t2)
  = (coverage_requests t1 ++ coverage_requests t2)%list.
Proof. apply omap_app. Qed.

(** A trace of gathering requests shows no effect on the console, the
    workspace or the interactive runner, and no merge. *)
Lemma gathering_trace (tr : list (event GoalE)) :
  Forall (event_satisfies gathering_request) tr ->
  printed tr = [] /\ workspace_writes tr = [] /\ merges tr = []
  /\ interactive_runs tr = [] /\ coverage_requests tr = [].
Proof.
  induction 1 as [| [X e x] tr He _ (IH1 & IH2 & IH3 & IH4 & IH5)]; [done |].
  unfold printed, workspace_writes, merges, interactive_runs,
    coverage_requests in *.
  destruct e; cbn in *; try contradiction; rewrite ?IH1, ?IH2, ?IH3, ?IH4, ?IH5;
    done.
Qed.

(** A trace of the debug branch shows no effect on the console or the
    workspace, no merge and no request for coverage reports. *)
Lemma debug_trace (tr : list (event GoalE)) :
  Forall (event_satisfies debug_branch_request) tr ->
  printed tr = [] /\ workspace_writes tr = [] /\ merges tr = []
  /\ coverage_requests tr = [] /\ field_sets_with_sources_of tr = [].
Proof.
  induction 1 as [| [X e x] tr He _ (IH1 & IH2 & IH3 & IH4 & IH5)]; [done |].
  unfold printed, workspace_writes, merges, coverage_requests,
    field_sets_with_sources_of in *.
  destruct e; cbn in *; try contradiction; rewrite ?IH1, ?IH2, ?IH3, ?IH4, ?IH5;
    done.
Qed.

Section Runs.
Context {S : Type} (h : handler GoalE S).

Lemma request_results_issues test_subsystem :
  issues_only gathering_request (request_results test_subsystem).
Proof.
  unfold request_results.
  apply issues_only_bind; [apply issues_only_trigger; exact I | intros t].
  apply issues_only_bind; [apply issues_only_trigger; exact I | intros fss].
  apply issues_only_multi_get. intros; exact I.
Qed.

Lemma debug_loop_issues debug_requests exit_code :
  issues_only debug_branch_request (debug_loop debug_requests exit_code).
Proof.
  revert exit_code.
  induction debug_requests as [| [[p |]] rest IH]; intros exit_code; cbn.
  - constructor.
  - constructor; [exact I |]. intros r.
    destruct (negb _); apply IH.
  - apply IH.
Qed.

(** The summary loop prints the line of every result that is not skipped,
    and does nothing else. *)
Lemma run_summary_loop_trace console results code s o s' tr :
  run h (summary_loop console results code) s = (o, s', tr) ->
  tr = map (fun line => Ev (ConsolePrintStderr line) tt)
         (map (summary_line console)
            (List.filter (fun r => negb (skipped r)) results)).
Proof.
  revert code s o s' tr.
  induction results as [| r rest IH]; intros code s o s' tr; cbn.
  - intros [= <- <- <-]. reflexivity.
  - destruct (skipped r) eqn:Hskip; cbn; [apply IH |].
    unfold summary_line.
    destruct (exit_code_eqb (exit_code r) (Some 0));
      rewrite run_vis;
      match goal with
      | |- context [h unit ?e s] => destruct (h unit e s) as [[] s1]
      end;
      match goal with
      | |- context [run h ?m ?s0] =>
          destruct (run h m s0) as [[o1 s2] t1] eqn:Hrun
      end;
      intros [= <- <- <-]; rewrite (IH _ _ _ _ _ Hrun); reflexivity.
Qed.

(** The summary part, step by step: the blank line when there are
    results, the lines of the summary, the merge of the XML results and
    its writing to the workspace, then the coverage block, whose outcome
    decides between the goal and an exception. *)
Lemma run_summarize_steps console test_subsystem union_membership results
    s o s' tr :
  run h (summarize console test_subsystem union_membership results) s
  = (o, s', tr) ->
  exists merged s2 o2 t2,
    tr = ((match results with
           | [] => []
           | _ => [Ev (ConsolePrintStderr "") tt]
           end)
          ++ map (fun line => Ev (ConsolePrintStderr line) tt)
               (map (summary_line console)
                  (List.filter (fun r => negb (skipped r)) (sorted results)))
          ++ [Ev (GetMergeDigests (omap xml_results results)) merged;
              Ev (WorkspaceWriteDigest merged None) tt]
          ++ t2)%list
    /\ run h (if use_coverage test_subsystem
              then coverage_block test_subsystem union_membership results
              else Ret tt) s2 = (o2, s', t2)
    /\ o = match o2 with
           | Ok _ => Ok {| TestGoal.exit_code :=
                             summary_exit_code (sorted results) (Some 0) |}
           | Err e => Err e
           end.
Proof.
  unfold summarize. rewrite run_bind.
  match goal with
  | |- context [run h ?m s] =>
      assert (Hhead : exists s1,
                 run h m s
                 = (Ok tt, s1, match results with
                               | [] => []
                               | _ => [Ev (ConsolePrintStderr "") tt]
                               end))
  end.
  { destruct results; [cbn; eauto |].
    rewrite run_trigger. destruct (h unit (ConsolePrintStderr "") s) as [[] s1].
    cbn. eauto. }
  destruct Hhead as [s1 ->]. rewrite run_bind.
  destruct (run h (summary_loop console (sorted results) (Some 0)) s1)
    as [[o1 s2] t1] eqn:Hloop.
  destruct (run_summary_loop h console (sorted results) (Some 0) s1)
    as (s2' & t1' & Hloop').
  rewrite Hloop in Hloop'. injection Hloop' as -> <- <-.
  apply run_summary_loop_trace in Hloop. subst t1.
  rewrite run_bind, run_trigger.
  destruct (h Digest (GetMergeDigests (omap xml_results results)) s2)
    as [merged s3]. cbn [fst snd].
  rewrite run_bind, run_trigger.
  destruct (h unit (WorkspaceWriteDigest merged None) s3) as [[] s4].
  cbn [fst snd]. rewrite run_bind.
  match goal with
  | |- context [run h ?m s4] =>
      destruct (run h m s4) as [[o2 s5] t2] eqn:Hcov
  end.
  destruct o2 as [[] | e]; cbn [run]; intros [= <- <- <-];
    exists merged, s4; eexists _, t2;
    (split; [| split; [exact Hcov | reflexivity]]);
    rewrite ?app_nil_r, <- ?app_assoc; reflexivity.
Qed.

Lemma collect_coverage_block_issues types groups :
  issues_only coverage_block_request (collect_coverage types groups).
Proof.
  induction groups as [| [k g] groups IH]; cbn; [constructor |].
  destruct (types !! k); [| constructor].
  apply issues_only_bind; [exact IH | intros; constructor].
Qed.

Lemma materialize_block_issues rs :
  issues_only coverage_block_request (materialize rs).
Proof.
  induction rs as [| r rs IH]; cbn; [constructor |].
  apply issues_only_bind.
  { destruct r; cbn; repeat (constructor; try exact I; intros). }
  intros. apply issues_only_bind; [exact IH | intros; constructor].
Qed.

Lemma materialize_all_block_issues cs :
  issues_only coverage_block_request (materialize_all cs).
Proof.
  induction cs as [| c cs IH]; cbn; [constructor |].
  apply issues_only_bind; [apply materialize_block_issues | intros].
  apply issues_only_bind; [exact IH | intros; constructor].
Qed.

(** The coverage block asks for reports and files to open, prints,
    writes and runs processes; it merges nothing. *)
Lemma coverage_block_block_issues test_subsystem union_membership results :
  issues_only coverage_block_request
    (coverage_block test_subsystem union_membership results).
Proof.
  unfold coverage_block.
  apply issues_only_bind; [apply collect_coverage_block_issues | intros cols].
  apply issues_only_bind;
    [apply issues_only_multi_get; intros; exact I | intros reps].
  apply issues_only_bind; [apply materialize_all_block_issues | intros paths].
  destruct (_ && _); [| constructor].
  apply issues_only_bind; [apply issues_only_trigger; exact I | intros o].
  apply issues_only_for_each. intros p.
  apply issues_only_bind; [apply issues_only_trigger; exact I |].
  intros; constructor.
Qed.

(** The subscript raises [KeyError] for the first class without a
    registered collection, before any request. *)
Lemma run_collect_coverage_error types groups k s :
  first_unregistered types (map fst groups) = Some k ->
  run h (collect_coverage types groups) s = (Err (KeyError k), s, []).
Proof.
  unfold first_unregistered.
  induction groups as [| [k' g] groups IH]; cbn; [discriminate |].
  destruct (types !! k') as [c |] eqn:Hk'.
  - intros Hfind. rewrite run_bind, (IH Hfind). reflexivity.
  - intros [= <-]. reflexivity.
Qed.

End Runs.

Lemma coverage_block_trace (tr : list (event GoalE)) :
  Forall (event_satisfies coverage_block_request) tr -> merges tr = [].
Proof.
  induction 1 as [| [X e x] tr He _ IH]; [done |].
  unfold merges in *. destruct e; cbn in *; try contradiction; exact IH.
Qed.

Lemma groupby_nil (xs : list CoverageData) : groupby xs = [] -> xs = [].
Proof.
  destruct xs as [| x xs]; [reflexivity |]. cbn.
  destruct (groupby xs) as [| [k g] groups]; [discriminate |].
  destruct (String.eqb (data_cls x) k); discriminate.
Qed.

(** The first class without collection among the groups is the first
    among the data. *)
Lemma first_unregistered_groupby types (xs : list CoverageData) :
  first_unregistered types (map fst (groupby xs))
  = first_unregistered types (map data_cls xs).
Proof.
  unfold first_unregistered.
  induction xs as [| x xs IH]; [reflexivity |]. cbn [groupby].
  destruct (groupby xs) as [| [k g] groups] eqn:Hg.
  - apply groupby_nil in Hg. subst xs. reflexivity.
  - cbn [map fst List.find] in IH.
    destruct (String.eqb_spec (data_cls x) k) as [Heq | Hne].
    + cbn [map fst List.find]. rewrite <- IH, Heq.
      destruct (types !! k); reflexivity.
    + cbn [map fst List.find]. rewrite <- IH. reflexivity.
Qed.

Lemma first_unregistered_None types (ds : list CoverageData) :
  first_unregistered types (map data_cls ds) = None ->
  Forall (fun d => is_Some (types !! data_cls d)) ds.
Proof.
  unfold first_unregistered. induction ds as [| d ds IH]; cbn; [constructor |].
  destruct (types !! data_cls d) as [c |] eqn:Hd; [| discriminate].
  intros H. constructor; [eauto | auto].
Qed.

(** A trace of prints shows the lines and nothing else. *)
Lemma print_trace (lines : list string) :
  let tr := map (fun line => Ev (ConsolePrintStderr line) tt) lines in
  printed tr = lines /\ workspace_writes tr = [] /\ merges tr = []
  /\ interactive_runs tr = [] /\ coverage_requests tr = [].
Proof.
  induction lines as [| l lines (IH1 & IH2 & IH3 & IH4 & IH5)]; [done |].
  unfold printed, workspace_writes, merges, interactive_runs,
    coverage_requests in *. cbn. rewrite IH1. done.
Qed.

(** The header of the summary: a blank line when there are results. *)
Lemma header_trace (results : list t) :
  let tr := match results with
            | [] => []
            | _ => [Ev (ConsolePrintStderr "") tt]
            end in
  printed tr = match results with [] => [] | _ => [""] end
  /\ workspace_writes tr = [] /\ merges tr = []
  /\ interactive_runs tr = [] /\ coverage_requests tr = [].
Proof. destruct results; done. Qed.

(** The anatomy of a run of the ordinary branch: the requests that gather
    the results, the header and the lines of the summary, the merge of
    the XML results and its writing, and the coverage block. *)
Lemma ordinary_run_anatomy (S : Type) (h : handler GoalE S) (s : S)
    console test_subsystem union_membership o s' tr :
  debug test_subsystem = false ->
  run h (run_tests console test_subsystem union_membership) s = (o, s', tr) ->
  exists t1 merged s2 o2 t2,
    tr = (t1
          ++ (match results_of tr with
              | [] => []
              | _ => [Ev (ConsolePrintStderr "") tt]
              end)
          ++ map (fun line => Ev (ConsolePrintStderr line) tt)
               (map (summary_line console)
                  (List.filter (fun r => negb (skipped r))
                     (sorted (results_of tr))))
          ++ [Ev (GetMergeDigests (omap xml_results (results_of tr))) merged;
              Ev (WorkspaceWriteDigest merged None) tt]
          ++ t2)%list
    /\ Forall (event_satisfies gathering_request) t1
    /\ run h (if use_coverage test_subsystem
              then coverage_block test_subsystem union_membership (results_of tr)
              else Ret tt) s2 = (o2, s', t2)
    /\ o = match o2 with
           | Ok _ => Ok {| TestGoal.exit_code :=
                             summary_exit_code (sorted (results_of tr)) (Some 0) |}
           | Err e => Err e
           end.
Proof.
  intros Hdebug. unfold run_tests. rewrite Hdebug, run_bind.
  destruct (run h (request_results test_subsystem) s) as [[o1 s1] t1] eqn:Hreq.
  destruct (run_request_results h _ _ _ _ _ Hreq) as (-> & _).
  pose proof (run_issues_only _ _ _ _ _ _ _
                (request_results_issues _) Hreq) as Hgather.
  destruct (run h (summarize console test_subsystem union_membership
                     (results_of t1)) s1) as [[o2 s2] t2] eqn:Hsum.
  intros [= <- <- <-].
  pose proof (run_issues_only _ _ _ _ _ _ _
                (summarize_issues _ _ _ _) Hsum) as Htr.
  apply summary_trace in Htr as (Hr & _ & _).
  rewrite results_of_app, Hr, app_nil_r.
  destruct (run_summarize_steps h _ _ _ _ _ _ _ _ Hsum)
    as (merged & s3 & o3 & t3 & -> & Hcov & ->).
  exists t1, merged, s3, o3, t3. done.
Qed.

(** The projections of the trace of an ordinary run. *)
Lemma ordinary_run_projections (t1 t2 : list (event GoalE)) (results : list t)
    (lines : list string) (xmls : list Digest) (merged : Digest) :
  Forall (event_satisfies gathering_request) t1 ->
  let tr := (t1
             ++ (match results with
                 | [] => []
                 | _ => [Ev (ConsolePrintStderr "") tt]
                 end)
             ++ map (fun line => Ev (ConsolePrintStderr line) tt) lines
             ++ [Ev (GetMergeDigests xmls) merged;
                 Ev (WorkspaceWriteDigest merged None) tt]
             ++ t2)%list in
  printed tr = (match results with [] => [] | _ => [""] end
                ++ lines ++ printed t2)%list
  /\ workspace_writes tr = (merged, None) :: workspace_writes t2
  /\ merges tr = (xmls, merged) :: merges t2
  /\ interactive_runs tr = interactive_runs t2
  /\ coverage_requests tr = coverage_requests t2.
Proof.
  intros Hgather tr. subst tr.
  apply gathering_trace in Hgather as (G1 & G2 & G3 & G4 & G5).
  destruct (header_trace results) as (H1 & H2 & H3 & H4 & H5).
  destruct (print_trace lines) as (P1 & P2 & P3 & P4 & P5).
  cbn zeta in *.
  rewrite !printed_app, !workspace_writes_app, !merges_app,
    !interactive_runs_app, !coverage_requests_app.
  rewrite G1, G2, G3, G4, G5, H1, H2, H3, H4, H5, P1, P2, P3, P4, P5.
  done.
Qed.

(** X1.  The summary of the ordinary branch: [run_tests] prints a blank
    line when there is a result, then one line for each result that is not
    skipped, in sorted order, with the check mark and [succeeded] for exit
    code 0 and the cross and [failed] otherwise; a skipped result is not
    printed.  Without coverage nothing else is printed. *)
Theorem summary_prints_unskipped_results_in_order
    (S : Type) (h : handler GoalE S) (s : S) (console : Console)
    (test_subsystem : TestSubsystem) (union_membership : UnionMembership)
    (o : outcome GoalExn Test) (s' : S) (tr : list (event GoalE)) :
  debug test_subsystem = false ->
  run h (run_tests console test_subsystem union_membership) s = (o, s', tr) ->
  exists rest,
    printed tr
    = (match results_of tr with [] => [] | _ => [""] end
       ++ map (summary_line console)
            (List.filter (fun r => negb (skipped r)) (sorted (results_of tr)))
       ++ rest)%list
    /\ (use_coverage test_subsystem = false -> rest = []).
Proof.
  intros Hdebug Hrun.
  destruct (ordinary_run_anatomy _ h s _ _ _ _ _ _ Hdebug Hrun)
    as (t1 & merged & s2 & o2 & t2 & Htr & Hgather & Hcov & _).
  destruct (ordinary_run_projections t1 t2 (results_of tr)
              (map (summary_line console)
                 (List.filter (fun r => negb (skipped r)) (sorted (results_of tr))))
              (omap xml_results (results_of tr)) merged Hgather)
    as (Hprinted & _).
  cbn zeta in Hprinted. rewrite <- Htr in Hprinted.
  exists (printed t2). split; [exact Hprinted |].
  intros Hcoverage. rewrite Hcoverage in Hcov. cbn in Hcov.
  injection Hcov as _ _ <-. reflexivity.
Qed.

Lemma summary_prints_unskipped_results_in_order_witness :
  printed (run (world_handler three_targets)
             (run_tests plain_console default_subsystem []) []).2
  = [""; "✓ src:a succeeded."; "𐄂 src:b failed."].
Proof.
  set (w := run (world_handler three_targets)
              (run_tests plain_console default_subsystem []) []).
  destruct (summary_prints_unskipped_results_in_order (list string)
              (world_handler three_targets) [] plain_console default_subsystem []
              w.1.1 w.1.2 w.2 eq_refl eq_refl) as (rest & Hprinted & Hrest).
  rewrite Hprinted, (Hrest eq_refl). vm_compute. reflexivity.
Defined.

(** X2.  The XML results of the ordinary branch: [run_tests] asks once
    for the merge of the XML digests of the results that have one, in the
    order of the batch, and writes the merged digest to the workspace,
    at its root, before any coverage report.  Without coverage that is
    the only write, no process is run and no coverage report is asked
    for. *)
Theorem xml_results_merged_once_and_written
    (S : Type) (h : handler GoalE S) (s : S) (console : Console)
    (test_subsystem : TestSubsystem) (union_membership : UnionMembership)
    (o : outcome GoalExn Test) (s' : S) (tr : list (event GoalE)) :
  debug test_subsystem = false ->
  run h (run_tests console test_subsystem union_membership) s = (o, s', tr) ->
  exists merged more,
    merges tr = [(omap xml_results (results_of tr), merged)]
    /\ workspace_writes tr = (merged, None) :: more
    /\ (use_coverage test_subsystem = false ->
        more = [] /\ interactive_runs tr = [] /\ coverage_requests tr = []).
Proof.
  intros Hdebug Hrun.
  destruct (ordinary_run_anatomy _ h s _ _ _ _ _ _ Hdebug Hrun)
    as (t1 & merged & s2 & o2 & t2 & Htr & Hgather & Hcov & _).
  destruct (ordinary_run_projections t1 t2 (results_of tr)
              (map (summary_line console)
                 (List.filter (fun r => negb (skipped r)) (sorted (results_of tr))))
              (omap xml_results (results_of tr)) merged Hgather)
    as (_ & Hwrites & Hmerges & Hruns & Hreqs).
  cbn zeta in Hwrites, Hmerges, Hruns, Hreqs.
  rewrite <- Htr in Hwrites, Hmerges, Hruns, Hreqs.
  exists merged, (workspace_writes t2).
  assert (Hm2 : merges t2 = []).
  { apply coverage_block_trace.
    destruct (use_coverage test_subsystem).
    - eapply run_issues_only; [apply coverage_block_block_issues | exact Hcov].
    - cbn in Hcov. injection Hcov as _ _ <-. constructor. }
  rewrite Hmerges, Hm2. split; [reflexivity |]. split; [exact Hwrites |].
  intros Hcoverage. rewrite Hcoverage in Hcov. cbn in Hcov.
  injection Hcov as _ _ <-. rewrite Hruns, Hreqs. done.
Qed.

Lemma xml_results_merged_once_and_written_witness :
  let w := run (world_handler covered_targets)
             (run_tests plain_console default_subsystem []) [] in
  merges w.2 = [([sample_digest "xml"; sample_digest "xml"], GoSdk.EMPTY_DIGEST)]
  /\ workspace_writes w.2 = [(GoSdk.EMPTY_DIGEST, None)]
  /\ interactive_runs w.2 = [].
Proof.
  intros w.
  destruct (xml_results_merged_once_and_written (list string)
              (world_handler covered_targets) [] plain_console default_subsystem []
              w.1.1 w.1.2 w.2 eq_refl eq_refl)
    as (merged & more & Hmerges & Hwrites & Hrest).
  destruct (Hrest eq_refl) as (-> & Hruns & _).
  assert (Hm : merged = GoSdk.EMPTY_DIGEST).
  { vm_compute in Hwrites. injection Hwrites as <-. reflexivity. }
  subst merged. split; [rewrite Hmerges; vm_compute; reflexivity |].
  split; [exact Hwrites | exact Hruns].
Defined.

(** X3.  The coverage block and a class of coverage data without a
    registered collection: with [use_coverage] set, [run_tests] raises
    [KeyError] for the first such class among the coverage data of the
    results, after the summary has been printed and the XML results
    written, and before any coverage report is asked for; when every class
    has a collection it returns the exit code of the summary. *)
Theorem coverage_without_collection_raises_key_error
    (S : Type) (h : handler GoalE S) (s : S) (console : Console)
    (test_subsystem : TestSubsystem) (union_membership : UnionMembership)
    (o : outcome GoalExn Test) (s' : S) (tr : list (event GoalE)) :
  debug test_subsystem = false ->
  use_coverage test_subsystem = true ->
  run h (run_tests console test_subsystem union_membership) s = (o, s', tr) ->
  match first_unregistered (coverage_types_to_collection_types union_membership)
          (map data_cls (omap coverage_data (results_of tr))) with
  | Some k =>
      o = Err (KeyError k)
      /\ coverage_requests tr = []
      /\ printed tr
         = (match results_of tr with [] => [] | _ => [""] end
            ++ map (summary_line console)
                 (List.filter (fun r => negb (skipped r))
                    (sorted (results_of tr))))%list
      /\ exists merged, workspace_writes tr = [(merged, None)]
  | None =>
      o = Ok {| TestGoal.exit_code :=
                  summary_exit_code (sorted (results_of tr)) (Some 0) |}
  end.
Proof.
  intros Hdebug Hcoverage Hrun.
  destruct (ordinary_run_anatomy _ h s _ _ _ _ _ _ Hdebug Hrun)
    as (t1 & merged & s2 & o2 & t2 & Htr & Hgather & Hcov & Ho).
  rewrite Hcoverage in Hcov.
  destruct (first_unregistered _ _) as [k |] eqn:Hfirst.
  - unfold coverage_block in Hcov. rewrite run_bind in Hcov.
    rewrite (run_collect_coverage_error h _ _ k) in Hcov
      by (rewrite first_unregistered_groupby; exact Hfirst).
    injection Hcov as <- _ <-. split; [exact Ho |].
    destruct (ordinary_run_projections t1 [] (results_of tr)
                (map (summary_line console)
                   (List.filter (fun r => negb (skipped r))
                      (sorted (results_of tr))))
                (omap xml_results (results_of tr)) merged Hgather)
      as (Hprinted & Hwrites & _ & _ & Hreqs).
    cbn zeta in Hprinted, Hwrites, Hreqs.
    rewrite <- Htr in Hprinted, Hwrites, Hreqs.
    split; [exact Hreqs |].
    split; [rewrite Hprinted, app_nil_r; reflexivity |].
    exists merged. exact Hwrites.
  - apply first_unregistered_None in Hfirst.
    destruct (run_coverage_block h test_subsystem union_membership
                (results_of tr) s2 Hfirst) as (s3 & t3 & Hblock).
    rewrite Hblock in Hcov. injection Hcov as <- _ _. exact Ho.
Qed.

Lemma coverage_without_collection_raises_key_error_witness :
  (run (world_handler covered_targets)
     (run_tests plain_console coverage_subsystem []) []).1.1
  = Err (KeyError "PytestCoverageData")
  /\ (run (world_handler covered_targets)
        (run_tests plain_console coverage_subsystem
           [{| collection_cls := "PytestCoverageDataCollection";
               element_type := "PytestCoverageData" |}]) []).1.1
     = Ok {| TestGoal.exit_code := Some 1 |}.
Proof.
  split.
  - set (w := run (world_handler covered_targets)
                (run_tests plain_console coverage_subsystem []) []).
    pose proof (coverage_without_collection_raises_key_error (list string)
                  (world_handler covered_targets) [] plain_console
                  coverage_subsystem [] w.1.1 w.1.2 w.2 eq_refl eq_refl eq_refl)
      as H.
    vm_compute in H. destruct H as [H _]. exact H.
  - set (um := [{| collection_cls := "PytestCoverageDataCollection";
                   element_type := "PytestCoverageData" |}]).
    set (w := run (world_handler covered_targets)
                (run_tests plain_console coverage_subsystem um) []).
    pose proof (coverage_without_collection_raises_key_error (list string)
                  (world_handler covered_targets) [] plain_console
                  coverage_subsystem um w.1.1 w.1.2 w.2 eq_refl eq_refl eq_refl)
      as H.
    vm_compute in H. exact H.
Defined.

(** X4.  The debug branch has no effect but the processes it runs: it
    prints nothing, writes nothing to the workspace, merges no digest,
    filters no field set by its sources and asks for no coverage report. *)
Theorem debug_branch_only_runs_processes
    (S : Type) (h : handler GoalE S) (s : S) (console : Console)
    (test_subsystem : TestSubsystem) (union_membership : UnionMembership)
    (o : outcome GoalExn Test) (s' : S) (tr : list (event GoalE)) :
  debug test_subsystem = true ->
  run h (run_tests console test_subsystem union_membership) s = (o, s', tr) ->
  printed tr = [] /\ workspace_writes tr = [] /\ merges tr = []
  /\ coverage_requests tr = [] /\ field_sets_with_sources_of tr = [].
Proof.
  intros Hdebug Hrun. apply debug_trace.
  eapply run_issues_only; [| exact Hrun].
  unfold run_tests. rewrite Hdebug.
  apply issues_only_bind; [apply issues_only_trigger; exact I | intros valid].
  apply issues_only_bind;
    [apply issues_only_multi_get; intros; exact I | intros requests].
  apply issues_only_bind; [apply debug_loop_issues | intros; constructor].
Qed.

Lemma debug_branch_only_runs_processes_witness :
  let w := run (world_handler two_debug_targets)
             (run_tests plain_console debug_subsystem []) [] in
  printed w.2 = [] /\ workspace_writes w.2 = [] /\ merges w.2 = []
  /\ coverage_requests w.2 = [] /\ field_sets_with_sources_of w.2 = [].
Proof.
  intros w.
  exact (debug_branch_only_runs_processes (list string)
           (world_handler two_debug_targets) [] plain_console debug_subsystem []
           w.1.1 w.1.2 w.2 eq_refl eq_refl).
Defined.

(** A list either holds no failed result or has a last one. *)
Lemma last_failed_split (l : list t) :
  Forall (fun r => failed r = false) l
  \/ exists pre m post,
       l = (pre ++ m :: post)%list /\ failed m = true
       /\ Forall (fun r => failed r = false) post.
Proof.
  induction l as [| x l [IH | (pre & m & post & -> & Hm & Hpost)]].
  - left. constructor.
  - destruct (failed x) eqn:Hx.
    + right. exists [], x, l. done.
    + left. constructor; assumption.
  - right. exists (x :: pre), m, post. done.
Qed.

Lemma StronglySorted_before {A : Type} (R : A -> A -> Prop) (pre post : list A)
    (m : A) :
  StronglySorted R (pre ++ m :: post) -> Forall (fun x => R x m) pre.
Proof.
  induction pre as [| x pre IH]; cbn; intros Hs; [constructor |].
  apply StronglySorted_inv in Hs as [Hs Hx]. constructor; [| auto].
  apply Forall_app in Hx as [_ Hx]. apply Forall_cons in Hx as [Hx _]. exact Hx.
Qed.

(** The exit code of the summary is zero without failure, and otherwise
    the greatest exit code of a failed result. *)
Lemma summary_exit_code_greatest (l : list t) :
  (Forall (fun r => failed r = false) l
   /\ summary_exit_code (sorted l) (Some 0) = Some 0)
  \/ exists m,
       m ∈ l /\ failed m = true
       /\ summary_exit_code (sorted l) (Some 0) = exit_code m
       /\ forall r, r ∈ l -> failed r = true ->
                    ~ exit_code_lt (exit_code m) (exit_code r).
Proof.
  destruct (last_failed_split (sorted l))
    as [Hnone | (pre & m & post & Hsorted & Hm & Hpost)].
  - left. split.
    + rewrite <- (sorted_Permutation l). exact Hnone.
    + apply summary_exit_code_no_failure. exact Hnone.
  - right. exists m.
    assert (Hin : m ∈ l).
    { rewrite <- (sorted_Permutation l), Hsorted. set_solver. }
    split; [exact Hin |]. split; [exact Hm |]. split.
    + rewrite Hsorted. apply summary_exit_code_last_failure; assumption.
    + intros r Hr Hfailed Hlt.
      pose proof (sorted_StronglySorted l) as Hs. rewrite Hsorted in Hs.
      pose proof (StronglySorted_before _ _ _ _ Hs) as Hbefore.
      rewrite <- (sorted_Permutation l), Hsorted in Hr.
      apply elem_of_app in Hr as [Hr | Hr].
      * rewrite Forall_forall in Hbefore. specialize (Hbefore r Hr).
        assert (Hmr : lt m r = true) by (apply lt_iff; left; exact Hlt).
        congruence.
      * apply elem_of_cons in Hr as [-> | Hr].
        -- exact (exit_code_lt_irrefl _ Hlt).
        -- rewrite Forall_forall in Hpost. specialize (Hpost r Hr). congruence.
Qed.

(** The exit code of the summary does not depend on the order of the
    results. *)
Lemma summary_exit_code_Permutation (l1 l2 : list t) :
  Permutation l1 l2 ->
  summary_exit_code (sorted l1) (Some 0) = summary_exit_code (sorted l2) (Some 0).
Proof.
  intros Hp.
  destruct (summary_exit_code_greatest l1)
    as [[Hnone1 ->] | (m1 & Hin1 & Hf1 & -> & Hmax1)];
    destruct (summary_exit_code_greatest l2)
      as [[Hnone2 ->] | (m2 & Hin2 & Hf2 & -> & Hmax2)].
  - reflexivity.
  - rewrite <- Hp in Hin2. rewrite Forall_forall in Hnone1.
    specialize (Hnone1 m2 Hin2). congruence.
  - rewrite Hp in Hin1. rewrite Forall_forall in Hnone2.
    specialize (Hnone2 m1 Hin1). congruence.
  - pose proof Hin2 as Hin2'. rewrite <- Hp in Hin2'.
    pose proof Hin1 as Hin1'. rewrite Hp in Hin1'.
    specialize (Hmax1 m2 Hin2' Hf2). specialize (Hmax2 m1 Hin1' Hf1).
    destruct (exit_code_trichotomy (exit_code m1) (exit_code m2))
      as [H | [H | H]]; [contradiction | exact H | contradiction].
Qed.

(** X5.  The exit code of the ordinary branch in closed form: it is 0
    when no result failed (a result fails when it is not skipped and its
    exit code is not 0), and otherwise the greatest exit code of a failed
    result. *)
Theorem run_tests_exit_code_is_greatest_failure
    (S : Type) (h : handler GoalE S) (s : S) (console : Console)
    (test_subsystem : TestSubsystem) (union_membership : UnionMembership)
    (o : outcome GoalExn Test) (s' : S) (tr : list (event GoalE)) :
  debug test_subsystem = false ->
  run h (run_tests console test_subsystem union_membership) s = (o, s', tr) ->
  (use_coverage test_subsystem = true ->
   coverage_registered union_membership (results_of tr)) ->
  (Forall (fun r => failed r = false) (results_of tr)
   /\ o = Ok {| TestGoal.exit_code := Some 0 |})
  \/ exists m,
       m ∈ results_of tr /\ failed m = true
       /\ o = Ok {| TestGoal.exit_code := exit_code m |}
       /\ forall r, r ∈ results_of tr -> failed r = true ->
                    ~ exit_code_lt (exit_code m) (exit_code r).
Proof.
  intros Hdebug Hrun Hreg.
  destruct (run_tests_batch h _ _ _ _ _ _ _ Hdebug Hrun) as [_ Ho].
  specialize (Ho Hreg). subst o.
  destruct (summary_exit_code_greatest (results_of tr))
    as [[Hnone ->] | (m & Hin & Hf & -> & Hmax)].
  - left. done.
  - right. exists m. done.
Qed.

Lemma run_tests_exit_code_is_greatest_failure_witness :
  let w := run (world_handler two_failures)
             (run_tests plain_console default_subsystem []) [] in
  exists m,
    m ∈ results_of w.2 /\ failed m = true
    /\ w.1.1 = Ok {| TestGoal.exit_code := exit_code m |}
    /\ forall r, r ∈ results_of w.2 -> failed r = true ->
                 ~ exit_code_lt (exit_code m) (exit_code r).
Proof.
  intros w.
  destruct (run_tests_exit_code_is_greatest_failure (list string)
              (world_handler two_failures) [] plain_console default_subsystem []
              w.1.1 w.1.2 w.2 eq_refl eq_refl)
    as [[Hnone _] | H].
  - cbn. discriminate.
  - exfalso. vm_compute in Hnone.
    apply Forall_cons in Hnone as [Hnone _]. discriminate Hnone.
  - exact H.
Defined.

(** X6.  The exit code of the ordinary branch does not depend on the
    order in which the results of the batch come: two runs whose results
    are the same up to their order return the same goal. *)
Theorem run_tests_exit_code_order_independent
    (S1 S2 : Type) (h1 : handler GoalE S1) (h2 : handler GoalE S2)
    (s1 : S1) (s2 : S2) (console1 console2 : Console)
    (test_subsystem1 test_subsystem2 : TestSubsystem)
    (union_membership1 union_membership2 : UnionMembership)
    (o1 o2 : outcome GoalExn Test) (s1' : S1) (s2' : S2)
    (tr1 tr2 : list (event GoalE)) :
  debug test_subsystem1 = false -> debug test_subsystem2 = false ->
  run h1 (run_tests console1 test_subsystem1 union_membership1) s1
  = (o1, s1', tr1) ->
  run h2 (run_tests console2 test_subsystem2 union_membership2) s2
  = (o2, s2', tr2) ->
  (use_coverage test_subsystem1 = true ->
   coverage_registered union_membership1 (results_of tr1)) ->
  (use_coverage test_subsystem2 = true ->
   coverage_registered union_membership2 (results_of tr2)) ->
  Permutation (results_of tr1) (results_of tr2) ->
  o1 = o2.
Proof.
  intros Hd1 Hd2 Hrun1 Hrun2 Hreg1 Hreg2 Hp.
  destruct (run_tests_batch h1 _ _ _ _ _ _ _ Hd1 Hrun1) as [_ Ho1].
  destruct (run_tests_batch h2 _ _ _ _ _ _ _ Hd2 Hrun2) as [_ Ho2].
  rewrite (Ho1 Hreg1), (Ho2 Hreg2), (summary_exit_code_Permutation _ _ Hp).
  reflexivity.
Qed.

Lemma run_tests_exit_code_order_independent_witness :
  (run (world_handler two_failures)
     (run_tests plain_console default_subsystem []) []).1.1
  = (run (world_handler two_failures_reversed)
       (run_tests plain_console default_subsystem []) []).1.1.
Proof.
  set (w1 := run (world_handler two_failures)
               (run_tests plain_console default_subsystem []) []).
  set (w2 := run (world_handler two_failures_reversed)
               (run_tests plain_console default_subsystem []) []).
  refine (run_tests_exit_code_order_independent _ _
            (world_handler two_failures) (world_handler two_failures_reversed)
            [] [] plain_console plain_console default_subsystem default_subsystem
            [] [] w1.1.1 w2.1.1 w1.1.2 w2.1.2 w1.2 w2.2
            eq_refl eq_refl eq_refl eq_refl _ _ _).
  - cbn. discriminate.
  - cbn. discriminate.
  - vm_compute. apply perm_swap.
Defined.


(** *** The coverage block *)

Lemma coverage_answers_app (t1 t2 : list (event GoalE)) :
  coverage_answers (t1 ++ t2) = (coverage_answers t1 ++ coverage_answers t2)%list.
Proof. apply omap_app. Qed.

Lemma open_requests_app (t1 t2 : list (event GoalE)) :
  open_requests (t1 ++ t2) = (open_requests t1 ++ open_requests t2)%list.
Proof. apply omap_app. Qed.

Lemma gathering_trace_answers (tr : list (event GoalE)) :
  Forall (event_satisfies gathering_request) tr ->
  coverage_answers tr = [] /\ open_requests tr = [].
Proof.
  induction 1 as [| [X e x] tr He _ (IH1 & IH2)]; [done |].
  unfold coverage_answers, open_requests in *.
  destruct e; cbn in *; try contradiction; rewrite ?IH1, ?IH2; done.
Qed.

(** [groupby] splits the data without losing or reordering any. *)
Lemma groupby_concat (xs : list CoverageData) :
  concat (map snd (groupby xs)) = xs.
Proof.
  induction xs as [| x xs IH]; cbn; [reflexivity |].
  destruct (groupby xs) as [| [k g] groups]; cbn in *.
  - rewrite <- IH. reflexivity.
  - destruct (String.eqb (data_cls x) k); cbn; rewrite <- IH; reflexivity.
Qed.

(** Every group is not empty and holds data of the class of its key. *)
Lemma groupby_groups (xs : list CoverageData) :
  Forall (fun kg => kg.2 <> [] /\ Forall (fun d => data_cls d = kg.1) kg.2)
    (groupby xs).
Proof.
  induction xs as [| x xs IH]; cbn; [constructor |].
  destruct (groupby xs) as [| [k g] groups].
  - repeat constructor. done.
  - destruct (String.eqb_spec (data_cls x) k) as [Hk | Hk].
    + apply Forall_cons in IH as [[_ Hg] IH]. constructor; [| exact IH].
      cbn in *. split; [done |]. constructor; assumption.
    + constructor; [| exact IH]. cbn. split; [done |]. repeat constructor.
Qed.

(** Two groups next to each other have different keys. *)
Lemma groupby_adjacent (xs : list CoverageData) :
  adjacent_distinct (map fst (groupby xs)).
Proof.
  induction xs as [| x xs IH]; cbn; [exact I |].
  destruct (groupby xs) as [| [k g] groups]; [exact I |].
  destruct (String.eqb_spec (data_cls x) k) as [Hk | Hk].
  - exact IH.
  - cbn in *. split; assumption.
Qed.

Lemma types_foldl_lookup (union_membership : UnionMembership)
    (d : gmap string CoverageDataCollectionClass) (k : string)
    (c : CoverageDataCollectionClass) :
  foldl (fun d c => <[element_type c := c]> d) d union_membership !! k = Some c ->
  (element_type c = k /\ last_registered union_membership c)
  \/ (d !! k = Some c
      /\ Forall (fun c' => element_type c' <> k) union_membership).
Proof.
  revert d. induction union_membership as [| c0 um IH]; intros d; cbn.
  - intros Hd. right. done.
  - intros Hl. destruct (IH _ Hl) as [[Hk (pre & post & -> & Hpost)] | [Hd Hum]].
    + left. split; [exact Hk |]. exists (c0 :: pre), post. done.
    + destruct (decide (element_type c0 = k)) as [Hc0 | Hc0].
      * subst k. rewrite lookup_insert_eq in Hd. injection Hd as ->.
        left. split; [reflexivity |]. exists [], um. done.
      * rewrite lookup_insert_ne in Hd by exact Hc0.
        right. split; [exact Hd |]. constructor; assumption.
Qed.

(** The dictionary maps a class of data to the last collection class
    registered for it. *)
Lemma types_lookup_Some (union_membership : UnionMembership) (k : string)
    (c : CoverageDataCollectionClass) :
  coverage_types_to_collection_types union_membership !! k = Some c ->
  element_type c = k /\ last_registered union_membership c.
Proof.
  intros Hl. destruct (types_foldl_lookup _ _ _ _ Hl) as [H | [Hd _]];
    [exact H | rewrite lookup_empty in Hd; discriminate].
Qed.

Lemma report_events_projections (rs : list CoverageReport) :
  let tr := concat (map report_events rs) in
  printed tr = map report_line_of rs
  /\ workspace_writes tr = omap report_write_of rs
  /\ interactive_runs tr = [] /\ coverage_requests tr = []
  /\ coverage_answers tr = [] /\ open_requests tr = [].
Proof.
  induction rs as [| r rs (IH1 & IH2 & IH3 & IH4 & IH5 & IH6)]; [done |].
  cbn zeta in *. cbn [map concat].
  rewrite printed_app, workspace_writes_app, interactive_runs_app,
    coverage_requests_app, coverage_answers_app, open_requests_app.
  rewrite IH1, IH2, IH3, IH4, IH5, IH6. destruct r; done.
Qed.

Section Coverage.
Context {S : Type} (h : handler GoalE S).

Lemma run_collect_coverage_ok types groups s cols s' tr :
  run h (collect_coverage types groups) s = (Ok cols, s', tr) ->
  tr = []
  /\ Forall2 (fun c kg => types !! kg.1 = Some (cls c) /\ elements c = kg.2)
       cols groups.
Proof.
  revert cols s' tr. induction groups as [| [k g] groups IH];
    intros cols s' tr; cbn.
  - intros [= <- <- <-]. split; [reflexivity | constructor].
  - destruct (types !! k) as [c |] eqn:Hk; [| discriminate].
    rewrite run_bind.
    destruct (run h (collect_coverage types groups) s) as [[[cols1 | e] s1] t1]
      eqn:Hrun; [| discriminate].
    destruct (IH _ _ _ eq_refl) as [-> Hcols]. cbn. intros [= <- <- <-].
    split; [reflexivity |]. constructor; [done | exact Hcols].
Qed.

Lemma run_materialize_report r s :
  exists s',
    run h (materialize_report r) s = (Ok (report_file_of r), s', report_events r).
Proof.
  destruct r as [report | d dir report_file report_type]; cbn.
  - destruct (h _ (ConsolePrintStderr _) s) as [[] s1]. eauto.
  - destruct (h _ (WorkspaceWriteDigest _ _) s) as [[] s1].
    destruct (h _ (ConsolePrintStderr _) s1) as [[] s2]. eauto.
Qed.

Lemma run_materialize rs s :
  exists s',
    run h (materialize rs) s
    = (Ok (omap report_file_of rs), s', concat (map report_events rs)).
Proof.
  revert s. induction rs as [| r rs IH]; intros s; cbn [materialize].
  - cbn. eauto.
  - rewrite run_bind. destruct (run_materialize_report r s) as (s1 & ->).
    rewrite run_bind. destruct (IH s1) as (s2 & ->). cbn.
    rewrite app_nil_r. destruct (report_file_of r); eauto.
Qed.

Lemma run_materialize_all cs s :
  exists s',
    run h (materialize_all cs) s
    = (Ok (omap report_file_of (concat (map reports cs))), s',
       concat (map report_events (concat (map reports cs)))).
Proof.
  revert s. induction cs as [| c cs IH]; intros s; cbn [materialize_all].
  - cbn. eauto.
  - rewrite run_bind. destruct (run_materialize (reports c) s) as (s1 & ->).
    rewrite run_bind. destruct (IH s1) as (s2 & ->). cbn.
    rewrite app_nil_r, omap_app, map_app, concat_app. eauto.
Qed.

(** The batch of requests for coverage reports. *)
Lemma run_coverage_batch (cols : list CoverageDataCollection) s o s' tr :
  run h (multi_get (Exn := GoalExn) GetCoverageReports cols) s = (o, s', tr) ->
  o = Ok (coverage_answers tr) /\ coverage_requests tr = cols
  /\ printed tr = [] /\ workspace_writes tr = []
  /\ interactive_runs tr = [] /\ open_requests tr = [].
Proof.
  revert s o s' tr. induction cols as [| c cols IH]; intros s o s' tr; cbn.
  - intros [= <- <- <-]. done.
  - destruct (h _ (GetCoverageReports c) s) as [r s1].
    rewrite run_bind.
    destruct (run h (multi_get (Exn := GoalExn) GetCoverageReports cols) s1)
      as [[o1 s2] t1] eqn:Hrun.
    destruct (IH _ _ _ _ Hrun) as (-> & H1 & H2 & H3 & H4 & H5). cbn.
    intros [= <- <- <-]. rewrite app_nil_r.
    unfold coverage_answers, coverage_requests, printed, workspace_writes,
      interactive_runs, open_requests in *. cbn.
    rewrite H1, H2, H3, H4, H5. done.
Qed.

(** The processes that open the files are run in order. *)
Lemma run_open_loop (ps : list InteractiveProcess) s :
  exists s' tr,
    run h (for_each (Exn := GoalExn) ps (fun p =>
             bind (trigger (InteractiveRunnerRun p)) (fun _ => Ret tt))) s
    = (Ok tt, s', tr)
    /\ map fst (interactive_runs tr) = ps
    /\ printed tr = [] /\ workspace_writes tr = []
    /\ coverage_requests tr = [] /\ coverage_answers tr = []
    /\ open_requests tr = [].
Proof.
  revert s. induction ps as [| p ps IH]; intros s; cbn [for_each].
  - cbn. eexists _, _. done.
  - rewrite run_bind, run_bind, run_trigger. cbn -[bind trigger].
    match goal with
    | |- context [run h (for_each ps _) ?s1] =>
        destruct (IH s1) as (s2 & t2 & -> & H1 & H2 & H3 & H4 & H5 & H6)
    end.
    eexists _, _. split; [reflexivity |].
    unfold interactive_runs, printed, workspace_writes, coverage_requests,
      coverage_answers, open_requests in *. cbn.
    rewrite H1, H2, H3, H4, H5, H6. done.
Qed.

(** A coverage block that returns: the collections asked for are the
    groups of the data, each given to the collection class registered for
    its key; every report delivered is materialized, in order; the files
    are opened when there is one and [open_coverage] is set. *)
Lemma run_coverage_block_anatomy test_subsystem union_membership results
    s u s' tr :
  run h (coverage_block test_subsystem union_membership results) s
  = (Ok u, s', tr) ->
  Forall2 (fun c kg =>
             coverage_types_to_collection_types union_membership !! kg.1
             = Some (cls c) /\ elements c = kg.2)
    (coverage_requests tr)
    (groupby (omap EnrichedTestResult.coverage_data results))
  /\ printed tr = map report_line_of (delivered_reports tr)
  /\ workspace_writes tr = omap report_write_of (delivered_reports tr)
  /\ (if match omap report_file_of (delivered_reports tr) with
         | [] => false
         | _ => true
         end && open_coverage test_subsystem
      then exists open_files,
             open_requests tr
             = [({| files := omap report_file_of (delivered_reports tr);
                    error_if_open_not_found := false |}, open_files)]
             /\ map fst (interactive_runs tr) = processes open_files
      else open_requests tr = [] /\ interactive_runs tr = []).
Proof.
  unfold coverage_block, delivered_reports. rewrite run_bind.
  destruct (run h (collect_coverage _ _) s) as [[[cols | e] s1] t0] eqn:Hcollect;
    [| discriminate].
  destruct (run_collect_coverage_ok _ _ _ _ _ _ Hcollect) as [-> Hcols].
  rewrite run_bind.
  destruct (run h (multi_get (Exn := GoalExn) GetCoverageReports cols) s1)
    as [[o1 s2] t1] eqn:Hbatch.
  destruct (run_coverage_batch _ _ _ _ _ Hbatch)
    as (-> & Hreqs & Hp1 & Hw1 & Hr1 & Ho1).
  rewrite run_bind.
  destruct (run_materialize_all (coverage_answers t1) s2) as (s3 & ->).
  destruct (report_events_projections
              (concat (map reports (coverage_answers t1))))
    as (Hp2 & Hw2 & Hr2 & Hq2 & Ha2 & Ho2).
  cbn zeta in Hp2, Hw2, Hr2, Hq2, Ha2, Ho2.
  set (all := concat (map reports (coverage_answers t1))) in *.
  set (t2 := concat (map report_events all)) in *.
  destruct (match omap report_file_of all with [] => false | _ => true end
            && open_coverage test_subsystem) eqn:Hopen.
  - rewrite run_bind, run_trigger.
    match goal with
    | |- context [run h (for_each ?ps _) ?s4] =>
        destruct (run_open_loop ps s4)
          as (s5 & t3 & -> & Hr3 & Hp3 & Hw3 & Hq3 & Ha3 & Ho3)
    end.
    intros [= <- <- <-].
    match goal with
    | |- context [?ev :: t3] => change (ev :: t3) with ([ev] ++ t3)%list
    end.
    rewrite !coverage_requests_app, !coverage_answers_app, !printed_app,
      !workspace_writes_app, !open_requests_app, !interactive_runs_app.
    rewrite Hreqs, Hp1, Hw1, Hr1, Ho1, Hp2, Hw2, Hr2, Hq2, Ha2, Ho2,
      Hp3, Hw3, Hq3, Ha3, Ho3, !app_nil_r.
    cbn. fold all. rewrite Hopen.
    split; [exact Hcols |]. split; [reflexivity |]. split; [reflexivity |].
    eexists. split; [reflexivity | exact Hr3].
  - cbn. intros [= <- <- <-]. rewrite !app_nil_r.
    rewrite !coverage_requests_app, !coverage_answers_app, !printed_app,
      !workspace_writes_app, !open_requests_app, !interactive_runs_app.
    rewrite Hreqs, Hp1, Hw1, Hr1, Ho1, Hp2, Hw2, Hr2, Hq2, Ha2, Ho2, !app_nil_r.
    cbn. fold all. rewrite Hopen. done.
Qed.

End Coverage.


Lemma print_trace_answers (lines : list string) :
  let tr := map (fun line => Ev (ConsolePrintStderr line) tt) lines in
  coverage_answers tr = [] /\ open_requests tr = [].
Proof.
  induction lines as [| l lines (IH1 & IH2)]; [done |].
  unfold coverage_answers, open_requests in *. cbn. done.
Qed.

Lemma ordinary_run_answers (t1 t2 : list (event GoalE)) (results : list t)
    (lines : list string) (xmls : list Digest) (merged : Digest) :
  Forall (event_satisfies gathering_request) t1 ->
  let tr := (t1
             ++ (match results with
                 | [] => []
                 | _ => [Ev (ConsolePrintStderr "") tt]
                 end)
             ++ map (fun line => Ev (ConsolePrintStderr line) tt) lines
             ++ [Ev (GetMergeDigests xmls) merged;
                 Ev (WorkspaceWriteDigest merged None) tt]
             ++ t2)%list in
  coverage_answers tr = coverage_answers t2
  /\ open_requests tr = open_requests t2.
Proof.
  intros Hgather tr. subst tr.
  apply gathering_trace_answers in Hgather as (G1 & G2).
  destruct (print_trace_answers lines) as (P1 & P2).
  cbn zeta in *.
  rewrite !coverage_answers_app, !open_requests_app.
  rewrite G1, G2, P1, P2. destruct results; done.
Qed.

(** The anatomy of a run of the ordinary branch with coverage that
    returns. *)
Lemma covered_run_anatomy (S : Type) (h : handler GoalE S) (s : S)
    console test_subsystem union_membership g s' tr :
  debug test_subsystem = false ->
  use_coverage test_subsystem = true ->
  run h (run_tests console test_subsystem union_membership) s = (Ok g, s', tr) ->
  Forall2 (fun c kg =>
             coverage_types_to_collection_types union_membership !! kg.1
             = Some (cls c) /\ elements c = kg.2)
    (coverage_requests tr)
    (groupby (omap coverage_data (results_of tr)))
  /\ printed tr
     = (match results_of tr with [] => [] | _ => [""] end
        ++ map (summary_line console)
             (List.filter (fun r => negb (skipped r)) (sorted (results_of tr)))
        ++ map report_line_of (delivered_reports tr))%list
  /\ (exists merged,
        workspace_writes tr
        = (merged, None) :: omap report_write_of (delivered_reports tr))
  /\ (if match omap report_file_of (delivered_reports tr) with
         | [] => false
         | _ => true
         end && open_coverage test_subsystem
      then exists open_files,
             open_requests tr
             = [({| files := omap report_file_of (delivered_reports tr);
                    error_if_open_not_found := false |}, open_files)]
             /\ map fst (interactive_runs tr) = processes open_files
      else open_requests tr = [] /\ interactive_runs tr = []).
Proof.
  intros Hdebug Hcoverage Hrun.
  destruct (ordinary_run_anatomy _ h s _ _ _ _ _ _ Hdebug Hrun)
    as (t1 & merged & s2 & o2 & t2 & Htr & Hgather & Hcov & Ho).
  rewrite Hcoverage in Hcov. destruct o2 as [u |]; [| discriminate Ho].
  destruct (run_coverage_block_anatomy h _ _ _ _ _ _ _ Hcov)
    as (Hcols & Hprinted2 & Hwrites2 & Hopen).
  destruct (ordinary_run_projections t1 t2 (results_of tr)
              (map (summary_line console)
                 (List.filter (fun r => negb (skipped r)) (sorted (results_of tr))))
              (omap xml_results (results_of tr)) merged Hgather)
    as (Hprinted & Hwrites & _ & Hruns & Hreqs).
  destruct (ordinary_run_answers t1 t2 (results_of tr)
              (map (summary_line console)
                 (List.filter (fun r => negb (skipped r)) (sorted (results_of tr))))
              (omap xml_results (results_of tr)) merged Hgather)
    as (Hanswers & Hopens).
  cbn zeta in Hprinted, Hwrites, Hruns, Hreqs, Hanswers, Hopens.
  rewrite <- Htr in Hprinted, Hwrites, Hruns, Hreqs, Hanswers, Hopens.
  unfold delivered_reports in *.
  rewrite Hprinted, Hwrites, Hruns, Hreqs, Hanswers, Hopens, Hprinted2, Hwrites2.
  split; [exact Hcols |]. split; [reflexivity |].
  split; [exists merged; reflexivity | exact Hopen].
Qed.

Lemma Forall2_groups (union_membership : UnionMembership)
    (cols : list CoverageDataCollection)
    (groups : list (string * list CoverageData)) :
  Forall2 (fun c kg =>
             coverage_types_to_collection_types union_membership !! kg.1
             = Some (cls c) /\ elements c = kg.2) cols groups ->
  map elements cols = map snd groups
  /\ map (fun c => element_type (cls c)) cols = map fst groups
  /\ Forall (fun c => last_registered union_membership (cls c)) cols.
Proof.
  induction 1 as [| c [k g] cols groups [Hk Hg] _ (IH1 & IH2 & IH3)]; [done |].
  cbn in *. apply types_lookup_Some in Hk as [Hk Hlast].
  rewrite IH1, IH2, Hg, Hk. split; [done |]. split; [done |].
  constructor; assumption.
Qed.

(** X7.  The coverage collections of [run_tests]: when a run with
    [use_coverage] returns, the collections it asks reports for hold the
    coverage data of the results, each datum once and in the order of the
    results; a collection is not empty, its data are all of the element
    type of its class, its class is the last one registered for that
    element type, and two collections next to each other have different
    element types. *)
Theorem coverage_collections_partition_the_data
    (S : Type) (h : handler GoalE S) (s : S) (console : Console)
    (test_subsystem : TestSubsystem) (union_membership : UnionMembership)
    (g : Test) (s' : S) (tr : list (event GoalE)) :
  debug test_subsystem = false ->
  use_coverage test_subsystem = true ->
  run h (run_tests console test_subsystem union_membership) s = (Ok g, s', tr) ->
  concat (map elements (coverage_requests tr))
  = omap coverage_data (results_of tr)
  /\ Forall (fun c =>
               elements c <> []
               /\ Forall (fun d => data_cls d = element_type (cls c)) (elements c)
               /\ last_registered union_membership (cls c))
       (coverage_requests tr)
  /\ adjacent_distinct
       (map (fun c => element_type (cls c)) (coverage_requests tr)).
Proof.
  intros Hdebug Hcoverage Hrun.
  destruct (covered_run_anatomy _ h s _ _ _ _ _ _ Hdebug Hcoverage Hrun)
    as (Hcols & _).
  destruct (Forall2_groups _ _ _ Hcols) as (Helements & Hkeys & Hlast).
  split; [rewrite Helements; apply groupby_concat |].
  split; [| rewrite Hkeys; apply groupby_adjacent].
  pose proof (groupby_groups (omap coverage_data (results_of tr))) as Hgroups.
  clear Helements Hkeys.
  induction Hcols as [| c [k grp] cols groups [Hk Hg] _ IH]; [constructor |].
  apply Forall_cons in Hgroups as [[Hne Hhom] Hgroups].
  apply Forall_cons in Hlast as [Hc Hlast].
  constructor; [| exact (IH Hlast Hgroups)].
  apply types_lookup_Some in Hk as [Hk _]. cbn in *.
  rewrite Hg, Hk. done.
Qed.

Lemma coverage_collections_partition_the_data_witness :
  let w := run reporting_handler
             (run_tests plain_console coverage_subsystem [pytest_collection]) [] in
  concat (map elements (coverage_requests w.2))
  = omap coverage_data (results_of w.2)
  /\ length (coverage_requests w.2) = 1%nat.
Proof.
  intros w.
  destruct (coverage_collections_partition_the_data (list string)
              reporting_handler [] plain_console coverage_subsystem
              [pytest_collection] {| TestGoal.exit_code := Some 1 |} w.1.2 w.2
              eq_refl eq_refl eq_refl) as (H & _).
  split; [exact H | reflexivity].
Defined.

(** X8.  The coverage reports of [run_tests]: when a run with
    [use_coverage] returns, it has printed, after the summary, one line
    for each report the engine delivered, in order (the report itself for
    a console report, a line naming the report type and the directory for
    a report on disk), and it has written to the workspace, after the
    merged XML results, the digest of each report on disk under the
    directory of that report. *)
Theorem coverage_reports_materialized_in_order
    (S : Type) (h : handler GoalE S) (s : S) (console : Console)
    (test_subsystem : TestSubsystem) (union_membership : UnionMembership)
    (g : Test) (s' : S) (tr : list (event GoalE)) :
  debug test_subsystem = false ->
  use_coverage test_subsystem = true ->
  run h (run_tests console test_subsystem union_membership) s = (Ok g, s', tr) ->
  length (coverage_answers tr) = length (coverage_requests tr)
  /\ printed tr
     = (match results_of tr with [] => [] | _ => [""] end
        ++ map (summary_line console)
             (List.filter (fun r => negb (skipped r)) (sorted (results_of tr)))
        ++ map report_line_of (delivered_reports tr))%list
  /\ exists merged,
       workspace_writes tr
       = (merged, None) :: omap report_write_of (delivered_reports tr).
Proof.
  intros Hdebug Hcoverage Hrun.
  destruct (covered_run_anatomy _ h s _ _ _ _ _ _ Hdebug Hcoverage Hrun)
    as (_ & Hprinted & Hwrites & _).
  split; [| split; assumption].
  clear. unfold coverage_answers, coverage_requests.
  induction tr as [| [X e x] tr IH]; [reflexivity |].
  destruct e; cbn; try exact IH. rewrite IH. reflexivity.
Qed.

Lemma coverage_reports_materialized_in_order_witness :
  let w := run reporting_handler
             (run_tests plain_console coverage_subsystem [pytest_collection]) [] in
  printed w.2
  = (["";
      "✓ src:a succeeded.";
      "𐄂 src:b failed.";
      LF ++ "TOTAL 90%";
      LF ++ "Wrote html coverage report to `dist/coverage/python/htmlcov`";
      LF ++ "Wrote html coverage report to `dist/coverage/python/htmlcov`"])%string
  /\ workspace_writes w.2
     = [(GoSdk.EMPTY_DIGEST, None);
        (sample_digest "html1", Some "dist/coverage/python/htmlcov");
        (sample_digest "html2", Some "dist/coverage/python/htmlcov")].
Proof.
  intros w.
  destruct (coverage_reports_materialized_in_order (list string)
              reporting_handler [] plain_console coverage_subsystem
              [pytest_collection] {| TestGoal.exit_code := Some 1 |} w.1.2 w.2
              eq_refl eq_refl eq_refl) as (_ & Hprinted & merged & Hwrites).
  split; [rewrite Hprinted; vm_compute; reflexivity |].
  assert (Hm : merged = GoSdk.EMPTY_DIGEST).
  { vm_compute in Hwrites. injection Hwrites as <-. reflexivity. }
  subst merged. rewrite Hwrites. vm_compute. reflexivity.
Defined.

(** X9.  Opening the coverage reports: when a run with [use_coverage]
    returns, it has asked to open files exactly when [open_coverage] is
    set and some report delivered has a report file; the request then
    names the report files of the reports in order, with
    [error_if_open_not_found] off, and every process of the answer is
    run, in order.  Otherwise no process is run. *)
Theorem coverage_reports_opened_on_request
    (S : Type) (h : handler GoalE S) (s : S) (console : Console)
    (test_subsystem : TestSubsystem) (union_membership : UnionMembership)
    (g : Test) (s' : S) (tr : list (event GoalE)) :
  debug test_subsystem = false ->
  use_coverage test_subsystem = true ->
  run h (run_tests console test_subsystem union_membership) s = (Ok g, s', tr) ->
  let report_files := omap report_file_of (delivered_reports tr) in
  (open_coverage test_subsystem = true -> report_files <> [] ->
   exists open_files,
     open_requests tr
     = [({| files := report_files; error_if_open_not_found := false |},
         open_files)]
     /\ map fst (interactive_runs tr) = processes open_files)
  /\ (open_coverage test_subsystem = false \/ report_files = [] ->
      open_requests tr = [] /\ interactive_runs tr = []).
Proof.
  intros Hdebug Hcoverage Hrun report_files.
  destruct (covered_run_anatomy _ h s _ _ _ _ _ _ Hdebug Hcoverage Hrun)
    as (_ & _ & _ & Hopen).
  fold report_files in Hopen. split.
  - intros Hset Hfiles. rewrite Hset in Hopen.
    destruct report_files; [contradiction | exact Hopen].
  - intros [Hunset | Hnone].
    + rewrite Hunset, andb_false_r in Hopen. exact Hopen.
    + rewrite Hnone in Hopen. exact Hopen.
Qed.

Lemma coverage_reports_opened_on_request_witness :
  let w := run reporting_handler
             (run_tests plain_console open_subsystem [pytest_collection]) [] in
  map fst (interactive_runs w.2)
  = [{| argv := ["open"; "dist/coverage/python/htmlcov/index.html"] |}].
Proof.
  intros w.
  destruct (coverage_reports_opened_on_request (list string)
              reporting_handler [] plain_console open_subsystem
              [pytest_collection] {| TestGoal.exit_code := Some 1 |} w.1.2 w.2
              eq_refl eq_refl eq_refl) as (Hopen & _).
  destruct (Hopen eq_refl) as (open_files & Hreq & Hruns).
  - vm_compute. discriminate.
  - rewrite Hruns. vm_compute in Hreq. injection Hreq as <-. reflexivity.
Defined.


(** *** Artifacts and levels *)

Lemma artifacts_foldl (rs : list CoverageReport) (a : gmap string Digest)
    (k : string) (d : Digest) :
  foldl (fun artifacts report =>
           match get_artifact report with
           | None => artifacts
           | Some (k, d) => <[k := d]> artifacts
           end) a rs !! k = Some d
  <-> last_artifact rs k d
      \/ (a !! k = Some d
          /\ Forall (fun r' => forall d', get_artifact r' <> Some (k, d')) rs).
Proof.
  revert a. induction rs as [| r rs IH]; intros a; cbn [foldl].
  - split.
    + intros Ha. right. done.
    + intros [(pre & r & post & Hrs & _) | [Ha _]]; [| exact Ha].
      destruct pre; discriminate Hrs.
  - rewrite IH. split.
    + intros [(pre & r0 & post & -> & Hr0 & Hpost) | [Ha Hrs]].
      * left. exists (r :: pre), r0, post. done.
      * destruct (get_artifact r) as [[k' d'] |] eqn:Hr.
        -- destruct (decide (k' = k)) as [-> | Hk].
           ++ rewrite lookup_insert_eq in Ha. injection Ha as ->.
              left. exists [], r, rs. done.
           ++ rewrite lookup_insert_ne in Ha by exact Hk.
              right. split; [exact Ha |]. constructor; [| exact Hrs].
              intros d0 Hd0. rewrite Hr in Hd0. injection Hd0 as E _.
              contradiction.
        -- right. split; [exact Ha |]. constructor; [| exact Hrs].
           intros d0 Hd0. rewrite Hr in Hd0. discriminate Hd0.
    + intros [(pre & r0 & post & Hrs & Hr0 & Hpost) | [Ha Hrs]].
      * destruct pre as [| r1 pre]; cbn in Hrs; injection Hrs as -> ->.
        -- right. rewrite Hr0, lookup_insert_eq. done.
        -- left. exists pre, r0, post. done.
      * apply Forall_cons in Hrs as [Hr Hrs]. right. split; [| exact Hrs].
        destruct (get_artifact r) as [[k' d'] |]; [| exact Ha].
        rewrite lookup_insert_ne; [exact Ha |].
        intros ->. exact (Hr d' eq_refl).
Qed.

Lemma artifacts_dict_lookup (rs : list CoverageReport) (k : string) (d : Digest) :
  artifacts_dict rs !! k = Some d <-> last_artifact rs k d.
Proof.
  unfold artifacts_dict. rewrite artifacts_foldl. split; [| auto].
  intros [H | [H _]]; [exact H | rewrite lookup_empty in H; discriminate].
Qed.

(** X10.  [CoverageReports.artifacts]: it is [None] exactly when no
    report has an artifact, which is when none is a report on disk;
    otherwise it is a dictionary that maps a report type to the digest of
    the last report on disk of that type, and holds nothing else. *)
Theorem coverage_reports_artifacts (c : CoverageReports) :
  (TestGoalMore.artifacts c = None
   <-> Forall (fun r => get_artifact r = None) (reports c))
  /\ (Forall (fun r => get_artifact r = None) (reports c)
      <-> Forall (fun r => exists report, r = ConsoleCoverageReport report)
            (reports c))
  /\ forall a, TestGoalMore.artifacts c = Some a ->
       forall k d, a !! k = Some d <-> last_artifact (reports c) k d.
Proof.
  split; [| split].
  - unfold TestGoalMore.artifacts. destruct (decide _) as [Hempty | Hsome].
    + split; [intros _ | reflexivity].
      apply List.Forall_forall. intros r Hr.
      destruct (get_artifact r) as [[k d] |] eqn:Hart; [| reflexivity].
      apply in_split in Hr as (pre & post & Hrs). exfalso.
      assert (Hk : is_Some (artifacts_dict (reports c) !! k)).
      { clear Hempty. rewrite Hrs. clear Hrs. revert r d Hart pre.
        induction post as [| r' post IH] using rev_ind; intros r d Hart pre.
        - exists d. apply artifacts_dict_lookup. exists pre, r, []. done.
        - destruct (get_artifact r') as [[k' d'] |] eqn:Hr'.
          + destruct (decide (k' = k)) as [-> | Hne].
            * exists d'. apply artifacts_dict_lookup.
              exists (pre ++ r :: post)%list, r', [].
              rewrite <- app_assoc. done.
            * destruct (IH r d Hart pre) as [d0 Hd0]. exists d0.
              apply artifacts_dict_lookup in Hd0
                as (pre0 & r0 & post0 & Hrs & Hr0 & Hpost0).
              apply artifacts_dict_lookup.
              exists pre0, r0, (post0 ++ [r'])%list.
              split; [| split; [exact Hr0 |]].
              -- rewrite app_comm_cons, app_assoc, Hrs, <- app_assoc.
                 reflexivity.
              -- apply Forall_app. split; [exact Hpost0 |].
                 constructor; [| constructor]. intros d1. rewrite Hr'.
                 intros [= E _]. contradiction.
          + destruct (IH r d Hart pre) as [d0 Hd0]. exists d0.
            apply artifacts_dict_lookup in Hd0
              as (pre0 & r0 & post0 & Hrs & Hr0 & Hpost0).
            apply artifacts_dict_lookup.
            exists pre0, r0, (post0 ++ [r'])%list.
            split; [| split; [exact Hr0 |]].
            * rewrite app_comm_cons, app_assoc, Hrs, <- app_assoc.
              reflexivity.
            * apply Forall_app. split; [exact Hpost0 |].
              constructor; [| constructor]. intros d1. rewrite Hr'.
              discriminate. }
      rewrite Hempty, lookup_empty in Hk. destruct Hk as [? [=]].
    + split; [discriminate |]. intros Hnone. exfalso. apply Hsome.
      apply map_eq. intros k. rewrite lookup_empty.
      destruct (artifacts_dict (reports c) !! k) as [d |] eqn:Hk; [| reflexivity].
      apply artifacts_dict_lookup in Hk as (pre & r & post & Hrs & Hr & _).
      rewrite Hrs in Hnone. apply Forall_app in Hnone as [_ Hnone].
      apply Forall_cons in Hnone as [Hnone _]. congruence.
  - split; intros H; eapply Forall_impl; try exact H; cbn; intros r Hr.
    + destruct r; [eauto | discriminate].
    + destruct Hr as [report ->]. reflexivity.
  - unfold TestGoalMore.artifacts. destruct (decide _); [discriminate |].
    intros a [= <-] k d. apply artifacts_dict_lookup.
Qed.

Lemma coverage_reports_artifacts_witness :
  exists a,
    TestGoalMore.artifacts {| reports := three_reports |} = Some a
    /\ a !! "html" = Some (sample_digest "html2")
    /\ a !! "console" = None.
Proof.
  destruct (coverage_reports_artifacts {| reports := three_reports |})
    as (_ & _ & Hlookup).
  exists (artifacts_dict three_reports).
  assert (Ha : TestGoalMore.artifacts {| reports := three_reports |}
               = Some (artifacts_dict three_reports)).
  { unfold TestGoalMore.artifacts. destruct (decide _) as [He | _]; [| reflexivity].
    exfalso. change (artifacts_dict three_reports = ∅) in He.
    assert (H : (artifacts_dict three_reports) !! "html"
                = Some (sample_digest "html2")) by (vm_compute; reflexivity).
    rewrite He, lookup_empty in H. discriminate. }
  split; [exact Ha |]. split.
  - apply (Hlookup _ Ha).
    exists [ConsoleCoverageReport "TOTAL 90%";
            FilesystemCoverageReport (sample_digest "html1")
              "dist/coverage/python/htmlcov"
              (Some "dist/coverage/python/htmlcov/index.html") HTML],
      (FilesystemCoverageReport (sample_digest "html2")
         "dist/coverage/python/htmlcov" None HTML), [].
    split; [reflexivity |]. split; [reflexivity | constructor].
  - vm_compute. reflexivity.
Defined.

(** X11.  The level of a result: a result built from a process result
    and enriched is never skipped, whatever the process printed; its
    level is INFO when the process exited with 0 and WARN otherwise, and
    the summary counts it as failed exactly when its level is WARN.  A
    result built by [skip] has the level DEBUG. *)
Theorem level_of_process_result
    (process_result : FallibleProcessResult) (address : Address)
    (coverage_data : option CoverageData) (xml_results : option Digest)
    (test_subsystem : TestSubsystem) (result : TestResult.t) :
  from_fallible_process_result process_result address coverage_data xml_results
  = Ok result ->
  let enriched := enrich_test_result result test_subsystem in
  skipped enriched = false
  /\ level enriched
     = (if process_result_exit_code process_result =? 0
        then GoSdk.INFO else GoSdk.WARN)
  /\ (failed enriched = true <-> level enriched = GoSdk.WARN)
  /\ level (enrich_test_result (TestResult.skip address) test_subsystem)
     = GoSdk.DEBUG.
Proof.
  unfold from_fallible_process_result.
  destruct (decode (process_result_stdout process_result)) as [out |];
    [| discriminate].
  destruct (decode (process_result_stderr process_result)) as [err |];
    [| discriminate].
  intros [= <-]. cbn.
  unfold level, failed, skipped, enrich_test_result. cbn.
  unfold exit_code_eqb.
  destruct (process_result_exit_code process_result =? 0) eqn:Hcode; cbn; done.
Qed.

Lemma level_of_process_result_witness :
  level (enrich_test_result
           {| TestResult.exit_code := Some 0; TestResult.stdout := "";
              TestResult.stderr := ""; TestResult.address := sample_address_more;
              TestResult.coverage_data := None;
              TestResult.xml_results := None |} default_subsystem)
  = GoSdk.INFO.
Proof.
  destruct (level_of_process_result sample_process_result sample_address_more
              None None default_subsystem _ eq_refl) as (_ & Hlevel & _).
  exact Hlevel.
Defined.

End TestGoalMoreFacts.


Module GoSdkMoreFacts.
Import Engine GoSdk GoSdkMore.

(** The run of [setup_go_sdk_process] against any engine: two requests,
    then the process. *)
Lemma run_setup_go_sdk_process (S : Type) (h : handler SdkE S) (s : S)
    (request : GoSdkProcess.t) (go_sdk_run : GoSdkRunSetup.t) (bash : BashBinary)
    (golang_env_aware : EnvironmentAware) (goroot : GoRoot) :
  exists merged env_vars s',
    run h (setup_go_sdk_process request go_sdk_run bash golang_env_aware goroot) s
    = (Ok {| Process.argv :=
               bash_path bash :: path (GoSdkRunSetup.script go_sdk_run)
                 :: GoSdkProcess.command request;
             Process.env :=
               <["__PANTS_GO_SDK_CACHE_KEY" :=
                   version goroot ++ "/" ++ goos goroot ++ "/" ++ goarch goroot]>
                 ((if GoSdkProcess.replace_sandbox_root_in_args request
                   then {[ GoSdkRunSetup.SANDBOX_ROOT_ENV := "1" ]}
                   else ∅) ∪
                    <[GoSdkRunSetup.CHDIR_ENV :=
                        match GoSdkProcess.working_dir request with
                        | Some d => d
                        | None => ""
                        end]>
                      (GoSdkProcess.env request ∪ env_vars));
             Process.input_digest := merged;
             Process.description := GoSdkProcess.description request;
             Process.output_files := GoSdkProcess.output_files request;
             Process.output_directories :=
               GoSdkProcess.output_directories request;
             Process.level := DEBUG |}, s',
       [Ev (GetMergeDigests [GoSdkRunSetup.digest go_sdk_run;
                             GoSdkProcess.input_digest request]) merged;
        Ev (GetEnvironmentVars
              (env_vars_to_pass_to_subprocesses golang_env_aware)) env_vars]).
Proof.
  cbn.
  destruct (h _ (GetMergeDigests _) s) as [merged s1].
  destruct (h _ (GetEnvironmentVars _) s1) as [env_vars s2].
  exists merged, env_vars, s2. reflexivity.
Qed.

(** X12.  Downloads stay off all the way to the process: for a request
    made with [allow_downloads=False], the process that
    [setup_go_sdk_process] builds has [GOPROXY] set to [off], whatever
    the caller's environment and whatever the engine answers for the
    environment variables, [GOPROXY] included. *)
Theorem goproxy_off_reaches_the_process
    (S : Type) (h : handler SdkE S) (s : S)
    (command : list string) (description : string)
    (env : option (gmap string string)) (input_digest : Digest)
    (working_dir : option string) (output_files output_directories : list string)
    (replace_sandbox_root_in_args : bool)
    (go_sdk_run : GoSdkRunSetup.t) (bash : BashBinary)
    (golang_env_aware : EnvironmentAware) (goroot : GoRoot) :
  exists p s' tr,
    run h (setup_go_sdk_process
             (GoSdkProcess.init command description env input_digest working_dir
                output_files output_directories false
                replace_sandbox_root_in_args)
             go_sdk_run bash golang_env_aware goroot) s
    = (Ok p, s', tr)
    /\ Process.env p !! "GOPROXY" = Some "off".
Proof.
  destruct (run_setup_go_sdk_process S h s
              (GoSdkProcess.init command description env input_digest working_dir
                 output_files output_directories false
                 replace_sandbox_root_in_args)
              go_sdk_run bash golang_env_aware goroot)
    as (merged & env_vars & s' & Hrun).
  eexists _, _, _. split; [exact Hrun |]. cbn.
  rewrite lookup_insert_ne by discriminate.
  apply lookup_union_Some_raw. right. split.
  - destruct replace_sandbox_root_in_args; [| apply lookup_empty].
    rewrite lookup_insert_ne by discriminate. apply lookup_empty.
  - rewrite lookup_insert_ne by discriminate.
    apply lookup_union_Some_raw. left. apply lookup_insert_eq.
Qed.

(** X13.  The environment of the process, variable by variable: the
    cache key and the chdir variable are always the rule's own, whatever
    the request and the engine give for them; the sandbox-root variable is
    ["1"] when the request asks for the replacement, and otherwise is
    whatever the request's environment, or else the engine's answer, has
    under that name; any other variable comes from the request's
    environment, or else from the engine's answer. *)
Theorem process_env_precedence
    (S : Type) (h : handler SdkE S) (s : S)
    (request : GoSdkProcess.t) (go_sdk_run : GoSdkRunSetup.t) (bash : BashBinary)
    (golang_env_aware : EnvironmentAware) (goroot : GoRoot) :
  exists p s' merged env_vars,
    run h (setup_go_sdk_process request go_sdk_run bash golang_env_aware goroot) s
    = (Ok p, s',
       [Ev (GetMergeDigests [GoSdkRunSetup.digest go_sdk_run;
                             GoSdkProcess.input_digest request]) merged;
        Ev (GetEnvironmentVars
              (env_vars_to_pass_to_subprocesses golang_env_aware)) env_vars])
    /\ Process.env p !! "__PANTS_GO_SDK_CACHE_KEY"
       = Some (version goroot ++ "/" ++ goos goroot ++ "/" ++ goarch goroot)
    /\ Process.env p !! GoSdkRunSetup.CHDIR_ENV
       = Some (match GoSdkProcess.working_dir request with
               | Some d => d
               | None => ""
               end)
    /\ (GoSdkProcess.replace_sandbox_root_in_args request = true ->
        Process.env p !! GoSdkRunSetup.SANDBOX_ROOT_ENV = Some "1")
    /\ forall k,
         k <> "__PANTS_GO_SDK_CACHE_KEY" -> k <> GoSdkRunSetup.CHDIR_ENV ->
         (k = GoSdkRunSetup.SANDBOX_ROOT_ENV ->
          GoSdkProcess.replace_sandbox_root_in_args request = false) ->
         Process.env p !! k
         = match GoSdkProcess.env request !! k with
           | Some v => Some v
           | None => env_vars !! k
           end.
Proof.
  destruct (run_setup_go_sdk_process S h s request go_sdk_run bash
              golang_env_aware goroot) as (merged & env_vars & s' & Hrun).
  eexists _, s', merged, env_vars. split; [exact Hrun |]. cbn.
  split; [apply lookup_insert_eq |]. split; [| split].
  - rewrite lookup_insert_ne by discriminate.
    apply lookup_union_Some_raw. right. split.
    + destruct (GoSdkProcess.replace_sandbox_root_in_args request);
        [| apply lookup_empty].
      rewrite lookup_insert_ne by discriminate. apply lookup_empty.
    + apply lookup_insert_eq.
  - intros ->. rewrite lookup_insert_ne by discriminate.
    apply lookup_union_Some_raw. left. apply lookup_insert_eq.
  - intros k Hcache Hchdir Hroot.
    rewrite lookup_insert_ne by congruence.
    assert (Hflag : (if GoSdkProcess.replace_sandbox_root_in_args request
                     then {[ GoSdkRunSetup.SANDBOX_ROOT_ENV := "1" ]}
                     else ∅ : gmap string string) !! k = None).
    { destruct (GoSdkProcess.replace_sandbox_root_in_args request) eqn:Hflag;
        [| apply lookup_empty].
      apply lookup_singleton_ne.
      intros Hk. symmetry in Hk. specialize (Hroot Hk). discriminate. }
    rewrite lookup_union_r by exact Hflag.
    rewrite lookup_insert_ne by congruence.
    destruct (GoSdkProcess.env request !! k) as [v |] eqn:Hk.
    + apply lookup_union_Some_raw. left. exact Hk.
    + rewrite lookup_union_r by exact Hk. reflexivity.
Qed.

Lemma process_env_precedence_witness :
  let p := (run (leaky_engine proxy_ambient)
              (setup_go_sdk_process meddling_request sample_run_setup sample_bash
                 sample_env_aware sample_goroot) tt).1.1 in
  exists p', p = Ok p'
    /\ Process.env p' !! "__PANTS_GO_SDK_CACHE_KEY" = Some "1.19.5/linux/amd64"
    /\ Process.env p' !! "__PANTS_CHDIR_TO" = Some ""
    /\ Process.env p' !! "__PANTS_REPLACE_SANDBOX_ROOT" = Some "yes"
    /\ Process.env p' !! "GOPROXY" = Some "off".
Proof.
  intros p.
  destruct (process_env_precedence unit (leaky_engine proxy_ambient) tt
              meddling_request sample_run_setup sample_bash sample_env_aware
              sample_goroot)
    as (p' & s' & merged & env_vars & Hrun & Hcache & Hchdir & _ & Hother).
  exists p'. subst p. rewrite Hrun. split; [reflexivity |].
  split; [exact Hcache |]. split; [exact Hchdir |]. split.
  - rewrite Hother by (try discriminate; reflexivity). reflexivity.
  - rewrite Hother by discriminate. reflexivity.
Defined.


Lemma goproxy_off_reaches_the_process_witness :
  exists p,
    (run (leaky_engine proxy_ambient)
       (setup_go_sdk_process meddling_request sample_run_setup sample_bash
          sample_env_aware sample_goroot) tt).1.1 = Ok p
    /\ Process.env p !! "GOPROXY" = Some "off".
Proof.
  destruct (goproxy_off_reaches_the_process unit (leaky_engine proxy_ambient) tt
              ["build"] "Build"
              (Some {[ "__PANTS_CHDIR_TO" := "/etc";
                       "__PANTS_GO_SDK_CACHE_KEY" := "stale";
                       "__PANTS_REPLACE_SANDBOX_ROOT" := "yes";
                       "GOPROXY" := "direct" ]})
              EMPTY_DIGEST None [] [] false sample_run_setup sample_bash
              sample_env_aware sample_goroot) as (p & s' & tr & Hrun & Hproxy).
  exists p. split; [| exact Hproxy].
  change (setup_go_sdk_process meddling_request sample_run_setup sample_bash
            sample_env_aware sample_goroot)
    with (setup_go_sdk_process
            (GoSdkProcess.init ["build"] "Build"
               (Some {[ "__PANTS_CHDIR_TO" := "/etc";
                        "__PANTS_GO_SDK_CACHE_KEY" := "stale";
                        "__PANTS_REPLACE_SANDBOX_ROOT" := "yes";
                        "GOPROXY" := "direct" ]})
               EMPTY_DIGEST None [] [] false false)
            sample_run_setup sample_bash sample_env_aware sample_goroot).
  rewrite Hrun. reflexivity.
Defined.

End GoSdkMoreFacts.


Module PyTextFacts.
Import PyText PathFacts.

Lemma is_space_nonempty (w : string) : is_space w = true -> w <> "".
Proof. intros Hw ->. discriminate Hw. Qed.

Lemma spaces_app (s1 s2 : string) : spaces s1 -> spaces s2 -> spaces (s1 ++ s2).
Proof.
  induction 1 as [| w s Hw _ IH]; intros H2; [exact H2 |].
  rewrite append_assoc. constructor; auto.
Qed.

Lemma spaces_one (w : string) : is_space w = true -> spaces w.
Proof.
  intros Hw. rewrite <- (append_nil_r w). constructor; [exact Hw | constructor].
Qed.

(** [lstrip] removes a run of whitespace from the start. *)
Lemma lstrip_spec (s : string) : exists l, s = l ++ lstrip s /\ spaces l.
Proof.
  remember (String.length s) as n eqn:Hn. revert s Hn.
  induction n as [n IH] using lt_wf_ind. intros s Hn.
  destruct s as [| a s1]; [exists ""; split; [reflexivity | constructor] |].
  cbn [lstrip]. destruct (ws1 a) eqn:H1.
  { destruct (IH (String.length s1)) with (s := s1) as (l & Hl & Hs);
      [subst n; cbn; lia | reflexivity |].
    exists (String a "" ++ l). split.
    - rewrite append_cons, append_nil_l, append_cons, <- Hl. reflexivity.
    - constructor; assumption. }
  destruct s1 as [| b s2]; [exists ""; split; [reflexivity | constructor] |].
  destruct (ws2 a b) eqn:H2.
  { destruct (IH (String.length s2)) with (s := s2) as (l & Hl & Hs);
      [subst n; cbn; lia | reflexivity |].
    exists (String a (String b "") ++ l). split.
    - rewrite !append_cons, append_nil_l, <- Hl. reflexivity.
    - constructor; assumption. }
  destruct s2 as [| c s3]; [exists ""; split; [reflexivity | constructor] |].
  destruct (ws3 a b c) eqn:H3; [| exists ""; split; [reflexivity | constructor]].
  destruct (IH (String.length s3)) with (s := s3) as (l & Hl & Hs);
    [subst n; cbn; lia | reflexivity |].
  exists (String a (String b (String c "")) ++ l). split.
  - rewrite !append_cons, append_nil_l, <- Hl. reflexivity.
  - constructor; assumption.
Qed.

(** What [lstrip] leaves does not start with whitespace. *)
Lemma lstrip_no_leading (s : string) : no_leading_space (lstrip s).
Proof.
  remember (String.length s) as n eqn:Hn. revert s Hn.
  induction n as [n IH] using lt_wf_ind. intros s Hn.
  destruct s as [| a s1].
  { intros w rest Hw Heq. destruct w; [discriminate Hw | discriminate Heq]. }
  cbn [lstrip]. destruct (ws1 a) eqn:H1.
  { apply (IH (String.length s1)); [subst n; cbn; lia | reflexivity]. }
  destruct s1 as [| b s2].
  { intros [| a' [| b' w]] rest Hw Heq; try discriminate Hw.
    - rewrite append_cons in Heq. injection Heq as <- _. cbn in Hw. congruence.
    - rewrite !append_cons in Heq. discriminate Heq. }
  destruct (ws2 a b) eqn:H2.
  { apply (IH (String.length s2)); [subst n; cbn; lia | reflexivity]. }
  destruct s2 as [| c s3].
  { intros [| a' [| b' [| c' w]]] rest Hw Heq; try discriminate Hw.
    - rewrite append_cons in Heq. injection Heq as <- _. cbn in Hw. congruence.
    - rewrite !append_cons in Heq. injection Heq as <- <- _. cbn in Hw.
      congruence.
    - rewrite !append_cons in Heq. discriminate Heq. }
  destruct (ws3 a b c) eqn:H3.
  { apply (IH (String.length s3)); [subst n; cbn; lia | reflexivity]. }
  intros [| a' [| b' [| c' [| d' w]]]] rest Hw Heq; try discriminate Hw.
  - rewrite append_cons in Heq. injection Heq as <- _. cbn in Hw. congruence.
  - rewrite !append_cons in Heq. injection Heq as <- <- _. cbn in Hw. congruence.
  - rewrite !append_cons in Heq. injection Heq as <- <- <- _.
    unfold is_space in Hw. congruence.
Qed.

(** [rstrip] removes a run of whitespace from the end. *)
Lemma rstrip_spec (s : string) : exists r, s = rstrip s ++ r /\ spaces r.
Proof.
  induction s as [| a s1 (r & Hr & Hs)]; [exists ""; split; [reflexivity | constructor] |].
  cbn [rstrip]. destruct (is_space (String a (rstrip s1))) eqn:Hw.
  - exists (String a (rstrip s1) ++ r). split.
    + rewrite append_nil_l, append_cons, <- Hr. reflexivity.
    + constructor; assumption.
  - exists r. split; [| exact Hs]. rewrite append_cons, <- Hr. reflexivity.
Qed.

(** What [rstrip] leaves does not end with whitespace. *)
Lemma rstrip_no_trailing (s : string) : no_trailing_space (rstrip s).
Proof.
  induction s as [| a s1 IH]; intros w before Hw Heq.
  - cbn in Heq. destruct before; [| discriminate Heq].
    rewrite append_nil_l in Heq. subst w. discriminate Hw.
  - cbn [rstrip] in Heq. destruct (is_space (String a (rstrip s1))) eqn:Hr.
    + destruct before; [| discriminate Heq].
      rewrite append_nil_l in Heq. subst w. discriminate Hw.
    + destruct before as [| a' before].
      * rewrite append_nil_l in Heq. subst w. congruence.
      * rewrite append_cons in Heq. injection Heq as _ Heq.
        exact (IH w before Hw Heq).
Qed.

(** [strip] removes a run of whitespace from each end and leaves a text
    with no whitespace at either end. *)
Lemma strip_spec (s : string) :
  exists l r,
    s = l ++ strip s ++ r /\ spaces l /\ spaces r
    /\ no_leading_space (strip s) /\ no_trailing_space (strip s).
Proof.
  destruct (rstrip_spec s) as (r & Hr & Hsr).
  destruct (lstrip_spec (rstrip s)) as (l & Hl & Hsl).
  exists l, r. unfold strip. split; [| split; [exact Hsl | split; [exact Hsr |]]].
  - rewrite <- append_assoc, <- Hl. exact Hr.
  - split; [apply lstrip_no_leading |].
    intros w before Hw Heq.
    apply (rstrip_no_trailing s w (l ++ before) Hw).
    rewrite append_assoc, <- Heq. exact Hl.
Qed.

End PyTextFacts.

Module GoToolFacts.
Import Engine GoSdk GoSdkMore PyText PyTextFacts.

(** X14.  [compute_go_tool_id]: the rule asks once for the result of
    [go tool <name> -V=full], as a [GoSdkProcess] with every default, so
    with downloads off; it raises [UnicodeDecodeError] when the output is
    not UTF-8, and otherwise returns the name it was given with the output
    stripped: the output is a run of whitespace, the tool id, and a run of
    whitespace, and the tool id neither starts nor ends with whitespace. *)
Theorem compute_go_tool_id_strips_the_output
    (S : Type) (h : handler ToolE S) (s : S) (request : GoSdkToolIDRequest) :
  exists process result s' o,
    run h (compute_go_tool_id request) s
    = (o, s', [Ev (GetProcessResult process) result])
    /\ GoSdkProcess.command process
       = ["tool"; request_tool_name request; "-V=full"]
    /\ GoSdkProcess.env process = {[ "GOPROXY" := "off" ]}
    /\ GoSdkProcess.input_digest process = EMPTY_DIGEST
    /\ GoSdkProcess.working_dir process = None
    /\ (TestGoalMore.utf8_valid (stdout result) = false ->
        o = Err (TestGoalMore.UnicodeDecodeError (stdout result)))
    /\ (TestGoalMore.utf8_valid (stdout result) = true ->
        exists id lead trail,
          o = Ok {| tool_name := request_tool_name request; tool_id := id |}
          /\ stdout result = lead ++ id ++ trail
          /\ spaces lead /\ spaces trail
          /\ no_leading_space id /\ no_trailing_space id).
Proof.
  unfold compute_go_tool_id. cbn [bind trigger run].
  destruct (h _ (GetProcessResult _) s) as [result s1]. cbn [bind].
  unfold TestGoalMore.decode.
  destruct (TestGoalMore.utf8_valid (stdout result)) eqn:Hvalid; cbn [run];
    eexists _, result, s1, _; (split; [reflexivity |]); rewrite Hvalid.
  - do 4 (split; [reflexivity |]).
    split; [intros Hfalse; discriminate Hfalse |]. intros _.
    destruct (strip_spec (stdout result)) as (l & r & Hs & Hl & Hr & Hlead & Htrail).
    exists (strip (stdout result)), l, r. done.
  - do 4 (split; [reflexivity |]).
    split; [intros _; reflexivity | intros Hfalse; discriminate Hfalse].
Qed.

Lemma compute_go_tool_id_strips_the_output_witness :
  (run tool_engine (compute_go_tool_id {| request_tool_name := "compile" |}) tt).1.1
  = Ok {| tool_name := "compile"; tool_id := "compile version go1.19.5" |}.
Proof.
  destruct (compute_go_tool_id_strips_the_output unit tool_engine tt
              {| request_tool_name := "compile" |})
    as (process & result & s' & o & Hrun & _).
  rewrite Hrun. vm_compute in Hrun. injection Hrun as <- _ _. reflexivity.
Defined.

End GoToolFacts.


Module AwsLambdaMoreFacts.
Import Engine EngineFacts AwsLambda AwsLambdaMore PathFacts.

(** [partition] at the first colon: the text before has no colon, and
    the three parts make up the string; without a colon the string is the
    first part and the others are empty. *)
Lemma partition_spec (v : string) :
  if contains ":" v
  then exists before after,
         PyStr.partition ":" v = (before, ":", after)
         /\ v = before ++ ":" ++ after /\ contains ":" before = false
  else PyStr.partition ":" v = (v, "", "").
Proof.
  induction v as [| a v IH]; cbn [contains PyStr.partition]; [reflexivity |].
  destruct (Ascii.eqb_spec a ":") as [-> | Hne]; cbn [orb].
  - exists "", v. done.
  - destruct (contains ":" v).
    + destruct IH as (before & after & -> & -> & Hbefore).
      exists (String a before), after. split; [reflexivity |].
      split; [reflexivity |]. cbn [contains].
      destruct (Ascii.eqb_spec a ":"); [contradiction | exact Hbefore].
    + rewrite IH. reflexivity.
Qed.

Lemma partition_app (before after : string) :
  contains ":" before = false ->
  PyStr.partition ":" (before ++ ":" ++ after) = (before, ":", after).
Proof.
  induction before as [| a before IH]; cbn [contains]; [reflexivity |].
  intros H. apply orb_false_iff in H as [Ha Hbefore].
  rewrite append_cons. cbn [PyStr.partition]. rewrite Ha, (IH Hbefore).
  reflexivity.
Qed.

(** X15.  The file specification of the handler field is the glob that
    the rule resolves: the field claims no file exactly when the rule
    returns the value as a module without asking the engine, and otherwise
    it claims the one glob whose paths the rule asks for. *)
Theorem filespec_is_the_glob_resolved (SourceRootRequest : Type)
    (for_file : string -> SourceRootRequest + string) (cwd : string)
    (request : ResolvePythonAwsHandlerRequest) :
  match includes (filespec (field request)) with
  | [] =>
      resolve_python_aws_handler for_file cwd request
      = Ret {| val := PythonAwsLambdaHandlerField.value (field request);
               file_name_used := false |}
  | full_globs =>
      exists k,
        resolve_python_aws_handler for_file cwd request
        = Vis (GetPaths
                 {| globs := full_globs;
                    glob_match_error_behavior := GlobMatchErrorBehavior.error;
                    description_of_origin :=
                      spec (PythonAwsLambdaHandlerField.address (field request))
                        ++ "'s `" ++ PythonAwsLambdaHandlerField.alias
                        ++ "` field" |}) k
  end.
Proof.
  unfold filespec, resolve_python_aws_handler.
  destruct (PyStr.partition ":" _) as [[path_ found] func].
  destruct (PyStr.endswith path_ ".py"); cbn [negb includes]; [| reflexivity].
  eexists. reflexivity.
Qed.

Lemma filespec_is_the_glob_resolved_witness :
  includes (filespec (field sample_file_request))
  = ["src/python/project/lambda.py"]
  /\ includes (filespec (field sample_module_request)) = []
  /\ resolve_python_aws_handler sample_for_file "/build" sample_module_request
     = Ret {| val := "project.lambda:handler_func"; file_name_used := false |}.
Proof.
  split; [reflexivity |]. split; [reflexivity |].
  exact (filespec_is_the_glob_resolved string sample_for_file "/build"
           sample_module_request).
Defined.

(** X16.  The function name of a handler survives the resolution: for
    a value that the field accepts (one with a colon), a resolution that
    returns gives a module, a colon and the text after the first colon of
    the value; [file_name_used] tells whether the text before it ends in
    [.py]; for a module the value is returned as it is and nothing is
    asked of the engine; and a later [partition] at the first colon gives
    the module and the function name back, as long as the module has no
    colon. *)
Theorem resolved_handler_keeps_the_function
    (SourceRootRequest : Type) (for_file : string -> SourceRootRequest + string)
    (S : Type) (h : handler (HandlerE SourceRootRequest) S) (s : S)
    (cwd : string) (value : string) (address : Address)
    (r : ResolvedPythonAwsHandler) (s' : S)
    (tr : list (event (HandlerE SourceRootRequest))) :
  compute_value value address = Ok value ->
  run h (resolve_python_aws_handler for_file cwd
           {| field := {| PythonAwsLambdaHandlerField.value := value;
                          PythonAwsLambdaHandlerField.address := address |} |}) s
  = (Ok r, s', tr) ->
  exists path_ func module,
    PyStr.partition ":" value = (path_, ":", func)
    /\ val r = module ++ ":" ++ func
    /\ file_name_used r = PyStr.endswith path_ ".py"
    /\ (file_name_used r = false -> module = path_ /\ val r = value /\ tr = [])
    /\ (contains ":" module = false ->
        PyStr.partition ":" (val r) = (module, ":", func)).
Proof.
  unfold compute_value. intros Hvalue.
  pose proof (partition_spec value) as Hpart.
  destruct (contains ":" value); [| discriminate Hvalue].
  destruct Hpart as (path_ & func & Hpart & Hv & Hpath).
  unfold resolve_python_aws_handler. cbn [field PythonAwsLambdaHandlerField.value
    PythonAwsLambdaHandlerField.address]. rewrite Hpart.
  destruct (PyStr.endswith path_ ".py") eqn:Hpy; cbn [negb].
  - rewrite run_bind, run_trigger.
    match goal with
    | |- context [files ?hp] => destruct (files hp) as [| f [| f' fs]]
    end; cbn [run]; try discriminate.
    destruct (for_file f) as [source_root_request | message]; cbn [run];
      [| discriminate].
    rewrite run_bind, run_trigger.
    match goal with
    | |- context [PosixPath.relpath ?c ?p ?st] =>
        destruct (PosixPath.relpath c p st) as [stripped |]
    end; cbn [run]; [| discriminate].
    destruct (PosixPath.splitext stripped) as [module_base ext]. cbn [run].
    intros [= <- <- <-].
    exists path_, func, (PyStr.replace PosixPath.sep "." module_base).
    cbn [val file_name_used]. rewrite Hpy.
    split; [reflexivity |]. split; [reflexivity |]. split; [reflexivity |].
    split; [discriminate |]. intros Hmodule. apply partition_app. exact Hmodule.
  - cbn [run]. intros [= <- <- <-]. exists path_, func, path_.
    cbn [val file_name_used]. rewrite Hpy.
    split; [reflexivity |]. split; [exact Hv |]. split; [reflexivity |].
    split; [done |]. intros _. rewrite Hv. apply partition_app. exact Hpath.
Qed.

Lemma resolved_handler_keeps_the_function_witness :
  let w := run sample_engine
             (resolve_python_aws_handler sample_for_file "/build"
                sample_file_request) tt in
  exists r path_ func module,
    w.1.1 = Ok r
    /\ PyStr.partition ":" "lambda.py:handler_func" = (path_, ":", func)
    /\ val r = module ++ ":" ++ func
    /\ file_name_used r = PyStr.endswith path_ ".py".
Proof.
  intros w.
  destruct (resolved_handler_keeps_the_function string sample_for_file unit
              sample_engine tt "/build"
              "lambda.py:handler_func" sample_address
              {| val := "project.lambda:handler_func"; file_name_used := true |}
              w.1.2 w.2 eq_refl)
    as (path_ & func & module & Hpart & Hval & Hused & _).
  - vm_compute. reflexivity.
  - exists {| val := "project.lambda:handler_func"; file_name_used := true |},
      path_, func, module.
    split; [vm_compute; reflexivity |]. done.
Defined.


(** X17.  The inference of the dependency on the handler: with
    [entry_points] off the rule returns no dependency and asks nothing;
    otherwise it asks once for the explicitly provided dependencies and
    once for the resolved handler of the field, asks for the source root
    of the target only under the resolution [by_source_root], whose path
    is then the locality, asks for the owners of the module that stands
    before the first colon of the resolved handler, passes the ambiguous
    owners to the warning with [owners_must_be_ancestors] set exactly when
    the handler was given as a file, and returns the unambiguous owners
    when there are any, and otherwise the one owner left by the
    disambiguation, if there is one. *)
Theorem infer_lambda_handler_dependency_requests
    (Dependencies PythonResolveField PythonSetup : Type)
    (normalized_value : PythonResolveField -> PythonSetup -> string)
    (S : Type) (h : handler (InferE (Dependencies := Dependencies)) S) (s : S)
    (request : InferPythonLambdaHandlerDependency
                 (PythonResolveField := PythonResolveField))
    (python_infer_subsystem : PythonInferSubsystem) (python_setup : PythonSetup)
    (o : outcome Empty_set (list Address)) (s' : S)
    (tr : list (event InferE)) :
  run h (infer_lambda_handler_dependency normalized_value request
           python_infer_subsystem python_setup) s = (o, s', tr) ->
  (entry_points python_infer_subsystem = false -> o = Ok [] /\ tr = [])
  /\ (entry_points python_infer_subsystem = true ->
      exists deps handler owners,
        provided_dependencies tr = [deps]
        /\ resolved_handlers tr
           = [({| field := fs_handler (field_set request) |}, handler)]
        /\ (ambiguity_resolution python_infer_subsystem
            = AmbiguityResolution.other -> source_root_requests tr = [])
        /\ (ambiguity_resolution python_infer_subsystem
            = AmbiguityResolution.by_source_root ->
            exists root,
              source_root_requests tr
              = [(fs_address (field_set request), root)])
        /\ owner_requests tr
           = [({| module_ := (PyStr.partition ":" (val handler)).1.1;
                  resolve := normalized_value (fs_resolve (field_set request))
                               python_setup;
                  locality := match source_root_requests tr with
                              | [] => None
                              | (_, root) :: _ => Some (path root)
                              end |}, owners)]
        /\ warnings tr
           = [{| warned_ambiguous := ambiguous owners;
                 warned_address := fs_address (field_set request);
                 owners_must_be_ancestors := file_name_used handler;
                 import_reference := "module";
                 context_handler :=
                   PythonAwsLambdaHandlerField.value
                     (fs_handler (field_set request));
                 context_module := (PyStr.partition ":" (val handler)).1.1 |}]
        /\ (unambiguous owners <> [] -> o = Ok (unambiguous owners))
        /\ (unambiguous owners = [] ->
            o = Ok (tuple_of_option
                      (disambiguated deps (ambiguous owners)
                         (file_name_used handler))))).
Proof.
  unfold infer_lambda_handler_dependency.
  destruct (entry_points python_infer_subsystem); cbn [negb];
    [| cbn; intros [= <- <- <-]; split; [done | discriminate]].
  rewrite run_bind, run_trigger.
  destruct (h _ (GetExplicitlyProvidedDependencies _) s) as [deps s1].
  cbn [fst snd]. rewrite run_bind, run_trigger.
  destruct (h _ (GetResolvedPythonAwsHandler _) s1) as [handler s2].
  cbn [fst snd].
  destruct (PyStr.partition ":" (val handler)) as [[module found] func] eqn:Hpart.
  rewrite run_bind.
  destruct (ambiguity_resolution python_infer_subsystem).
  - rewrite run_bind, run_trigger.
    destruct (h _ (GetSourceRootForAddress _) s2) as [root s3].
    cbn [fst snd run]. rewrite run_bind, run_trigger.
    destruct (h _ (GetPythonModuleOwners _) s3) as [owners s4].
    cbn [fst snd]. rewrite run_bind, run_trigger.
    destruct (h _ (MaybeWarnOfAmbiguousDependencyInference _) s4) as [[] s5].
    cbn [fst snd run app]. intros [= <- <- <-].
    split; [discriminate |]. intros _. exists deps, handler, owners.
    cbn. rewrite Hpart. cbn [fst]. split; [reflexivity |]. split; [reflexivity |].
    split; [discriminate |]. split; [eauto |].
    split; [reflexivity |]. split; [reflexivity |].
    destruct (unambiguous owners); split; try done;
      destruct (disambiguated _ _ _); reflexivity.
  - cbn [run]. rewrite run_bind, run_trigger.
    destruct (h _ (GetPythonModuleOwners _) s2) as [owners s4].
    cbn [fst snd]. rewrite run_bind, run_trigger.
    destruct (h _ (MaybeWarnOfAmbiguousDependencyInference _) s4) as [[] s5].
    cbn [fst snd run app]. intros [= <- <- <-].
    split; [discriminate |]. intros _. exists deps, handler, owners.
    cbn. rewrite Hpart. cbn [fst]. split; [reflexivity |]. split; [reflexivity |].
    split; [reflexivity |]. split; [discriminate |].
    split; [reflexivity |]. split; [reflexivity |].
    destruct (unambiguous owners); split; try done;
      destruct (disambiguated _ _ _); reflexivity.
Qed.

Lemma infer_lambda_handler_dependency_requests_witness :
  let w := run (inference_engine "/build")
             (infer_lambda_handler_dependency sample_normalized_value
                {| field_set := sample_field_set |} sample_subsystem tt) tt in
  w.1.1 = Ok [sample_address]
  /\ map (fun x => module_ x.1) (owner_requests w.2) = ["project.lambda"].
Proof.
  intros w.
  destruct (infer_lambda_handler_dependency_requests unit string unit
              sample_normalized_value unit (inference_engine "/build") tt
              {| field_set := sample_field_set |} sample_subsystem tt
              w.1.1 w.1.2 w.2 eq_refl) as [_ Hon].
  destruct (Hon eq_refl)
    as (deps & handler & owners & _ & Hres & _ & _ & Howners & _ & _ & _).
  split; [vm_compute; reflexivity |].
  vm_compute in Hres. injection Hres as <-.
  rewrite Howners. vm_compute. reflexivity.
Defined.


(** With [entry_points] on, the module whose owners are asked for is
    what stands before the first colon of the resolved handler. *)
Lemma infer_asks_for_the_module
    (Dependencies PythonResolveField PythonSetup : Type)
    (normalized_value : PythonResolveField -> PythonSetup -> string)
    (S : Type) (h : handler (InferE (Dependencies := Dependencies)) S) (s : S)
    (request : InferPythonLambdaHandlerDependency
                 (PythonResolveField := PythonResolveField))
    (python_infer_subsystem : PythonInferSubsystem) (python_setup : PythonSetup)
    (o : outcome Empty_set (list Address)) (s' : S)
    (tr : list (event InferE)) :
  entry_points python_infer_subsystem = true ->
  run h (infer_lambda_handler_dependency normalized_value request
           python_infer_subsystem python_setup) s = (o, s', tr) ->
  exists handler,
    map snd (resolved_handlers tr) = [handler]
    /\ map (fun x => module_ x.1) (owner_requests tr)
       = [(PyStr.partition ":" (val handler)).1.1]
    /\ map owners_must_be_ancestors (warnings tr) = [file_name_used handler].
Proof.
  intros Hon. unfold infer_lambda_handler_dependency. rewrite Hon. cbn [negb].
  rewrite run_bind, run_trigger.
  destruct (h _ (GetExplicitlyProvidedDependencies _) s) as [deps s1].
  cbn [fst snd]. rewrite run_bind, run_trigger.
  destruct (h _ (GetResolvedPythonAwsHandler _) s1) as [handler s2].
  cbn [fst snd].
  destruct (PyStr.partition ":" (val handler)) as [[module found] func] eqn:Hpart.
  rewrite run_bind.
  destruct (ambiguity_resolution python_infer_subsystem).
  - rewrite run_bind, run_trigger.
    destruct (h _ (GetSourceRootForAddress _) s2) as [root s3].
    cbn [fst snd run]. rewrite run_bind, run_trigger.
    destruct (h _ (GetPythonModuleOwners _) s3) as [owners s4].
    cbn [fst snd]. rewrite run_bind, run_trigger.
    destruct (h _ (MaybeWarnOfAmbiguousDependencyInference _) s4) as [[] s5].
    cbn [fst snd run app]. intros [= <- <- <-].
    exists handler. cbn. rewrite Hpart. done.
  - cbn [run]. rewrite run_bind, run_trigger.
    destruct (h _ (GetPythonModuleOwners _) s2) as [owners s4].
    cbn [fst snd]. rewrite run_bind, run_trigger.
    destruct (h _ (MaybeWarnOfAmbiguousDependencyInference _) s4) as [[] s5].
    cbn [fst snd run app]. intros [= <- <- <-].
    exists handler. cbn. rewrite Hpart. done.
Qed.

(** What stands before the first colon of a text that is followed by a
    colon and more is what stands before the first colon of the text. *)
Lemma partition_app_first (m rest : string) :
  (PyStr.partition ":" (m ++ ":" ++ rest)).1.1 = (PyStr.partition ":" m).1.1.
Proof.
  induction m as [| a m IH]; [reflexivity |].
  rewrite append_cons. cbn [PyStr.partition].
  destruct (Ascii.eqb a ":"); [reflexivity |].
  destruct (PyStr.partition ":" (m ++ ":" ++ rest)) as [[before1 found1] after1].
  destruct (PyStr.partition ":" m) as [[before2 found2] after2].
  cbn [fst] in IH |- *. rewrite IH. reflexivity.
Qed.

Lemma partition_no_colon (m : string) :
  contains ":" m = false -> (PyStr.partition ":" m).1.1 = m.
Proof.
  intros Hm. pose proof (partition_spec m) as Hp. rewrite Hm in Hp.
  rewrite Hp. reflexivity.
Qed.

(** X18.  From the handler field to the module whose owners are asked
    for: when the handler names a file, the engine resolves it with
    [resolve_python_aws_handler], and the glob matches one file under the
    source root (the working directory, the source root and the file being
    given by plain names), [infer_lambda_handler_dependency] asks for the
    owners of what stands before the first colon of the dotted path of the
    file from the source root, without its extension, and requires the
    owners to be ancestors.  That is the dotted path itself when it has no
    colon; a name with a colon in the path cuts the module short. *)
Theorem inferred_module_is_the_dotted_path
    (Dependencies PythonResolveField PythonSetup : Type)
    (normalized_value : PythonResolveField -> PythonSetup -> string)
    (S : Type) (h : handler (InferE (Dependencies := Dependencies)) S) (s : S)
    (request : InferPythonLambdaHandlerDependency
                 (PythonResolveField := PythonResolveField))
    (python_infer_subsystem : PythonInferSubsystem) (python_setup : PythonSetup)
    (o : outcome Empty_set (list Address)) (s' : S) (tr : list (event InferE))
    (SourceRootRequest : Type) (for_file : string -> SourceRootRequest + string)
    (T : Type) (g : handler (HandlerE SourceRootRequest) T) (t t' : T)
    (trg : list (event (HandlerE SourceRootRequest))) (cwd : string)
    (cs rs fs : list string) (resolved : ResolvedPythonAwsHandler) :
  entry_points python_infer_subsystem = true ->
  run h (infer_lambda_handler_dependency normalized_value request
           python_infer_subsystem python_setup) s = (o, s', tr) ->
  map snd (resolved_handlers tr) = [resolved] ->
  run g (resolve_python_aws_handler for_file cwd
           {| field := fs_handler (field_set request) |}) t
  = (Ok resolved, t', trg) ->
  PyStr.endswith
    (PyStr.partition ":"
       (PythonAwsLambdaHandlerField.value (fs_handler (field_set request)))).1.1
    ".py" = true ->
  found_files trg = [[PyStr.join "/" (rs ++ fs)]] ->
  source_roots trg = [PyStr.join "/" rs] ->
  cwd = String PosixPath.sep (PyStr.join "/" cs) ->
  cs <> [] -> rs <> [] -> fs <> [] ->
  Forall PosixPath.plain cs -> Forall PosixPath.plain rs ->
  Forall PosixPath.plain fs ->
  let dotted :=
    PyStr.replace "/" "." (PosixPath.splitext (PyStr.join "/" fs)).1 in
  map (fun x => module_ x.1) (owner_requests tr)
  = [(PyStr.partition ":" dotted).1.1]
  /\ (contains ":" dotted = false ->
      map (fun x => module_ x.1) (owner_requests tr) = [dotted])
  /\ map owners_must_be_ancestors (warnings tr) = [true].
Proof.
  intros Hon Hrun Hres Hg Hpy Hfound Hroots -> Hcs Hrs Hfs Hallc Hallr Hallf
    dotted.
  unfold resolve_python_aws_handler in Hg. cbn [field] in Hg.
  destruct (PyStr.partition ":" _) as [[path_ found] func]. cbn [fst] in Hpy.
  rewrite Hpy in Hg. cbn [negb] in Hg. rewrite run_bind, run_trigger in Hg.
  destruct (g _ (GetPaths _) t) as [paths t1]. cbn [fst snd] in Hg.
  destruct (files paths) as [| f [| f' l]] eqn:Hfiles; cbn [run] in Hg;
    try discriminate Hg.
  destruct (for_file f) as [source_root_request | message]; cbn [run] in Hg;
    [| discriminate Hg].
  rewrite run_bind, run_trigger in Hg.
  destruct (g _ (GetSourceRoot _) t1) as [root t2]. cbn [fst snd] in Hg.
  destruct (PosixPath.relpath _ f (path root)) as [stripped |] eqn:Hrel;
    cbn [run] in Hg; [| discriminate Hg].
  destruct (PosixPath.splitext stripped) as [module_base ext] eqn:Hext.
  cbn [run app] in Hg. injection Hg as <- _ <-.
  cbn in Hfound, Hroots. rewrite Hfiles in Hfound.
  injection Hfound as ->. injection Hroots as Hroot. rewrite Hroot in Hrel.
  rewrite relpath_under in Hrel by assumption. injection Hrel as <-.
  subst dotted. rewrite Hext. cbn [fst].
  destruct (infer_asks_for_the_module _ _ _ _ _ _ _ _ _ _ _ _ _ Hon Hrun)
    as (handler & Hhandlers & Howners & Hwarn).
  rewrite Hhandlers in Hres. injection Hres as ->.
  rewrite Howners, Hwarn. cbn [val file_name_used].
  rewrite partition_app_first. split; [reflexivity |].
  split; [| reflexivity].
  intros Hmodule. f_equal. exact (partition_no_colon _ Hmodule).
Qed.

Lemma inferred_module_is_the_dotted_path_witness :
  let w := run (inference_engine "/build")
             (infer_lambda_handler_dependency sample_normalized_value
                {| field_set := sample_field_set |} sample_subsystem tt) tt in
  map (fun x => module_ x.1) (owner_requests w.2) = ["project.lambda"]
  /\ map owners_must_be_ancestors (warnings w.2) = [true].
Proof.
  intros w.
  set (wg := run sample_engine
               (resolve_python_aws_handler sample_for_file "/build"
                  {| field := fs_handler sample_field_set |}) tt).
  destruct (inferred_module_is_the_dotted_path unit string unit
              sample_normalized_value unit (inference_engine "/build") tt
              {| field_set := sample_field_set |} sample_subsystem tt
              w.1.1 w.1.2 w.2 string sample_for_file unit sample_engine tt
              wg.1.2 wg.2 "/build"
              ["build"] ["src"; "python"] ["project"; "lambda.py"]
              {| val := "project.lambda:handler_func"; file_name_used := true |})
    as (_ & Hmodule & Hancestors);
    try discriminate; try (vm_compute; reflexivity);
    repeat (constructor; [apply AwsLambdaFacts.plain_name; reflexivity |]);
    try constructor.
  - apply Hmodule. reflexivity.
  - exact Hancestors.
Defined.

(** A file whose name has a colon: the owners are asked for the module
    cut at the colon, not for the dotted path of the file. *)
Example inferred_module_cut_at_colon :
  let engine : handler (HandlerE string) unit :=
    fun X e s =>
      match e in HandlerE _ X return X * unit with
      | GetPaths req => ({| files := ["src/python/project/x:y.py"]; dirs := [] |}, s)
      | GetSourceRoot _ => ({| path := "src/python" |}, s)
      end in
  let request :=
    {| field := {| PythonAwsLambdaHandlerField.value := "*.py:f";
                   PythonAwsLambdaHandlerField.address := sample_address |} |} in
  (run engine (resolve_python_aws_handler sample_for_file "/build" request)
     tt).1.1
  = Ok {| val := "project.x:y:f"; file_name_used := true |}
  /\ (PyStr.partition ":" "project.x:y:f").1.1 = "project.x".
Proof. vm_compute. split; reflexivity. Qed.

Section RuntimeMore.
Variable decimal : char -> option Z.
Variable max_str_digits : nat.
Local Open Scope list_scope.

Lemma strip_prefix_app_r (p s r w : str) :
  strip_prefix p s = Some r -> strip_prefix p (s ++ w) = Some (r ++ w).
Proof.
  revert s. induction p as [| a p IH]; intros s; cbn.
  - intros [= ->]. reflexivity.
  - destruct s as [| b s]; [discriminate |]. cbn.
    destruct (N.eqb a b); [apply IH | discriminate].
Qed.

(** The run of digits of a text with more text at its end: the run goes
    on into the text added only when nothing stood after it. *)
Lemma digits_prefix_app (s ds rest w : str) :
  digits_prefix decimal s = (ds, rest) ->
  digits_prefix decimal (s ++ w)
  = match rest with
    | [] => ((ds ++ (digits_prefix decimal w).1), (digits_prefix decimal w).2)
    | _ => (ds, rest ++ w)
    end.
Proof.
  revert ds rest. induction s as [| c s IH]; intros ds rest; cbn.
  - intros [= <- <-]. destruct (digits_prefix decimal w). reflexivity.
  - destruct (is_digit decimal c).
    + destruct (digits_prefix decimal s) as [ds' rest'].
      intros [= <- <-]. rewrite (IH _ _ eq_refl).
      destruct rest'; reflexivity.
    + intros [= <- <-]. reflexivity.
Qed.

Lemma int_digits_app (a b : str) (acc : Z) :
  int_digits decimal (a ++ b) acc
  = match int_digits decimal a acc with
    | Some n => int_digits decimal b n
    | None => None
    end.
Proof.
  revert acc. induction a as [| c a IH]; intros acc; cbn; [reflexivity |].
  destruct (decimal c); [apply IH | reflexivity].
Qed.

Lemma int_digits_ge (ds : str) (acc n : Z) :
  (forall c v, decimal c = Some v -> 0 <= v <= 9) ->
  0 <= acc -> int_digits decimal ds acc = Some n -> acc <= n.
Proof.
  intros Hrange. revert acc. induction ds as [| c ds IH]; intros acc Hacc; cbn.
  - intros [= <-]. lia.
  - destruct (decimal c) as [v |] eqn:Hc; [| discriminate].
    intros Hn. specialize (Hrange c v Hc).
    assert (10 * acc + v <= n) by (apply IH; [lia | exact Hn]). lia.
Qed.

Lemma digits_prefix_no_digit (w : str) :
  match w with
  | c :: _ => is_digit decimal c = false
  | [] => True
  end ->
  digits_prefix decimal w = ([], w).
Proof. destruct w as [| c w]; cbn; [reflexivity |]. intros ->. reflexivity. Qed.

(** [to_interpreter_version] on a value that the pattern matches. *)
Lemma to_interpreter_version_matched (v s2 s3 ds rest : str) (d c : char)
    (major : Z) :
  strip_prefix (lit "python") v = Some (d :: s2) ->
  decimal d = Some major ->
  strip_prefix (lit ".") s2 = Some s3 ->
  digits_prefix decimal s3 = (c :: ds, rest) ->
  PythonAwsLambdaRuntime.to_interpreter_version decimal max_str_digits (Some v)
  = match int decimal max_str_digits (c :: ds) with
    | Some minor => Ok (Some (major, minor))
    | None => Err IntValueError
    end.
Proof.
  intros Hv Hmajor Hs2 Hds.
  unfold PythonAwsLambdaRuntime.to_interpreter_version.
  rewrite (AwsLambdaFacts.re_match_runtime decimal v), Hv.
  unfold is_digit. rewrite Hmajor, Hs2, Hds.
  cbn [group String.eqb Ascii.eqb Bool.eqb].
  rewrite (AwsLambdaFacts.int_one_digit decimal max_str_digits d major Hmajor).
  reflexivity.
Qed.

(** X19.  [to_interpreter_version] on any string: it raises
    [AttributeError] when the pattern does not match; when it matches, it
    never fails in [group], and it either raises the [ValueError] of [int],
    which takes a limit on the digits of a string and a value longer than
    the limit, or returns a version, whose major version is a single
    digit, between 0 and 9, and whose minor version is not negative.  Text
    added at the end of a value that the pattern matches changes nothing
    when it does not start with a digit, and otherwise never changes the
    major version and never lowers the minor one where a version is still
    returned. *)
Theorem to_interpreter_version_total (v : str) :
  (forall c d, decimal c = Some d -> 0 <= d <= 9) ->
  (re_match decimal PYTHON_RUNTIME_REGEX v = None
   /\ PythonAwsLambdaRuntime.to_interpreter_version decimal max_str_digits
        (Some v)
      = Err AttributeError)
  \/ (is_Some (re_match decimal PYTHON_RUNTIME_REGEX v)
      /\ (forall w,
            match w with
            | c :: _ => is_digit decimal c = false
            | [] => True
            end ->
            PythonAwsLambdaRuntime.to_interpreter_version decimal
              max_str_digits (Some (v ++ w))
            = PythonAwsLambdaRuntime.to_interpreter_version decimal
                max_str_digits (Some v))
      /\ ((PythonAwsLambdaRuntime.to_interpreter_version decimal
             max_str_digits (Some v)
           = Err IntValueError
           /\ max_str_digits <> 0%nat
           /\ (max_str_digits < length v)%nat
           /\ (max_str_digits_threshold < length v)%nat)
          \/ exists major minor,
               PythonAwsLambdaRuntime.to_interpreter_version decimal
                 max_str_digits (Some v)
               = Ok (Some (major, minor))
               /\ 0 <= major <= 9 /\ 0 <= minor
               /\ forall w,
                    PythonAwsLambdaRuntime.to_interpreter_version decimal
                      max_str_digits (Some (v ++ w))
                    = Err IntValueError
                    \/ exists minor',
                         PythonAwsLambdaRuntime.to_interpreter_version decimal
                           max_str_digits (Some (v ++ w))
                         = Ok (Some (major, minor'))
                         /\ minor <= minor')).
Proof.
  intros Hrange.
  pose proof (AwsLambdaFacts.re_match_runtime decimal v) as Hmatch.
  destruct (strip_prefix (lit "python") v) as [[| d s2] |] eqn:Hv.
  2: destruct (is_digit decimal d) eqn:Hd.
  2: destruct (strip_prefix (lit ".") s2) as [s3 |] eqn:Hs2.
  2: destruct (digits_prefix decimal s3) as [[| c ds] rest] eqn:Hds.
  all: try (left; split;
            [exact Hmatch
            | unfold PythonAwsLambdaRuntime.to_interpreter_version;
              rewrite Hmatch; reflexivity]).
  right. split; [rewrite Hmatch; eauto |].
  destruct (AwsLambdaFacts.digits_prefix_spec decimal _ _ _ Hds)
    as (Hs3 & Hall & Hrest).
  apply (AwsLambdaFacts.is_digit_decimal decimal) in Hd as [major Hmajor].
  destruct (AwsLambdaFacts.int_digits_Some decimal (c :: ds) 0 Hall)
    as [minor Hminor].
  assert (Hnonneg : 0 <= minor)
    by exact (int_digits_ge _ _ _ Hrange (Z.le_refl 0) Hminor).
  rewrite (to_interpreter_version_matched v s2 s3 ds rest d c major
             Hv Hmajor Hs2 Hds).
  assert (Hmore : forall w,
            exists dw,
              Forall (fun c => is_digit decimal c = true) dw
              /\ (match w with
                  | c :: _ => is_digit decimal c = false
                  | [] => True
                  end -> dw = [])
              /\ PythonAwsLambdaRuntime.to_interpreter_version decimal
                   max_str_digits (Some (v ++ w))
                 = match int decimal max_str_digits (c :: ds ++ dw) with
                   | Some minor => Ok (Some (major, minor))
                   | None => Err IntValueError
                   end).
  { intros w.
    pose proof (digits_prefix_app _ _ _ w Hds) as Hdsw.
    destruct rest as [| r rest].
    - destruct (digits_prefix decimal w) as [dw rw] eqn:Hw.
      cbn [fst snd] in Hdsw.
      destruct (AwsLambdaFacts.digits_prefix_spec decimal _ _ _ Hw)
        as (_ & Hdw & _).
      exists dw. split; [exact Hdw |]. split.
      + intros Hstart. rewrite (digits_prefix_no_digit w Hstart) in Hw.
        congruence.
      + exact (to_interpreter_version_matched (v ++ w) (s2 ++ w) (s3 ++ w)
                 (ds ++ dw) rw d c major
                 (strip_prefix_app_r _ _ _ w Hv) Hmajor
                 (strip_prefix_app_r _ _ _ w Hs2) Hdsw).
    - exists []. split; [constructor |]. split; [reflexivity |].
      rewrite app_nil_r.
      exact (to_interpreter_version_matched (v ++ w) (s2 ++ w) (s3 ++ w)
               ds ((r :: rest) ++ w) d c major
               (strip_prefix_app_r _ _ _ w Hv) Hmajor
               (strip_prefix_app_r _ _ _ w Hs2) Hdsw). }
  split.
  { intros w Hstart. destruct (Hmore w) as (dw & _ & Hdw & ->).
    rewrite (Hdw Hstart), app_nil_r. reflexivity. }
  rewrite (AwsLambdaFacts.int_digits_run decimal max_str_digits (c :: ds) minor)
    by (discriminate || exact Hminor).
  destruct (exceeds_limit max_str_digits (c :: ds)) eqn:Hlimit.
  - left. split; [reflexivity |].
    unfold exceeds_limit in Hlimit.
    apply andb_true_iff in Hlimit as [Hlimit Hlong].
    apply andb_true_iff in Hlimit as [Hover Hset].
    apply negb_true_iff, Nat.eqb_neq in Hset.
    apply Nat.ltb_lt in Hlong, Hover.
    apply AwsLambdaFacts.strip_prefix_Some in Hv, Hs2. subst v s2 s3.
    split; [exact Hset |].
    rewrite !length_app. cbn [length] in *. rewrite !length_app.
    cbn [length]. lia.
  - right. exists major, minor. split; [reflexivity |].
    split; [exact (Hrange d major Hmajor) |]. split; [exact Hnonneg |].
    intros w. destruct (Hmore w) as (dw & Hdigits & _ & ->).
    destruct (int decimal max_str_digits (c :: ds ++ dw)) as [minor' |] eqn:Hint;
      [right | left; reflexivity].
    exists minor'. split; [reflexivity |].
    destruct (AwsLambdaFacts.int_digits_Some decimal dw minor Hdigits)
      as [n Hn].
    assert (Hall' : int_digits decimal ((c :: ds) ++ dw) 0 = Some n)
      by (rewrite int_digits_app, Hminor; exact Hn).
    rewrite (AwsLambdaFacts.int_digits_run decimal max_str_digits
               (c :: ds ++ dw) n) in Hint by (discriminate || exact Hall').
    destruct (exceeds_limit max_str_digits (c :: ds ++ dw));
      [discriminate Hint |].
    injection Hint as <-.
    exact (int_digits_ge _ _ _ Hrange Hnonneg Hn).
Qed.

End RuntimeMore.

Lemma ascii_decimal_range (c : char) (d : Z) :
  ascii_decimal c = Some d -> 0 <= d <= 9.
Proof.
  unfold ascii_decimal.
  destruct ((48 <=? c)%N && (c <=? 57)%N) eqn:Hc; [| discriminate].
  apply andb_true_iff in Hc as [H1 H2].
  apply N.leb_le in H1, H2. intros [= <-]. lia.
Qed.

Lemma to_interpreter_version_total_witness :
  PythonAwsLambdaRuntime.to_interpreter_version ascii_decimal
    default_max_str_digits (Some (lit "python3.8" ++ lit "-beta")%list)
  = Ok (Some (3, 8))
  /\ exists minor',
       PythonAwsLambdaRuntime.to_interpreter_version ascii_decimal
         default_max_str_digits (Some (lit "python3.8" ++ lit "0")%list)
       = Ok (Some (3, minor')) /\ 8 <= minor'.
Proof.
  destruct (to_interpreter_version_total ascii_decimal default_max_str_digits
              (lit "python3.8") ascii_decimal_range)
    as [[Hnone _]
       | (_ & Hsame & [(Hraise & _)
                      | (major & minor & Hversion & _ & _ & Hmore)])];
    [vm_compute in Hnone; discriminate Hnone
    | vm_compute in Hraise; discriminate Hraise |].
  split.
  - rewrite Hsame by reflexivity. vm_compute. reflexivity.
  - vm_compute in Hversion. injection Hversion as <- <-.
    destruct (Hmore (lit "0")) as [Hraise | (minor' & Hv' & Hle)];
      [vm_compute in Hraise; discriminate Hraise | eauto].
Defined.

End AwsLambdaMoreFacts.


Module TestGoalMessageFacts.
Import TestGoal TestGoalMessage PyText PyTextFacts PathFacts.
Import EnrichedTestResult.

Lemma truthy_str_false (s : string) : truthy_str s = false -> s = "".
Proof. destruct s; [reflexivity | discriminate]. Qed.

Lemma append_truthy (s1 s2 : string) :
  truthy_str (s1 ++ s2) = truthy_str s1 || truthy_str s2.
Proof. destruct s1, s2; reflexivity. Qed.

(** The message, with the output as [captured] lays it out. *)
Lemma message_eq (r : t) :
  message r
  = if skipped r || negb (output_wanted r) then headline r
    else headline r
           ++ (if truthy_str (captured r)
               then rstrip (captured r) ++ LF ++ LF
               else "").
Proof.
  unfold message, headline, output_wanted, captured.
  destruct (skipped r); [reflexivity |].
  destruct (output_setting r), (exit_code_eqb (exit_code r) (Some 0));
    cbn [show_output_eqb orb andb negb]; try reflexivity;
    destruct (truthy_str (stdout r)), (truthy_str (stderr r));
    cbv zeta; rewrite ?append_nil_l, ?append_nil_r; reflexivity.
Qed.

(** X20.  The message of a result: it is the headline alone (the
    address, then [skipped], [succeeded] or [failed] with the exit code)
    for a skipped result, when the setting keeps the output out ([NONE],
    or [FAILED] for an exit code of 0) and when both streams are empty;
    otherwise it is the headline, the captured output without the
    whitespace at its end, and exactly two newlines. *)
Theorem message_is_headline_and_trimmed_output (r : t) :
  (skipped r = true \/ output_wanted r = false \/ captured r = "" ->
   message r = headline r)
  /\ (skipped r = false -> output_wanted r = true -> captured r <> "" ->
      exists body trail,
        message r = headline r ++ body ++ LF ++ LF
        /\ captured r = body ++ trail
        /\ spaces trail /\ no_trailing_space body).
Proof.
  rewrite message_eq. split.
  - intros [-> | [-> | Hc]];
      [reflexivity | cbn [negb]; rewrite orb_true_r; reflexivity |].
    rewrite Hc. cbn [truthy_str]. rewrite append_nil_r.
    destruct (_ || _); reflexivity.
  - intros -> -> Hc. cbn [orb negb].
    destruct (captured r) as [| a c] eqn:Hcaptured; [contradiction |].
    cbn [truthy_str].
    destruct (rstrip_spec (String a c)) as (trail & Htrail & Hspaces).
    exists (rstrip (String a c)), trail.
    split; [reflexivity |]. split; [exact Htrail |].
    split; [exact Hspaces | apply rstrip_no_trailing].
Qed.

Lemma message_is_headline_and_trimmed_output_witness :
  message (noisy_result FAILED 0) = "src:a succeeded."
  /\ exists body trail,
       message (noisy_result FAILED 2)
       = "src:a failed (exit code 2)." ++ body ++ LF ++ LF
       /\ captured (noisy_result FAILED 2) = body ++ trail
       /\ spaces trail /\ no_trailing_space body.
Proof.
  destruct (message_is_headline_and_trimmed_output (noisy_result FAILED 0))
    as [Hhead _].
  destruct (message_is_headline_and_trimmed_output (noisy_result FAILED 2))
    as [_ Hbody].
  split.
  - rewrite Hhead by (right; left; reflexivity). reflexivity.
  - apply Hbody; [reflexivity | reflexivity | discriminate].
Defined.


(** X21.  A skipped result is inert in every method: its message is
    the address and [skipped.], its level is DEBUG, it has no artifacts
    and no coverage data, the summary does not count it as failed, and it
    sorts before every result that has an exit code. *)
Theorem skipped_results_are_inert (r : t) :
  skipped r = true ->
  message r = spec (address r) ++ " skipped."
  /\ TestGoalMore.level r = GoSdk.DEBUG
  /\ artifacts r = None
  /\ coverage_data r = None
  /\ TestGoalSpec.failed r = false
  /\ forall r', exit_code r' <> None -> lt r r' = true /\ lt r' r = false.
Proof.
  intros Hskipped. unfold message, TestGoalMore.level, TestGoalSpec.failed.
  rewrite Hskipped. unfold skipped in Hskipped.
  rewrite !andb_true_iff, !negb_true_iff in Hskipped.
  destruct Hskipped as ((((Hcode & _) & _) & Hcoverage) & Hxml).
  unfold artifacts, lt.
  destruct (exit_code r); [discriminate Hcode |].
  destruct (xml_results r); [discriminate Hxml |].
  destruct (coverage_data r); [discriminate Hcoverage |].
  repeat (split; [reflexivity |]).
  intros r' Hr'. destruct (exit_code r'); [done | contradiction].
Qed.

Lemma skipped_results_are_inert_witness :
  message (TestGoalSpec.skipped_result (TestGoalSpec.target "c"))
  = "src:c skipped."
  /\ TestGoalMore.level (TestGoalSpec.skipped_result (TestGoalSpec.target "c"))
     = GoSdk.DEBUG.
Proof.
  destruct (skipped_results_are_inert
              (TestGoalSpec.skipped_result (TestGoalSpec.target "c")) eq_refl)
    as (Hmessage & Hlevel & _).
  split; [exact Hmessage | exact Hlevel].
Defined.

End TestGoalMessageFacts.
